(** * backgroundRemover: the [/remove-bg] endpoint of [app.py]

    A shallow embedding of the request handler [remove_background] and of
    its helpers [decode_base64_image], [fetch_image_from_url],
    [resize_if_needed] and [image_to_base64].

    Python values are modelled as the code sees them: the JSON body as a
    [json] value, exceptions as a class and a message, [int] as [Z] and
    [float] as an IEEE-754 binary64 number ([spec_float] with precision 53
    and maximal exponent 1024).  The libraries the handler calls (requests,
    base64, Pillow, rembg, the clock) are the fields of a [World]; the
    handler runs in a small monad that threads a trace of calls and
    propagates exceptions. *)

From Stdlib Require Import ZArith List String Ascii Bool Lia.
From Stdlib Require Import Floats.SpecFloat DecimalString Strings.Byte Zpower.
Import ListNotations.

Local Open Scope string_scope.
Local Open Scope Z_scope.

#[local] Set Warnings "-register-all".

(** ** Python values *)

Module Py.

(** A decoded JSON document, as [request.get_json()] returns it. *)
Inductive json : Type :=
| JNull
| JBool (b : bool)
| JInt (z : Z)
| JFloat (f : spec_float)
| JStr (s : string)
| JArr (l : list json)
| JObj (kvs : list (string * json)).

(** The exception classes that can reach the handler's [except] clauses. *)
Inductive exn_class : Type :=
| RequestException      (* requests.exceptions.RequestException *)
| HTTPError             (* requests.exceptions.HTTPError, a RequestException *)
| LocationParseError    (* urllib3: a ValueError, not a RequestException *)
| BadRequest            (* werkzeug: the body is not JSON *)
| AttributeError
| TypeError
| KeyError
| ValueError
| BinasciiError         (* binascii.Error, a ValueError *)
| UnidentifiedImageError
| ZeroDivisionError
| OverflowError
| LibraryError.         (* any other Exception raised inside a library *)

Record exn : Type := mk_exn { exn_cls : exn_class; exn_msg : string }.

(** [isinstance(e, requests.RequestException)] *)
Definition is_RequestException (c : exn_class) : bool :=
  match c with
  | RequestException | HTTPError => true
  | _ => false
  end.

(** [type(v).__name__] *)
Definition type_name (v : json) : string :=
  match v with
  | JNull => "NoneType"
  | JBool _ => "bool"
  | JInt _ => "int"
  | JFloat _ => "float"
  | JStr _ => "str"
  | JArr _ => "list"
  | JObj _ => "dict"
  end.

(** Truth value of an object, as [not data] tests it. *)
Definition truthy (v : json) : bool :=
  match v with
  | JNull => false
  | JBool b => b
  | JInt z => negb (z =? 0)
  | JFloat (S754_zero _) => false
  | JFloat _ => true
  | JStr s => negb (s =? "")%string
  | JArr l => match l with [] => false | _ => true end
  | JObj kvs => match kvs with [] => false | _ => true end
  end.

(** [d.get(k)] on the pairs of an object; the parser leaves each key once. *)
Fixpoint dict_get (k : string) (kvs : list (string * json)) : option json :=
  match kvs with
  | [] => None
  | (k', v) :: rest => if (k' =? k)%string then Some v else dict_get k rest
  end.

Definition dict_in (k : string) (kvs : list (string * json)) : bool :=
  match dict_get k kvs with Some _ => true | None => false end.

(** [k == v] for a [str] k. *)
Definition str_eq (k : string) (v : json) : bool :=
  match v with
  | JStr s => (s =? k)%string
  | _ => false
  end.

(** [k in s] for two strings: k occurs in s. *)
Fixpoint str_contains (k s : string) : bool :=
  prefix k s ||
  match s with
  | EmptyString => false
  | String _ rest => str_contains k rest
  end.

(** [s.split(',', 1)]: the parts before and after the first comma, when
    there is one. *)
Fixpoint split_comma (s : string) : option (string * string) :=
  match s with
  | EmptyString => None
  | String c rest =>
      if (c =? ",")%char then Some (EmptyString, rest)
      else match split_comma rest with
           | Some (a, b) => Some (String c a, b)
           | None => None
           end
  end.

Definition str_of_Z (z : Z) : string := NilZero.string_of_int (Z.to_int z).

End Py.
Import Py.

(** ** Binary64 arithmetic as the size computation uses it *)

Module Float.

Definition prec : Z := 53.
Definition emax : Z := 1024.

(** The result of an arithmetic operation: a value, or the class of the
    exception Python raises. *)
Inductive arith (A : Type) : Type :=
| Val (a : A)
| Err (c : exn_class) (msg : string).
Arguments Val {A} a.
Arguments Err {A} c msg.

(** An integer as an exact, not yet rounded, binary number. *)
Definition exact_of_Z (z : Z) : spec_float :=
  match z with
  | Z0 => S754_zero false
  | Zpos p => S754_finite false p 0
  | Zneg p => S754_finite true p 0
  end.

(** [float(z)]: the nearest double, ties to even. *)
Definition of_int (z : Z) : arith spec_float :=
  match binary_normalize prec emax z 0 false with
  | S754_infinity _ => Err OverflowError "int too large to convert to float"
  | f => Val f
  end.

(** [a / b] on two [int]: the correctly rounded quotient. *)
Definition truediv (a b : Z) : arith spec_float :=
  if b =? 0 then Err ZeroDivisionError "division by zero"
  else match SFdiv prec emax (exact_of_Z a) (exact_of_Z b) with
       | S754_infinity _ =>
           Err OverflowError "integer division result too large for a float"
       | f => Val f
       end.

(** [x * z] for a [float] x and an [int] z: z is converted first. *)
Definition mul_int (x : spec_float) (z : Z) : arith spec_float :=
  match of_int z with
  | Val fz => Val (SFmul prec emax x fz)
  | Err c msg => Err c msg
  end.

(** [int(x)]: truncation toward zero. *)
Definition to_int (x : spec_float) : arith Z :=
  match x with
  | S754_zero _ => Val 0
  | S754_finite s m e =>
      let a := match e with
               | Zneg n => Z.pos m / 2 ^ Z.pos n
               | _ => Z.pos m * 2 ^ e
               end in
      Val (if s then - a else a)
  | S754_infinity _ =>
      Err OverflowError "cannot convert float infinity to integer"
  | S754_nan => Err ValueError "cannot convert float NaN to integer"
  end.

(** [round(x)]: the nearest integer, ties to even. *)
Definition round_int (x : spec_float) : arith Z :=
  match x with
  | S754_zero _ => Val 0
  | S754_finite s m e =>
      let a :=
        match e with
        | Zneg k =>
            let den := 2 ^ Z.pos k in
            let q := Z.pos m / den in
            let r := Z.pos m mod den in
            match 2 * r ?= den with
            | Lt => q
            | Gt => q + 1
            | Eq => if Z.even q then q else q + 1
            end
        | _ => Z.pos m * 2 ^ e
        end in
      Val (if s then - a else a)
  | S754_infinity _ =>
      Err OverflowError "cannot convert float infinity to integer"
  | S754_nan => Err ValueError "cannot convert float NaN to integer"
  end.

(** [round(x, 2)]: x rounded to two decimals, ties of the exact binary value
    to even, then the nearest double of that decimal. *)
Definition round2 (x : spec_float) : spec_float :=
  match x with
  | S754_finite s m e =>
      let n :=
        match e with
        | Zneg k =>
            let den := 2 ^ Z.pos k in
            let q := (Z.pos m * 100) / den in
            let r := (Z.pos m * 100) mod den in
            match 2 * r ?= den with
            | Lt => q
            | Gt => q + 1
            | Eq => if Z.even q then q else q + 1
            end
        | _ => Z.pos m * 100 * 2 ^ e
        end in
      match n with
      | Zpos p => SFdiv prec emax (S754_finite s p 0) (S754_finite false 100 0)
      | _ => S754_zero s
      end
  | _ => x
  end.

End Float.

(** ** Images, the HTTP exchange and the libraries *)

(** A Pillow image: [image.size], [image.mode] and the raster. *)
Record image : Type := mk_image {
  width : Z;
  height : Z;
  mode : string;
  raster : list byte
}.

Definition size (im : image) : Z * Z := (width im, height im).

(** What a library call does: it returns, or raises with a message. *)
Inductive lib_result (A : Type) : Type :=
| Done (a : A)
| Failed (msg : string).
Arguments Done {A} a.
Arguments Failed {A} msg.

(** The [requests.Response] fields the code reads. *)
Record http_response : Type := mk_http_response {
  status_code : Z;
  reason : string;
  url : string;
  content : list byte
}.

(** [requests.get(url, timeout=30)] returns a response, raises a
    [RequestException] (connection failure, timeout, invalid URL), or lets
    an exception of another class through (urllib3's [LocationParseError]
    for a host name it cannot encode). *)
Inductive get_result : Type :=
| GetResponse (r : http_response)
| GetRaises (msg : string)
| GetRaisesOther (c : exn_class) (msg : string).

(** [request.get_json()]: the parsed body, or the exception the parser
    raises. *)
Inductive request : Type :=
| JsonRequest (data : json)
| BadJsonRequest (msg : string).

Inductive body : Type :=
| JsonBody (j : json)
| FileBody (mimetype : string) (bytes : list byte).

Record response : Type := mk_response { status : Z; resp_body : body }.

(** The configuration read at start-up and the behaviour of the libraries
    during one request. *)
Record World : Type := mk_World {
  MODEL_NAME : string;
  MAX_IMAGE_SIZE : Z;
  time_start : spec_float;                 (* first time.time() *)
  time_end : spec_float;                   (* second time.time() *)
  requests_get : json -> get_result;
  b64decode : string -> lib_result (list byte);
  Image_open : list byte -> lib_result image;
  convert_raster : image -> string -> lib_result (list byte);
  resample_raster : image -> Z * Z -> lib_result (list byte);
  rembg_remove : image -> json -> lib_result image;
  save_PNG : image -> lib_result (list byte)
}.

(** ** The monad of the handler: a trace of calls, and exceptions *)

Inductive event : Type :=
| Call_decode_base64_image (arg : json)
| Call_fetch_image_from_url (arg : json)
| Net_get (target : json)                         (* outbound fetch *)
| Call_resize_if_needed (im : image) (max_size : Z)
| Call_remove (im : image) (alpha_matting : json).

Inductive outcome (A : Type) : Type :=
| Returns (a : A)
| Raises (e : exn).
Arguments Returns {A} a.
Arguments Raises {A} e.

Definition M (A : Type) : Type := list event -> outcome A * list event.

Definition ret {A} (a : A) : M A := fun tr => (Returns a, tr).

Definition bind {A B} (m : M A) (k : A -> M B) : M B :=
  fun tr =>
    match m tr with
    | (Returns a, tr') => k a tr'
    | (Raises e, tr') => (Raises e, tr')
    end.

Definition raise {A} (c : exn_class) (msg : string) : M A :=
  fun tr => (Raises (mk_exn c msg), tr).

Definition emit (ev : event) : M unit := fun tr => (Returns tt, (tr ++ [ev])%list).

(** [try: m  except e: h e] *)
Definition try_except {A} (m : M A) (h : exn -> A) : M A :=
  fun tr =>
    match m tr with
    | (Returns a, tr') => (Returns a, tr')
    | (Raises e, tr') => (Returns (h e), tr')
    end.

Definition run {A} (m : M A) : outcome A * list event := m [].

Notation "x <- c ;; k" := (bind c (fun x => k))
  (at level 61, c at next level, right associativity).
Notation "c ;;; k" := (bind c (fun _ => k))
  (at level 61, right associativity).

Definition lift_lib {A} (c : exn_class) (r : lib_result A) : M A :=
  match r with
  | Done a => ret a
  | Failed msg => raise c msg
  end.

Definition lift_arith {A} (r : Float.arith A) : M A :=
  match r with
  | Float.Val a => ret a
  | Float.Err c msg => raise c msg
  end.

(** ** Library functions the handler relies on *)

Definition byte_Z (b : byte) : Z := Z.of_N (Byte.to_N b).

Definition b64_alphabet : string :=
  "ABCDEFGHIJKLMNOPQRSTUVWXYZabcdefghijklmnopqrstuvwxyz0123456789+/".

Definition b64_char (n : Z) : ascii :=
  match String.get (Z.to_nat n) b64_alphabet with
  | Some c => c
  | None => "="%char
  end.

(** [base64.b64encode(bs).decode('utf-8')] *)
Fixpoint b64encode (bs : list byte) : string :=
  match bs with
  | [] => ""
  | [a] =>
      let x := byte_Z a in
      String (b64_char (x / 4)) (String (b64_char (x mod 4 * 16)) "==")
  | [a; b] =>
      let x := byte_Z a in
      let y := byte_Z b in
      String (b64_char (x / 4))
        (String (b64_char (x mod 4 * 16 + y / 16))
           (String (b64_char (y mod 16 * 4)) "="))
  | a :: b :: c :: rest =>
      let x := byte_Z a in
      let y := byte_Z b in
      let z := byte_Z c in
      String (b64_char (x / 4))
        (String (b64_char (x mod 4 * 16 + y / 16))
           (String (b64_char (y mod 16 * 4 + z / 64))
              (String (b64_char (z mod 64)) (b64encode rest))))
  end.

(** [k in v] for a [str] k. *)
Definition py_contains (k : string) (v : json) : M bool :=
  match v with
  | JObj kvs => ret (dict_in k kvs)
  | JArr l => ret (existsb (str_eq k) l)
  | JStr s => ret (str_contains k s)
  | _ => raise TypeError
           ("argument of type '" ++ type_name v ++ "' is not iterable")
  end.

(** [v[k]] for a [str] k. *)
Definition py_getitem (v : json) (k : string) : M json :=
  match v with
  | JObj kvs =>
      match dict_get k kvs with
      | Some x => ret x
      | None => raise KeyError ("'" ++ k ++ "'")
      end
  | JArr _ => raise TypeError "list indices must be integers or slices, not str"
  | JStr _ => raise TypeError "string indices must be integers, not 'str'"
  | _ => raise TypeError ("'" ++ type_name v ++ "' object is not subscriptable")
  end.

(** [v.get(k, default)] *)
Definition py_get (v : json) (k : string) (default : json) : M json :=
  match v with
  | JObj kvs =>
      match dict_get k kvs with
      | Some x => ret x
      | None => ret default
      end
  | _ => raise AttributeError
           ("'" ++ type_name v ++ "' object has no attribute 'get'")
  end.

(** [response.raise_for_status()] *)
Definition raise_for_status (r : http_response) : M unit :=
  let sc := status_code r in
  if (400 <=? sc) && (sc <? 500) then
    raise HTTPError
      (str_of_Z sc ++ " Client Error: " ++ reason r ++ " for url: " ++ url r)
  else if (500 <=? sc) && (sc <? 600) then
    raise HTTPError
      (str_of_Z sc ++ " Server Error: " ++ reason r ++ " for url: " ++ url r)
  else ret tt.

(** [image.convert('RGBA')]: same size, mode RGBA. *)
Definition Image_convert (W : World) (im : image) (m : string) : M image :=
  px <- lift_lib ValueError (convert_raster W im m) ;;
  ret (mk_image (width im) (height im) m px).

(** [image.resize((w, h), Image.LANCZOS)]: Pillow refuses a size with a
    side below 1; otherwise the result has the requested size and the mode
    of the input. *)
Definition Image_resize (W : World) (im : image) (sz : Z * Z) : M image :=
  let '(w, h) := sz in
  if (w <? 1) || (h <? 1) then
    raise ValueError "height and width must be > 0"
  else
    px <- lift_lib LibraryError (resample_raster W im sz) ;;
    ret (mk_image w h (mode im) px).

(** ** The functions of [app.py] *)

(** Lines 42-46: the text handed to [base64.b64decode]; [None] when the
    unpacking of [split(',', 1)] fails. *)
Definition encoded_part (s : string) : option string :=
  if prefix "data:" s then
    match split_comma s with
    | Some (_, encoded) => Some encoded
    | None => None
    end
  else Some s.

(** Lines 40-49. *)
Definition decode_base64_image (W : World) (data_url_or_base64 : json)
  : M image :=
  emit (Call_decode_base64_image data_url_or_base64) ;;;
  match data_url_or_base64 with
  | JStr s =>
      encoded <-
        match encoded_part s with
        | Some encoded => ret encoded
        | None =>
            raise ValueError "not enough values to unpack (expected 2, got 1)"
        end ;;
      image_data <- lift_lib BinasciiError (b64decode W encoded) ;;
      lift_lib UnidentifiedImageError (Image_open W image_data)
  | v => raise AttributeError
           ("'" ++ type_name v ++ "' object has no attribute 'startswith'")
  end.

(** Lines 52-56. *)
Definition fetch_image_from_url (W : World) (target : json) : M image :=
  emit (Call_fetch_image_from_url target) ;;;
  emit (Net_get target) ;;;
  match requests_get W target with
  | GetRaises msg => raise RequestException msg
  | GetRaisesOther c msg => raise c msg
  | GetResponse r =>
      raise_for_status r ;;;
      lift_lib UnidentifiedImageError (Image_open W (content r))
  end.

(** [int((a / b) * max_size)], the expression of lines 65 and 68. *)
Definition scale_dim (a b max_size : Z) : Float.arith Z :=
  match Float.truediv a b with
  | Float.Err c msg => Float.Err c msg
  | Float.Val q =>
      match Float.mul_int q max_size with
      | Float.Err c msg => Float.Err c msg
      | Float.Val p => Float.to_int p
      end
  end.

(** Lines 63-68: the size requested from [image.resize]. *)
Definition new_size (w h max_size : Z) : Float.arith (Z * Z) :=
  if w >? h then
    match scale_dim h w max_size with
    | Float.Val new_height => Float.Val (max_size, new_height)
    | Float.Err c msg => Float.Err c msg
    end
  else
    match scale_dim w h max_size with
    | Float.Val new_width => Float.Val (new_width, max_size)
    | Float.Err c msg => Float.Err c msg
    end.

(** The smaller side as the specification words it,
    [round(max_size * (a / b))]: the same product, rounded to the nearest
    integer.  Not what the code computes; kept to compare with [scale_dim]. *)
Definition claimed_dim (a b max_size : Z) : Float.arith Z :=
  match Float.truediv a b with
  | Float.Err c msg => Float.Err c msg
  | Float.Val q =>
      match Float.mul_int q max_size with
      | Float.Err c msg => Float.Err c msg
      | Float.Val p => Float.round_int p
      end
  end.

(** Lines 59-70. *)
Definition resize_if_needed (W : World) (im : image) (max_size : Z)
  : M image :=
  emit (Call_resize_if_needed im max_size) ;;;
  let '(w, h) := size im in
  if (w >? max_size) || (h >? max_size) then
    sz <- lift_arith (new_size w h max_size) ;;
    Image_resize W im sz
  else ret im.

(** Lines 73-79, with the default [format='PNG']. *)
Definition image_to_base64 (W : World) (im : image) : M string :=
  png <- lift_lib LibraryError (save_PNG W im) ;;
  ret ("data:image/png;base64," ++ b64encode png).

Definition error_body (msg : string) : body :=
  JsonBody (JObj [("error", JStr msg)]).

Definition size_json (sz : Z * Z) : json := JArr [JInt (fst sz); JInt (snd sz)].

(** Lines 114-121: the image of the request; [None] when the payload names
    no source. *)
Definition get_image (W : World) (data : json) : M (option image) :=
  has_data <- py_contains "imageData" data ;;
  if has_data then
    v <- py_getitem data "imageData" ;;
    im <- decode_base64_image W v ;;
    ret (Some im)
  else
    has_url <- py_contains "imageUrl" data ;;
    if has_url then
      v <- py_getitem data "imageUrl" ;;
      im <- fetch_image_from_url W v ;;
      ret (Some im)
    else ret None.

(** Lines 123-125. *)
Definition ensure_rgb (W : World) (im : image) : M image :=
  if negb ((mode im =? "RGB")%string || (mode im =? "RGBA")%string)
  then Image_convert W im "RGBA"
  else ret im.

(** Lines 156-165: the JSON envelope of the inline form. *)
Definition envelope (data_url : string) (original_size processed_size : Z * Z)
  (elapsed : spec_float) : json :=
  JObj [("success", JBool true);
        ("dataUrl", JStr data_url);
        ("originalSize", size_json original_size);
        ("processedSize", size_json processed_size);
        ("processingTime", JFloat (Float.round2 elapsed))].

(** Lines 123-165: from the decoded image to the response. *)
Definition process (W : World) (data : json) (im : image) : M response :=
  im <- ensure_rgb W im ;;
  let original_size := size im in
  im <- resize_if_needed W im (MAX_IMAGE_SIZE W) ;;
  alpha_matting <- py_get data "alpha_matting" (JBool true) ;;
  return_format <- py_get data "return_format" (JStr "base64") ;;
  emit (Call_remove im alpha_matting) ;;;
  output_image <- lift_lib LibraryError (rembg_remove W im alpha_matting) ;;
  let elapsed := SFsub Float.prec Float.emax (time_end W) (time_start W) in
  if str_eq "binary" return_format then
    png <- lift_lib LibraryError (save_PNG W output_image) ;;
    ret (mk_response 200 (FileBody "image/png" png))
  else
    data_url <- image_to_base64 W output_image ;;
    ret (mk_response 200
           (JsonBody (envelope data_url original_size (size im) elapsed))).

(** Lines 109-165: the body of the [try]. *)
Definition remove_background_body (W : World) (req : request) : M response :=
  data <- (match req with
           | JsonRequest d => ret d
           | BadJsonRequest msg => raise BadRequest msg
           end) ;;
  if negb (truthy data) then
    ret (mk_response 400 (error_body "No JSON data provided"))
  else
    source <- get_image W data ;;
    match source with
    | None =>
        ret (mk_response 400
               (error_body "No image provided. Use imageData or imageUrl"))
    | Some im => process W data im
    end.

(** Lines 167-170: the two [except] clauses. *)
Definition on_exception (e : exn) : response :=
  if is_RequestException (exn_cls e) then
    mk_response 400 (error_body ("Failed to fetch image: " ++ exn_msg e))
  else
    mk_response 500 (error_body (exn_msg e)).

(** Lines 92-170. *)
Definition remove_background (W : World) (req : request) : M response :=
  try_except (remove_background_body W req) on_exception.

(** The response sent and the calls made for one request. *)
Definition respond (W : World) (req : request) : response :=
  match fst (run (remove_background W req)) with
  | Returns r => r
  | Raises e => on_exception e
  end.

Definition calls (W : World) (req : request) : list event :=
  snd (run (remove_background W req)).

(** ** Reasoning about computations *)

(** [m] appends [snd (run m)] to the trace and its outcome does not depend
    on the trace it starts from. *)
Definition uniform {A} (m : M A) : Prop :=
  forall tr, m tr = (fst (run m), (tr ++ snd (run m))%list).

(** [m] only emits events that satisfy [I]; when it returns, the value
    satisfies [Q]; when it raises, the exception satisfies [E]. *)
Definition triple {A} (I : event -> Prop) (m : M A)
  (Q : A -> Prop) (E : exn -> Prop) : Prop :=
  forall tr,
    exists s, snd (m tr) = (tr ++ s)%list /\ Forall I s /\
              match fst (m tr) with
              | Returns a => Q a
              | Raises e => E e
              end.

(** The images handed to the size normaliser and to rembg are RGB or RGBA. *)
Definition image_rgb (im : image) : Prop :=
  mode im = "RGB" \/ mode im = "RGBA".


(** The event is not a fetch. *)
Definition event_offline (ev : event) : Prop :=
  match ev with
  | Call_fetch_image_from_url _ => False
  | Net_get _ => False
  | _ => True
  end.

Definition not_fetch_error (e : exn) : Prop :=
  is_RequestException (exn_cls e) = false.

Definition option_default {A} (d : A) (o : option A) : A :=
  match o with Some a => a | None => d end.

(** The sizes of the images that [Image.open] returns: positive sides, and
    a pixel count that stays representable ([Image.open] itself refuses
    files above 178,956,970 pixels). *)
Definition pillow_size (im : image) : Prop :=
  0 < width im /\ 0 < height im /\ width im * height im <= 2 ^ 49.

(** The options of lines 132-133, with their defaults. *)
Definition alpha_of (kvs : list (string * json)) : json :=
  option_default (JBool true) (dict_get "alpha_matting" kvs).

Definition format_of (kvs : list (string * json)) : json :=
  option_default (JStr "base64") (dict_get "return_format" kvs).

Definition elapsed (W : World) : spec_float :=
  SFsub Float.prec Float.emax (time_end W) (time_start W).

(** The response of lines 147-165 for the PNG bytes of the result. *)
Definition success_response (W : World) (fmt : json) (png : list byte)
  (original_size processed_size : Z * Z) : response :=
  if str_eq "binary" fmt then mk_response 200 (FileBody "image/png" png)
  else
    mk_response 200
      (JsonBody
         (envelope ("data:image/png;base64," ++ b64encode png)
            original_size processed_size (elapsed W))).

(** Two payloads that agree on every key except [return_format]. *)
Definition same_but_format (kvs1 kvs2 : list (string * json)) : Prop :=
  (kvs1 = [] <-> kvs2 = []) /\
  forall k, k <> "return_format" -> dict_get k kvs1 = dict_get k kvs2.

(** ** A sample world, for concrete runs *)

Module Demo.

(** The eight bytes every PNG file starts with. *)
Definition png_bytes : list byte :=
  [x89; x50; x4e; x47; x0d; x0a; x1a; x0a].

Definition text_page : list byte := list_byte_of_string "<html>Example</html>".

Definition one : spec_float := S754_finite false 4503599627370496 (-52).
Definition one_and_half : spec_float :=
  S754_finite false 6755399441055744 (-52).

(** A world whose one image file decodes to [im]. *)
Definition world (im : image) (max_size : Z) : World :=
  {| MODEL_NAME := "u2net";
     MAX_IMAGE_SIZE := max_size;
     time_start := one;
     time_end := one_and_half;
     requests_get := fun target =>
       match target with
       | JStr "https://example.com/photo.png" =>
           GetResponse (mk_http_response 200 "OK"
                          "https://example.com/photo.png" png_bytes)
       | JStr "https://example.com/" =>
           GetResponse (mk_http_response 200 "OK"
                          "https://example.com/" text_page)
       | JStr "https://example.com/missing.png" =>
           GetResponse (mk_http_response 404 "Not Found"
                          "https://example.com/missing.png" text_page)
       | _ => GetRaises "Invalid URL"
       end;
     b64decode := fun s =>
       if (s =? "iVBORw0KGgo=")%string then Done png_bytes
       else Failed "Incorrect padding";
     Image_open := fun bs =>
       if (string_of_list_byte bs =? string_of_list_byte png_bytes)%string
       then Done im
       else Failed "cannot identify image file";
     convert_raster := fun i _ => Done (raster i);
     resample_raster := fun _ _ => Done [];
     rembg_remove := fun i _ =>
       Done (mk_image (width i) (height i) "RGBA" (raster i));
     save_PNG := fun _ => Done png_bytes |}.

Definition photo : image := mk_image 3000 1000 "RGB" [].
Definition thumb : image := mk_image 640 480 "RGB" [].
Definition scan : image := mk_image 640 480 "L" [].

Definition inline_request (extra : list (string * json)) : request :=
  JsonRequest (JObj (("imageData", JStr "iVBORw0KGgo=") :: extra)).

End Demo.

(** ** The other endpoints and the start-up configuration *)

(** Lines 82-89. *)
Definition health (W : World) : response :=
  mk_response 200
    (JsonBody
       (JObj [("status", JStr "healthy");
              ("model", JStr (MODEL_NAME W));
              ("max_image_size", JInt (MAX_IMAGE_SIZE W))])).

(** Lines 173-184. *)
Definition list_models (W : World) : response :=
  mk_response 200
    (JsonBody
       (JObj
          [("current", JStr (MODEL_NAME W));
           ("available",
             JArr
               [JObj [("name", JStr "u2net");
                      ("description", JStr "Fast, good quality")];
                JObj [("name", JStr "birefnet-general");
                      ("description", JStr "Best quality, slower")];
                JObj [("name", JStr "isnet-general-use");
                      ("description", JStr "Good for general images")];
                JObj [("name", JStr "u2net_human_seg");
                      ("description", JStr "Optimized for humans")]])])).

Module Config.

(** [os.environ.get(k, default)] on the environment as a list of pairs. *)
Fixpoint environ_get (env : list (string * string)) (k default : string)
  : string :=
  match env with
  | [] => default
  | (k', v) :: rest =>
      if (k' =? k)%string then v else environ_get rest k default
  end.

(** [s.split(',')]: the pieces between the commas, at least one. *)
Fixpoint split_commas (s : string) : list string :=
  match s with
  | EmptyString => [EmptyString]
  | String c rest =>
      if (c =? ",")%char then EmptyString :: split_commas rest
      else match split_commas rest with
           | x :: xs => String c x :: xs
           | [] => [String c EmptyString]
           end
  end.

(** Line 32. *)
Definition ALLOWED_ORIGINS (env : list (string * string)) : list string :=
  split_commas (environ_get env "ALLOWED_ORIGINS" "*").

(** [c.lower()] on one character of an ASCII string. *)
Definition lower_char (c : ascii) : ascii :=
  let n := nat_of_ascii c in
  if (Nat.leb 65 n && Nat.leb n 90)%bool then ascii_of_nat (n + 32) else c.

(** [s.lower()] on the bytes of the text: the ASCII capitals are lowered, any
    other byte stays.  Python lowers the capitals outside ASCII as well; none
    of them becomes a letter of "true", so that the comparison of line 189
    reads the same. *)
Fixpoint lower (s : string) : string :=
  match s with
  | EmptyString => EmptyString
  | String c rest => String (lower_char c) (lower rest)
  end.

(** Line 189. *)
Definition debug (env : list (string * string)) : bool :=
  (lower (environ_get env "DEBUG" "false") =? "true")%string.

End Config.

(** ** Reference notions for the further properties *)

(** The text has no comma. *)
Fixpoint no_comma (s : string) : Prop :=
  match s with
  | EmptyString => True
  | String c rest => c <> ","%char /\ no_comma rest
  end.

(** The value of a base64 digit, the inverse of [b64_char]. *)
Fixpoint b64_find (c : ascii) (alphabet : string) (i : Z) : option Z :=
  match alphabet with
  | EmptyString => None
  | String a rest => if (a =? c)%char then Some i else b64_find c rest (i + 1)
  end.

Definition b64_value (c : ascii) : option Z := b64_find c b64_alphabet 0.

Definition byte_of_Z (z : Z) : option byte := Byte.of_N (Z.to_N z).

(** A reference decoder for canonical base64 text: groups of four digits,
    the last one padded with one or two [=]. *)
Fixpoint b64decode_ref (s : string) : option (list byte) :=
  match s with
  | EmptyString => Some []
  | String c1 (String c2 (String c3 (String c4 rest))) =>
      match b64_value c1, b64_value c2 with
      | Some v1, Some v2 =>
          match byte_of_Z (v1 * 4 + v2 / 16) with
          | None => None
          | Some b1 =>
              if (c3 =? "=")%char then
                if (c4 =? "=")%char then
                  match rest with EmptyString => Some [b1] | _ => None end
                else None
              else
                match b64_value c3 with
                | None => None
                | Some v3 =>
                    match byte_of_Z (v2 mod 16 * 16 + v3 / 4) with
                    | None => None
                    | Some b2 =>
                        if (c4 =? "=")%char then
                          match rest with
                          | EmptyString => Some [b1; b2]
                          | _ => None
                          end
                        else
                          match b64_value c4 with
                          | None => None
                          | Some v4 =>
                              match byte_of_Z (v3 mod 4 * 64 + v4),
                                    b64decode_ref rest with
                              | Some b3, Some bs => Some (b1 :: b2 :: b3 :: bs)
                              | _, _ => None
                              end
                          end
                    end
                end
          end
      | _, _ => None
      end
  | _ => None
  end.

(** The shapes a trace of one request can take: at most one source call
    (with its single fetch), then at most one sizing, then at most one
    inference. *)
Definition source_calls (tr : list event) : Prop :=
  tr = [] \/
  (exists v, tr = [Call_decode_base64_image v]) \/
  (exists v, tr = [Call_fetch_image_from_url v; Net_get v]).

Definition processing_calls (W : World) (tr : list event) : Prop :=
  tr = [] \/
  (exists im1, tr = [Call_resize_if_needed im1 (MAX_IMAGE_SIZE W)]) \/
  (exists im1 im2 a,
      tr = [Call_resize_if_needed im1 (MAX_IMAGE_SIZE W); Call_remove im2 a]).

(** The response is an error answer: a JSON object with the one field
    [error]. *)
Definition error_answer (r : response) : Prop :=
  exists msg, resp_body r = error_body msg.

(** The fetch of lines 54-55 does not deliver a body: [requests.get] raises,
    or the status is one [raise_for_status] refuses. *)
Definition fetch_fails (W : World) (target : json) : bool :=
  match requests_get W target with
  | GetRaises _ => true
  | GetRaisesOther c _ => is_RequestException c
  | GetResponse r => (400 <=? status_code r) && (status_code r <? 600)
  end.

Module Faulty.

(** The sample world with an inference that runs out of memory. *)
Definition world : World :=
  {| MODEL_NAME := "u2net";
     MAX_IMAGE_SIZE := 2048;
     time_start := Demo.one;
     time_end := Demo.one_and_half;
     requests_get := requests_get (Demo.world Demo.thumb 2048);
     b64decode := b64decode (Demo.world Demo.thumb 2048);
     Image_open := Image_open (Demo.world Demo.thumb 2048);
     convert_raster := convert_raster (Demo.world Demo.thumb 2048);
     resample_raster := resample_raster (Demo.world Demo.thumb 2048);
     rembg_remove := fun _ _ => Failed "onnxruntime: out of memory";
     save_PNG := save_PNG (Demo.world Demo.thumb 2048) |}.

End Faulty.

(** ** Reference notions for the claims *)

(** The inline value [v] cannot be decoded, and [msg] is the message of the
    exception: [v] is not a string; it starts with "data:" and has no comma;
    [base64.b64decode] refuses its encoded part; or Pillow cannot parse the
    decoded bytes.  What is valid is what the two libraries accept. *)
Inductive undecodable (W : World) : json -> string -> Prop :=
| not_a_string v :
    (forall s, v <> JStr s) ->
    undecodable W v
      ("'" ++ type_name v ++ "' object has no attribute 'startswith'")
| data_without_comma s :
    encoded_part s = None ->
    undecodable W (JStr s) "not enough values to unpack (expected 2, got 1)"
| refused_by_b64decode s encoded msg :
    encoded_part s = Some encoded ->
    b64decode W encoded = Failed msg ->
    undecodable W (JStr s) msg
| refused_by_Pillow s encoded bytes msg :
    encoded_part s = Some encoded ->
    b64decode W encoded = Done bytes ->
    Image_open W bytes = Failed msg ->
    undecodable W (JStr s) msg.

(** Valid base64 as RFC 4648 defines it: groups of four characters of the
    alphabet, the last one padded with [=]; nothing else in the text. *)
Definition valid_base64 (s : string) : bool :=
  match b64decode_ref s with Some _ => true | None => false end.

(** [n] is the integer nearest to [100 * m * 2 ^ e], the even one when two
    integers are equally near. *)
Definition nearest_hundredths (m : positive) (e : Z) (n : Z) : Prop :=
  let num := 100 * Z.pos m * 2 ^ Z.max e 0 in
  let den := 2 ^ Z.max (- e) 0 in
  2 * Z.abs (num - n * den) <= den /\
  (2 * Z.abs (num - n * den) = den -> Z.even n = true).

(** [t] is [x] rounded to two decimals: the binary64 quotient [n / 100] for
    the number [n] of hundredths nearest to [x], with the sign of [x]; an
    infinity or a NaN is left as it is. *)
Definition rounded_to_two_decimals (x t : spec_float) : Prop :=
  match x with
  | S754_finite s m e =>
      exists n,
        nearest_hundredths m e n /\
        t = match n with
            | Zpos p =>
                SFdiv Float.prec Float.emax
                  (S754_finite s p 0) (S754_finite false 100 0)
            | _ => S754_zero s
            end
  | _ => t = x
  end.

(** ** A second sample world, with the libraries' lenient sides *)

Module Sample.

(** A PNG file of 133 bytes: 64 x 64 pixels, 8-bit RGB, one colour. *)
Definition png_file : list byte :=
  [x89; x50; x4e; x47; x0d; x0a; x1a; x0a; x00; x00; x00; x0d; x49; x48;
   x44; x52; x00; x00; x00; x40; x00; x00; x00; x40; x08; x02; x00; x00;
   x00; x25; x0b; xe6; x89; x00; x00; x00; x4c; x49; x44; x41; x54; x78;
   xda; xed; xcf; x41; x09; x00; x00; x08; x04; xb0; x8b; x6e; x73; x2f;
   x82; x6f; x61; xb0; x02; xcb; x4e; x5e; x8b; x80; x80; x80; x80; x80;
   x80; x80; x80; x80; x80; x80; x80; x80; x80; x80; x80; x80; x80; x80;
   x80; x80; x80; x80; x80; x80; x80; x80; x80; x80; x80; x80; x80; x80;
   x80; x80; x80; x80; x80; x80; x80; x80; x80; x80; x80; x80; x80; xc0;
   xa5; xf9; x81; xf1; x5a; x67; x86; xdd; x7f; x00; x00; x00; x00; x49;
   x45; x4e; x44; xae; x42; x60; x82].

(** The base64 text of the file, with an exclamation mark put after its first
    four characters. *)
Definition junk_text : string :=
   "iVBO!Rw0KGgoAAAANSUhEUgAAAEAAAABACAIAAAAlC+aJAAAATElEQVR42u3" ++
   "PQQkAAAgEsItucy+Cb2GwAstOXouAgICAgICAgICAgICAgICAgICAgICAgIC" ++
   "AgICAgICAgICAgICAgICAgICAgICAwKX5gfFaZ4bdfwAAAABJRU5ErkJggg=" ++
   "=".

Definition picture : image := mk_image 64 64 "RGB" [].

Definition to_byte (z : Z) : byte :=
  match byte_of_Z z with Some b => b | None => x00 end.

(** [binascii.a2b_base64] without [strict_mode], as CPython 3.11 runs it for
    [base64.b64decode(s)]: a character outside the alphabet is skipped, a
    complete padding ends the input, and only an incomplete last group is
    an error. *)
Fixpoint a2b_base64 (s : string) (quad_pos leftchar pads : Z)
  (out : list byte) : lib_result (list byte) :=
  match s with
  | EmptyString =>
      if quad_pos =? 0 then Done out
      else if quad_pos =? 1 then
        Failed
          ("Invalid base64-encoded string: number of data characters (" ++
           str_of_Z (Z.of_nat (List.length out) / 3 * 4 + 1) ++
           ") cannot be 1 more than a multiple of 4")
      else Failed "Incorrect padding"
  | String c rest =>
      if (c =? "=")%char then
        if 2 <=? quad_pos then
          if 4 <=? quad_pos + (pads + 1) then Done out
          else a2b_base64 rest quad_pos leftchar (pads + 1) out
        else a2b_base64 rest quad_pos leftchar pads out
      else
        match b64_value c with
        | None => a2b_base64 rest quad_pos leftchar pads out
        | Some v =>
            if quad_pos =? 0 then a2b_base64 rest 1 v 0 out
            else if quad_pos =? 1 then
              a2b_base64 rest 2 (v mod 16) 0
                (out ++ [to_byte (leftchar * 4 + v / 16)])
            else if quad_pos =? 2 then
              a2b_base64 rest 3 (v mod 4) 0
                (out ++ [to_byte (leftchar * 16 + v / 4)])
            else
              a2b_base64 rest 0 0 0 (out ++ [to_byte (leftchar * 64 + v)])
        end
  end.

Fixpoint is_ascii (s : string) : bool :=
  match s with
  | EmptyString => true
  | String c rest => (nat_of_ascii c <? 128)%nat && is_ascii rest
  end.

(** [base64.b64decode(s)] for a [str]. *)
Definition b64decode_lenient (s : string) : lib_result (list byte) :=
  if is_ascii s then a2b_base64 s 0 0 0 []
  else Failed "string argument should contain only ASCII characters".

(** The world: the file above is the one image Pillow opens, and the host
    name with an empty label is the one urllib3 refuses to encode. *)
Definition world : World :=
  {| MODEL_NAME := "u2net";
     MAX_IMAGE_SIZE := 2048;
     time_start := Demo.one;
     time_end := Demo.one_and_half;
     requests_get := fun target =>
       match target with
       | JStr "http://example..com/a.png" =>
           GetRaisesOther LocationParseError
             "Failed to parse: 'example..com', label empty or too long"
       | _ => GetRaises "Invalid URL"
       end;
     b64decode := b64decode_lenient;
     Image_open := fun bs =>
       if (string_of_list_byte bs =? string_of_list_byte png_file)%string
       then Done picture
       else Failed "cannot identify image file";
     convert_raster := fun i _ => Done (raster i);
     resample_raster := fun _ _ => Done [];
     rembg_remove := fun i _ =>
       Done (mk_image (width i) (height i) "RGBA" (raster i));
     save_PNG := fun _ => Done png_file |}.

End Sample.

(** * Properties *)

(** ** The monad *)

Lemma uniform_ret {A} (a : A) : uniform (ret a).
Proof. intros tr. unfold ret, run. simpl. now rewrite app_nil_r. Qed.

Lemma uniform_raise {A} c msg : uniform (@raise A c msg).
Proof. intros tr. unfold raise, run. simpl. now rewrite app_nil_r. Qed.

Lemma uniform_emit ev : uniform (emit ev).
Proof. intros tr. reflexivity. Qed.

Lemma uniform_bind {A B} (m : M A) (k : A -> M B) :
  uniform m -> (forall a, uniform (k a)) -> uniform (bind m k).
Proof.
  intros Hm Hk tr. unfold bind, run.
  rewrite (Hm tr). unfold run.
  destruct (m []) as [[a | e] t0]; simpl.
  - rewrite (Hk a (tr ++ t0)%list), (Hk a t0). unfold run. simpl.
    now rewrite app_assoc.
  - reflexivity.
Qed.

Lemma uniform_lift_lib {A} c (r : lib_result A) : uniform (lift_lib c r).
Proof. destruct r; [apply uniform_ret | apply uniform_raise]. Qed.

Lemma uniform_lift_arith {A} (r : Float.arith A) : uniform (lift_arith r).
Proof. destruct r; [apply uniform_ret | apply uniform_raise]. Qed.

Lemma triple_ret {A} I (a : A) (Q : A -> Prop) E : Q a -> triple I (ret a) Q E.
Proof.
  intros Ha tr. exists []. simpl. rewrite app_nil_r. auto.
Qed.

Lemma triple_raise {A} I c msg (Q : A -> Prop) (E : exn -> Prop) :
  E (mk_exn c msg) -> triple I (raise c msg) Q E.
Proof.
  intros He tr. exists []. simpl. rewrite app_nil_r. auto.
Qed.

Lemma triple_emit I ev (Q : unit -> Prop) E :
  I ev -> Q tt -> triple I (emit ev) Q E.
Proof.
  intros Hi Hq tr. exists [ev]. simpl. auto.
Qed.

Lemma triple_bind {A B} I (m : M A) (k : A -> M B) Q R E :
  triple I m Q E -> (forall a, Q a -> triple I (k a) R E) ->
  triple I (bind m k) R E.
Proof.
  intros Hm Hk tr. unfold bind.
  destruct (Hm tr) as (s & Hs & Is & Ho).
  destruct (m tr) as [[a | e] t0]; simpl in *; subst t0.
  - destruct (Hk a Ho (tr ++ s)%list) as (s' & Hs' & Is' & Ho').
    exists (s ++ s')%list. rewrite Hs', app_assoc. split; [reflexivity |].
    split; [now apply Forall_app | exact Ho'].
  - exists s. auto.
Qed.

Lemma triple_lift_lib {A} I c (r : lib_result A) (Q : A -> Prop)
  (E : exn -> Prop) :
  (forall a, r = Done a -> Q a) ->
  (forall msg, r = Failed msg -> E (mk_exn c msg)) ->
  triple I (lift_lib c r) Q E.
Proof.
  intros Hq He. destruct r; [apply triple_ret | apply triple_raise]; auto.
Qed.

Lemma triple_lift_arith {A} I (r : Float.arith A) (Q : A -> Prop)
  (E : exn -> Prop) :
  (forall a, r = Float.Val a -> Q a) ->
  (forall c msg, r = Float.Err c msg -> E (mk_exn c msg)) ->
  triple I (lift_arith r) Q E.
Proof.
  intros Hq He. destruct r; [apply triple_ret | apply triple_raise]; auto.
Qed.

(** ** Running the handler *)

Ltac unfold_handler :=
  unfold respond, calls, run, remove_background, try_except,
    remove_background_body, get_image, py_contains, py_getitem, bind, ret.

Ltac unfold_monad :=
  unfold lift_lib, lift_arith; unfold bind, ret, raise, emit.

Lemma dict_get_in k kvs v : dict_get k kvs = Some v -> dict_in k kvs = true.
Proof. unfold dict_in. now intros ->. Qed.

Lemma dict_get_nonempty k kvs v :
  dict_get k kvs = Some v -> truthy (JObj kvs) = true.
Proof. destruct kvs; [discriminate | reflexivity]. Qed.

Example b64encode_png_signature :
  b64encode Demo.png_bytes = "iVBORw0KGgo=".
Proof. reflexivity. Qed.

Example b64encode_rfc4648 :
  map (fun s => b64encode (list_byte_of_string s))
      [""; "f"; "fo"; "foo"; "foob"; "fooba"; "foobar"]
  = [""; "Zg=="; "Zm8="; "Zm9v"; "Zm9vYg=="; "Zm9vYmE="; "Zm9vYmFy"].
Proof. reflexivity. Qed.

(** The handler never lets an exception escape: it always answers. *)
Lemma remove_background_returns W req :
  exists r, fst (run (remove_background W req)) = Returns r.
Proof.
  unfold run, remove_background, try_except.
  destruct (remove_background_body W req []) as [[r | e] t]; simpl; eauto.
Qed.

(** ** C1: payloads that name no image source *)

(** C1, as amended.  A payload object with neither ["imageData"] nor
    ["imageUrl"] is answered with status 400 and no call is made; the [error]
    text is "No image provided. Use imageData or imageUrl" when the object
    has at least one key, and "No JSON data provided" for the empty object,
    which the guard [if not data] of line 111 catches first. *)
Theorem C1_missing_input (W : World) (kvs : list (string * json)) :
  dict_in "imageData" kvs = false ->
  dict_in "imageUrl" kvs = false ->
  run (remove_background W (JsonRequest (JObj kvs))) =
    (Returns
       (mk_response 400
          (error_body
             match kvs with
             | [] => "No JSON data provided"
             | _ :: _ => "No image provided. Use imageData or imageUrl"
             end)),
     []).
Proof.
  intros Hd Hu. destruct kvs as [| kv kvs].
  - reflexivity.
  - unfold_handler. simpl truthy. cbn [negb].
    rewrite Hd, Hu. reflexivity.
Qed.

Lemma C1_missing_input_witness :
  dict_in "imageData" [("alpha_matting", JBool false)] = false /\
  dict_in "imageUrl" [("alpha_matting", JBool false)] = false /\
  run (remove_background (Demo.world Demo.photo 2048)
         (JsonRequest (JObj [("alpha_matting", JBool false)]))) =
    (Returns
       (mk_response 400
          (error_body "No image provided. Use imageData or imageUrl")),
     []).
Proof.
  split; [reflexivity |]. split; [reflexivity |].
  apply (C1_missing_input (Demo.world Demo.photo 2048)
           [("alpha_matting", JBool false)]); reflexivity.
Defined.

(** C1 as stated fails on the empty object: [{}] has neither key, and the
    answer carries another [error] text. *)
Lemma C1_empty_object_counterexample :
  dict_in "imageData" [] = false /\
  dict_in "imageUrl" [] = false /\
  respond (Demo.world Demo.photo 2048) (JsonRequest (JObj [])) =
    mk_response 400 (error_body "No JSON data provided") /\
  respond (Demo.world Demo.photo 2048) (JsonRequest (JObj [])) <>
    mk_response 400
      (error_body "No image provided. Use imageData or imageUrl").
Proof.
  repeat split; try reflexivity. vm_compute. discriminate.
Qed.

(** ** The stages of [process] *)

Lemma ensure_rgb_uniform W im : uniform (ensure_rgb W im).
Proof.
  unfold ensure_rgb, Image_convert.
  destruct (negb _).
  - apply uniform_bind; [apply uniform_lift_lib | intros; apply uniform_ret].
  - apply uniform_ret.
Qed.

Lemma ensure_rgb_silent W im tr : snd (ensure_rgb W im tr) = tr.
Proof.
  unfold ensure_rgb, Image_convert. unfold_monad.
  destruct (negb _); [destruct (convert_raster W im "RGBA") |]; reflexivity.
Qed.

(** Lines 123-125 leave an RGB or RGBA image of the same size. *)
Lemma ensure_rgb_returns W im tr im1 :
  fst (ensure_rgb W im tr) = Returns im1 ->
  image_rgb im1 /\ size im1 = size im.
Proof.
  unfold ensure_rgb, Image_convert, image_rgb. unfold_monad.
  destruct (mode im =? "RGB")%string eqn:E1; simpl.
  - intros [= <-]. apply String.eqb_eq in E1. auto.
  - destruct (mode im =? "RGBA")%string eqn:E2; simpl.
    + intros [= <-]. apply String.eqb_eq in E2. auto.
    + destruct (convert_raster W im "RGBA"); simpl; [| discriminate].
      intros [= <-]. simpl. auto.
Qed.

Lemma Image_resize_uniform W im sz : uniform (Image_resize W im sz).
Proof.
  unfold Image_resize. destruct sz as [w h].
  destruct (_ || _).
  - apply uniform_raise.
  - apply uniform_bind; [apply uniform_lift_lib | intros; apply uniform_ret].
Qed.

Lemma Image_resize_returns W im sz tr im' :
  fst (Image_resize W im sz tr) = Returns im' ->
  size im' = sz /\ mode im' = mode im /\ 1 <= fst sz /\ 1 <= snd sz.
Proof.
  unfold Image_resize. destruct sz as [w h]. unfold_monad.
  destruct (w <? 1) eqn:Ew; [discriminate |].
  destruct (h <? 1) eqn:Eh; [discriminate |]. simpl.
  destruct (resample_raster W im (w, h)); simpl; [| discriminate].
  intros [= <-]. apply Z.ltb_ge in Ew, Eh. simpl. auto.
Qed.

Lemma resize_if_needed_uniform W im max_size :
  uniform (resize_if_needed W im max_size).
Proof.
  unfold resize_if_needed.
  apply uniform_bind; [apply uniform_emit | intros _].
  simpl. destruct (_ || _).
  - apply uniform_bind; [apply uniform_lift_arith |].
    intros sz. apply Image_resize_uniform.
  - apply uniform_ret.
Qed.

Lemma resize_if_needed_trace W im max_size tr :
  snd (resize_if_needed W im max_size tr) =
    (tr ++ [Call_resize_if_needed im max_size])%list.
Proof.
  unfold resize_if_needed, Image_resize. unfold_monad. simpl.
  destruct (_ || _); [| reflexivity].
  destruct (new_size _ _ _) as [[w h] | c msg]; [| reflexivity].
  simpl. destruct ((w <? 1) || (h <? 1)); [reflexivity |].
  destruct (resample_raster W im (w, h)); reflexivity.
Qed.

(** Both sides within the threshold: the image is returned as it is. *)
Lemma resize_if_needed_within W im max_size tr :
  width im <= max_size -> height im <= max_size ->
  resize_if_needed W im max_size tr =
    (Returns im, (tr ++ [Call_resize_if_needed im max_size])%list).
Proof.
  intros Hw Hh. unfold resize_if_needed. unfold_monad. simpl.
  replace (width im >? max_size) with false
    by (symmetry; rewrite Z.gtb_ltb; apply Z.ltb_ge; lia).
  replace (height im >? max_size) with false
    by (symmetry; rewrite Z.gtb_ltb; apply Z.ltb_ge; lia).
  reflexivity.
Qed.

(** A side above the threshold: the image is resized to [new_size]. *)
Lemma resize_if_needed_above W im max_size tr :
  max_size < Z.max (width im) (height im) ->
  fst (resize_if_needed W im max_size tr) =
    match new_size (width im) (height im) max_size with
    | Float.Val sz => fst (run (Image_resize W im sz))
    | Float.Err c msg => Raises (mk_exn c msg)
    end.
Proof.
  intros Hm. unfold resize_if_needed. unfold bind at 1. simpl.
  replace ((width im >? max_size) || (height im >? max_size)) with true.
  2:{ symmetry. apply orb_true_iff. rewrite !Z.gtb_ltb, !Z.ltb_lt. lia. }
  unfold bind, lift_arith.
  destruct (new_size _ _ _) as [sz | c msg]; [| reflexivity].
  unfold ret. rewrite (Image_resize_uniform W im sz). reflexivity.
Qed.

Lemma resize_if_needed_mode W im max_size tr im' :
  fst (resize_if_needed W im max_size tr) = Returns im' ->
  mode im' = mode im.
Proof.
  unfold resize_if_needed. unfold bind at 1. simpl.
  destruct (_ || _).
  - unfold bind, lift_arith.
    destruct (new_size _ _ _) as [sz | c msg]; [| discriminate].
    unfold ret. intros H. now apply Image_resize_returns in H.
  - unfold ret. now intros [= <-].
Qed.

Lemma py_get_obj kvs k d :
  py_get (JObj kvs) k d = ret (option_default d (dict_get k kvs)).
Proof. unfold py_get. now destruct (dict_get k kvs). Qed.

(** A request whose image could be obtained is a non-empty object. *)
Lemma get_image_Some W data im tr0 :
  run (get_image W data) = (Returns (Some im), tr0) ->
  exists kvs, data = JObj kvs /\ truthy data = true.
Proof.
  intros H. unfold run, get_image, py_contains, py_getitem in H.
  destruct data as [| b | z | f | s | l | kvs];
    try (unfold bind, raise in H; simpl in H; discriminate).
  - unfold bind, ret, raise in H. simpl in H.
    destruct (str_contains "imageData" s); [discriminate |].
    destruct (str_contains "imageUrl" s); discriminate.
  - unfold bind, ret, raise in H. simpl in H.
    destruct (existsb (str_eq "imageData") l); [discriminate |].
    destruct (existsb (str_eq "imageUrl") l); discriminate.
  - exists kvs. split; [reflexivity |].
    destruct kvs; [| reflexivity].
    unfold bind, ret in H. simpl in H. discriminate.
Qed.

(** Once the image is obtained, the response is that of [process], with the
    [except] clauses applied. *)
Lemma remove_background_process W data im tr0 :
  run (get_image W data) = (Returns (Some im), tr0) ->
  run (remove_background W (JsonRequest data)) =
    match process W data im tr0 with
    | (Returns r, t) => (Returns r, t)
    | (Raises e, t) => (Returns (on_exception e), t)
    end.
Proof.
  intros H. destruct (get_image_Some _ _ _ _ H) as (kvs & -> & Ht).
  unfold run, remove_background, try_except, remove_background_body.
  unfold bind at 1. unfold ret at 1. rewrite Ht. cbn [negb].
  unfold bind at 1. unfold run in H. rewrite H. reflexivity.
Qed.

(** What a run of [process] that returns has gone through. *)
Lemma process_returns W data im tr r tr' :
  process W data im tr = (Returns r, tr') ->
  exists kvs im1 im2 out png,
    data = JObj kvs /\
    fst (run (ensure_rgb W im)) = Returns im1 /\
    fst (run (resize_if_needed W im1 (MAX_IMAGE_SIZE W))) = Returns im2 /\
    rembg_remove W im2 (alpha_of kvs) = Done out /\
    save_PNG W out = Done png /\
    tr' = (tr ++ [Call_resize_if_needed im1 (MAX_IMAGE_SIZE W);
                  Call_remove im2 (alpha_of kvs)])%list /\
    r = success_response W (format_of kvs) png (size im1) (size im2).
Proof.
  unfold process. unfold bind at 1.
  rewrite (ensure_rgb_uniform W im tr).
  pose proof (ensure_rgb_silent W im []) as Hs. unfold run.
  destruct (fst (ensure_rgb W im [])) as [im1 | e] eqn:E1; [| discriminate].
  rewrite Hs, app_nil_r. simpl fst.
  unfold bind at 1.
  rewrite (resize_if_needed_uniform W im1 (MAX_IMAGE_SIZE W) tr).
  pose proof (resize_if_needed_trace W im1 (MAX_IMAGE_SIZE W) []) as Ht.
  unfold run. rewrite Ht.
  destruct (fst (resize_if_needed W im1 (MAX_IMAGE_SIZE W) [])) as [im2 | e]
    eqn:E2; [| discriminate].
  simpl fst. simpl app.
  destruct data as [| b | z | f | s | l | kvs];
    try (unfold bind, py_get, raise; simpl; discriminate).
  rewrite !py_get_obj. fold (alpha_of kvs). fold (format_of kvs).
  unfold bind at 1. unfold ret at 1.
  unfold bind at 1. unfold ret at 1.
  unfold bind at 1. unfold emit at 1.
  unfold bind at 1. unfold lift_lib at 1.
  destruct (rembg_remove W im2 (alpha_of kvs)) as [out | msg] eqn:E3;
    [| unfold raise; discriminate].
  unfold ret at 1. unfold success_response, image_to_base64, elapsed.
  destruct (str_eq "binary" (format_of kvs)) eqn:Ef.
  - unfold bind, lift_lib.
    destruct (save_PNG W out) as [png | msg] eqn:E4;
      [| unfold raise; discriminate].
    unfold ret. intros [= <- <-].
    exists kvs, im1, im2, out, png. rewrite <- app_assoc, Ef. simpl.
    auto 10.
  - unfold bind, lift_lib.
    destruct (save_PNG W out) as [png | msg] eqn:E4;
      [| unfold raise; discriminate].
    unfold ret. intros [= <- <-].
    exists kvs, im1, im2, out, png. rewrite <- app_assoc, Ef. simpl.
    auto 10.
Qed.


Lemma triple_seq {A B} I (m : M A) (k : A -> M B) R E :
  triple I m (fun _ => True) E -> (forall a, triple I (k a) R E) ->
  triple I (bind m k) R E.
Proof. intros Hm Hk. eapply triple_bind; [exact Hm | auto]. Qed.

Lemma triple_lib {A} I c (r : lib_result A) (E : exn -> Prop) :
  (forall msg, E (mk_exn c msg)) -> triple I (lift_lib c r) (fun _ => True) E.
Proof. intros He. apply triple_lift_lib; auto. Qed.



Lemma py_get_triple I v k d :
  triple I (py_get v k d) (fun _ => True) not_fetch_error.
Proof.
  destruct v; simpl; try (now apply triple_raise).
  destruct (dict_get k kvs); now apply triple_ret.
Qed.

Lemma decode_base64_image_triple I W v :
  I (Call_decode_base64_image v) ->
  triple I (decode_base64_image W v) (fun _ => True) not_fetch_error.
Proof.
  intros Hi. unfold decode_base64_image.
  apply triple_seq; [now apply triple_emit | intros _].
  destruct v; try (now apply triple_raise).
  apply triple_seq.
  { destruct (encoded_part s); [now apply triple_ret | now apply triple_raise]. }
  intros encoded. apply triple_seq; [now apply triple_lib | intros bytes].
  now apply triple_lib.
Qed.

Lemma decode_base64_image_trace W v tr :
  snd (decode_base64_image W v tr) = (tr ++ [Call_decode_base64_image v])%list.
Proof.
  unfold decode_base64_image. unfold_monad.
  destruct v; try reflexivity. simpl.
  destruct (encoded_part s); [| reflexivity].
  destruct (b64decode W s0); [| reflexivity].
  destruct (Image_open W a); reflexivity.
Qed.


Lemma ensure_rgb_triple I W im :
  triple I (ensure_rgb W im) image_rgb not_fetch_error.
Proof.
  intros tr. exists []. rewrite app_nil_r.
  split; [apply ensure_rgb_silent |]. split; [constructor |].
  destruct (fst (ensure_rgb W im tr)) as [im1 | e] eqn:E.
  - now apply ensure_rgb_returns in E.
  - revert E. unfold ensure_rgb, Image_convert. unfold_monad.
    destruct (negb _); [| discriminate].
    destruct (convert_raster W im "RGBA"); simpl; [discriminate |].
    now intros [= <-].
Qed.

Lemma scale_dim_error a b m c msg :
  scale_dim a b m = Float.Err c msg -> is_RequestException c = false.
Proof.
  unfold scale_dim, Float.truediv, Float.mul_int, Float.of_int, Float.to_int.
  destruct (b =? 0); [now intros [= <- _] |].
  destruct (SFdiv _ _ _ _); try (now intros [= <- _]);
    destruct (binary_normalize _ _ _ _ _); try (now intros [= <- _]);
    destruct (SFmul _ _ _ _); try discriminate; now intros [= <- _].
Qed.

Lemma new_size_error w h m c msg :
  new_size w h m = Float.Err c msg -> is_RequestException c = false.
Proof.
  unfold new_size. destruct (w >? h).
  - destruct (scale_dim h w m) eqn:E; [discriminate |].
    intros [= <- <-]. eapply scale_dim_error, E.
  - destruct (scale_dim w h m) eqn:E; [discriminate |].
    intros [= <- <-]. eapply scale_dim_error, E.
Qed.

Lemma resize_if_needed_triple I W im n :
  I (Call_resize_if_needed im n) ->
  triple I (resize_if_needed W im n) (fun im' => mode im' = mode im)
    not_fetch_error.
Proof.
  intros Hi tr. exists [Call_resize_if_needed im n].
  split; [apply resize_if_needed_trace |]. split; [auto |].
  destruct (fst (resize_if_needed W im n tr)) as [im' | e] eqn:E.
  - eapply resize_if_needed_mode, E.
  - revert E. unfold resize_if_needed, Image_resize. unfold_monad. simpl.
    destruct (_ || _); [| discriminate].
    destruct (new_size _ _ _) as [[w h] | c msg] eqn:En.
    + simpl. destruct ((w <? 1) || (h <? 1)); [now intros [= <-] |].
      destruct (resample_raster W im (w, h)); [discriminate |].
      now intros [= <-].
    + intros [= <-]. unfold not_fetch_error. simpl.
      eapply new_size_error, En.
Qed.

Lemma process_triple I W data im :
  (forall im' n, image_rgb im' -> I (Call_resize_if_needed im' n)) ->
  (forall im' a, image_rgb im' -> I (Call_remove im' a)) ->
  triple I (process W data im) (fun r => status r = 200) not_fetch_error.
Proof.
  intros H1 H2. unfold process.
  eapply triple_bind; [apply ensure_rgb_triple | intros im1 Hrgb].
  eapply triple_bind;
    [apply resize_if_needed_triple, H1, Hrgb | intros im2 Hmode].
  assert (Hrgb2 : image_rgb im2) by (unfold image_rgb in *; now rewrite Hmode).
  apply triple_seq; [apply py_get_triple | intros alpha].
  apply triple_seq; [apply py_get_triple | intros fmt].
  apply triple_seq; [apply triple_emit; auto | intros _].
  apply triple_seq; [now apply triple_lib | intros out].
  destruct (str_eq "binary" fmt).
  - apply triple_seq; [now apply triple_lib | intros png].
    now apply triple_ret.
  - unfold image_to_base64.
    apply triple_seq; [| intros u; now apply triple_ret].
    apply triple_seq; [now apply triple_lib | intros png].
    now apply triple_ret.
Qed.

Lemma on_exception_status e :
  status (on_exception e) = 400 \/ status (on_exception e) = 500.
Proof. unfold on_exception. destruct (is_RequestException _); auto. Qed.

(** What a request answered with status 200 has gone through. *)
Lemma success_run W data im tr0 :
  run (get_image W data) = (Returns (Some im), tr0) ->
  status (respond W (JsonRequest data)) = 200 ->
  exists kvs im1 im2 out png,
    data = JObj kvs /\
    fst (run (ensure_rgb W im)) = Returns im1 /\
    image_rgb im1 /\ size im1 = size im /\
    fst (run (resize_if_needed W im1 (MAX_IMAGE_SIZE W))) = Returns im2 /\
    rembg_remove W im2 (alpha_of kvs) = Done out /\
    save_PNG W out = Done png /\
    calls W (JsonRequest data) =
      (tr0 ++ [Call_resize_if_needed im1 (MAX_IMAGE_SIZE W);
               Call_remove im2 (alpha_of kvs)])%list /\
    respond W (JsonRequest data) =
      success_response W (format_of kvs) png (size im) (size im2).
Proof.
  intros Hg. unfold respond, calls.
  rewrite (remove_background_process _ _ _ _ Hg).
  destruct (process W data im tr0) as [[r | e] t] eqn:E; simpl.
  - intros _.
    destruct (process_returns _ _ _ _ _ _ E)
      as (kvs & im1 & im2 & out & png & -> & H1 & H2 & H3 & H4 & -> & ->).
    destruct (ensure_rgb_returns W im [] im1 H1) as [Hrgb Hsz].
    exists kvs, im1, im2, out, png. rewrite <- Hsz. auto 10.
  - intros Hs. destruct (on_exception_status e) as [H | H];
      rewrite H in Hs; discriminate.
Qed.

(** ** The run of the handler on a payload object *)

Lemma get_image_object W kvs tr :
  get_image W (JObj kvs) tr =
    match dict_get "imageData" kvs with
    | Some v =>
        match decode_base64_image W v tr with
        | (Returns im, t) => (Returns (Some im), t)
        | (Raises e, t) => (Raises e, t)
        end
    | None =>
        match dict_get "imageUrl" kvs with
        | Some v =>
            match fetch_image_from_url W v tr with
            | (Returns im, t) => (Returns (Some im), t)
            | (Raises e, t) => (Raises e, t)
            end
        | None => (Returns None, tr)
        end
    end.
Proof.
  unfold get_image, py_contains, py_getitem, dict_in.
  unfold bind at 1. unfold ret at 1.
  destruct (dict_get "imageData" kvs) as [v |].
  - unfold bind at 1. unfold ret at 1. unfold bind.
    destruct (decode_base64_image W v tr) as [[im | e] t]; reflexivity.
  - unfold bind at 1. unfold ret at 1.
    destruct (dict_get "imageUrl" kvs) as [v |]; [| reflexivity].
    unfold bind at 1. unfold ret at 1. unfold bind.
    destruct (fetch_image_from_url W v tr) as [[im | e] t]; reflexivity.
Qed.

(** The fetch of lines 52-56, in full. *)
Lemma fetch_image_from_url_run W v tr :
  fetch_image_from_url W v tr =
    (match requests_get W v with
     | GetRaises msg => Raises (mk_exn RequestException msg)
     | GetRaisesOther c msg => Raises (mk_exn c msg)
     | GetResponse r =>
         let sc := status_code r in
         if (400 <=? sc) && (sc <? 500) then
           Raises (mk_exn HTTPError
                     (str_of_Z sc ++ " Client Error: " ++ reason r
                      ++ " for url: " ++ url r))
         else if (500 <=? sc) && (sc <? 600) then
           Raises (mk_exn HTTPError
                     (str_of_Z sc ++ " Server Error: " ++ reason r
                      ++ " for url: " ++ url r))
         else
           match Image_open W (content r) with
           | Done im => Returns im
           | Failed msg => Raises (mk_exn UnidentifiedImageError msg)
           end
     end,
     (tr ++ [Call_fetch_image_from_url v; Net_get v])%list).
Proof.
  unfold fetch_image_from_url, raise_for_status. unfold_monad.
  rewrite <- app_assoc. cbn [app].
  destruct (requests_get W v) as [r | msg | c msg];
    [| reflexivity | reflexivity].
  cbv zeta.
  destruct ((400 <=? status_code r) && (status_code r <? 500));
    [reflexivity |].
  destruct ((500 <=? status_code r) && (status_code r <? 600));
    [reflexivity |].
  destruct (Image_open W (content r)); reflexivity.
Qed.

(** The run of the handler on an object. *)
Lemma remove_background_object W kvs :
  run (remove_background W (JsonRequest (JObj kvs))) =
    match kvs with
    | [] => (Returns (mk_response 400 (error_body "No JSON data provided")), [])
    | _ :: _ =>
        match get_image W (JObj kvs) [] with
        | (Returns (Some im), t) =>
            match process W (JObj kvs) im t with
            | (Returns r, t') => (Returns r, t')
            | (Raises e, t') => (Returns (on_exception e), t')
            end
        | (Returns None, t) =>
            (Returns
               (mk_response 400
                  (error_body "No image provided. Use imageData or imageUrl")),
             t)
        | (Raises e, t) => (Returns (on_exception e), t)
        end
    end.
Proof.
  destruct kvs as [| kv kvs]; [reflexivity |].
  cbv [run remove_background try_except remove_background_body bind ret].
  cbn [truthy negb].
  destruct (get_image W (JObj (kv :: kvs)) []) as [[[im |] | e] t];
    reflexivity.
Qed.

Lemma on_exception_error e : error_answer (on_exception e).
Proof.
  unfold on_exception, error_answer.
  destruct (is_RequestException _); eexists; reflexivity.
Qed.

Lemma remove_background_url W kvs target :
  dict_get "imageData" kvs = None ->
  dict_get "imageUrl" kvs = Some target ->
  run (remove_background W (JsonRequest (JObj kvs))) =
    match fetch_image_from_url W target [] with
    | (Returns im, t) =>
        match process W (JObj kvs) im t with
        | (Returns r, t') => (Returns r, t')
        | (Raises e, t') => (Returns (on_exception e), t')
        end
    | (Raises e, t) => (Returns (on_exception e), t)
    end.
Proof.
  intros Hd Hu. rewrite remove_background_object.
  destruct kvs as [| kv kvs]; [discriminate |].
  rewrite get_image_object, Hd, Hu.
  destruct (fetch_image_from_url W target []) as [[im | e] t]; reflexivity.
Qed.

(** The inline decoding of lines 40-49, in full. *)
Lemma decode_base64_image_run W v tr :
  decode_base64_image W v tr =
    (match v with
     | JStr s =>
         match encoded_part s with
         | None =>
             Raises
               (mk_exn ValueError
                  "not enough values to unpack (expected 2, got 1)")
         | Some encoded =>
             match b64decode W encoded with
             | Failed msg => Raises (mk_exn BinasciiError msg)
             | Done bytes =>
                 match Image_open W bytes with
                 | Failed msg => Raises (mk_exn UnidentifiedImageError msg)
                 | Done im => Returns im
                 end
             end
         end
     | _ =>
         Raises
           (mk_exn AttributeError
              ("'" ++ type_name v ++
               "' object has no attribute 'startswith'"))
     end,
     (tr ++ [Call_decode_base64_image v])%list).
Proof.
  unfold decode_base64_image. unfold_monad.
  destruct v as [| b | z | f | s | l | kvs]; try reflexivity.
  destruct (encoded_part s) as [encoded |]; [| reflexivity].
  cbn [lift_lib]. unfold_monad.
  destruct (b64decode W encoded) as [bytes | msg]; [| reflexivity].
  destruct (Image_open W bytes); reflexivity.
Qed.

(** A value that cannot be decoded makes the helper raise, with the message
    of [undecodable] and a class that is no [RequestException]. *)
Lemma undecodable_raises W v msg :
  undecodable W v msg ->
  exists c,
    is_RequestException c = false /\
    forall tr,
      decode_base64_image W v tr =
        (Raises (mk_exn c msg), (tr ++ [Call_decode_base64_image v])%list).
Proof.
  intros [v' Hv | s He | s encoded msg' He Hb | s encoded bytes msg' He Hb Ho].
  - exists AttributeError. split; [reflexivity |]. intros tr.
    rewrite decode_base64_image_run.
    destruct v' as [| b | z | f | s | l | kvs]; try reflexivity.
    exfalso. now apply (Hv s).
  - exists ValueError. split; [reflexivity |]. intros tr.
    rewrite decode_base64_image_run, He. reflexivity.
  - exists BinasciiError. split; [reflexivity |]. intros tr.
    rewrite decode_base64_image_run, He, Hb. reflexivity.
  - exists UnidentifiedImageError. split; [reflexivity |]. intros tr.
    rewrite decode_base64_image_run, He, Hb, Ho. reflexivity.
Qed.

(** Every value is either refused in one of the four ways, or decoded by
    the two libraries. *)
Lemma undecodable_or_decoded W v :
  (exists msg, undecodable W v msg) \/
  (exists s encoded bytes im,
      v = JStr s /\ encoded_part s = Some encoded /\
      b64decode W encoded = Done bytes /\ Image_open W bytes = Done im).
Proof.
  destruct v as [| b | z | f | s | l | kvs];
    try (left; eexists; apply not_a_string; intros s; discriminate).
  destruct (encoded_part s) as [encoded |] eqn:He;
    [| left; eexists; now apply data_without_comma].
  destruct (b64decode W encoded) as [bytes | msg] eqn:Hb;
    [| left; exists msg; now apply (refused_by_b64decode W s encoded)].
  destruct (Image_open W bytes) as [im | msg] eqn:Ho;
    [| left; exists msg; now apply (refused_by_Pillow W s encoded bytes)].
  right. exists s, encoded, bytes, im. auto.
Qed.

Lemma inline_undecodable_run W kvs v msg :
  dict_get "imageData" kvs = Some v ->
  undecodable W v msg ->
  run (remove_background W (JsonRequest (JObj kvs))) =
    (Returns (mk_response 500 (error_body msg)),
     [Call_decode_base64_image v]).
Proof.
  intros Hd Hu. rewrite remove_background_object.
  destruct kvs as [| kv kvs]; [discriminate |].
  rewrite get_image_object, Hd.
  destruct (undecodable_raises W v msg Hu) as (c & Hc & Hrun).
  rewrite Hrun. unfold on_exception. cbn [exn_cls exn_msg].
  rewrite Hc. reflexivity.
Qed.

Lemma inline_decoded_run W kvs s encoded bytes im :
  dict_get "imageData" kvs = Some (JStr s) ->
  encoded_part s = Some encoded ->
  b64decode W encoded = Done bytes ->
  Image_open W bytes = Done im ->
  run (get_image W (JObj kvs)) =
    (Returns (Some im), [Call_decode_base64_image (JStr s)]).
Proof.
  intros Hd He Hb Ho. unfold run.
  rewrite get_image_object, Hd, decode_base64_image_run, He, Hb, Ho.
  reflexivity.
Qed.

(** ** When the answer is 400 *)

Lemma process_not_400 W data im tr :
  match fst (process W data im tr) with
  | Returns r => status r <> 400
  | Raises e => status (on_exception e) <> 400
  end.
Proof.
  destruct (process_triple event_offline W data im
              (fun _ _ _ => I) (fun _ _ _ => I) tr) as (s & _ & _ & Ho).
  destruct (fst (process W data im tr)) as [r | e].
  - rewrite Ho. discriminate.
  - unfold on_exception. unfold not_fetch_error in Ho. rewrite Ho.
    discriminate.
Qed.

Lemma decode_not_400 W v tr e :
  fst (decode_base64_image W v tr) = Raises e ->
  status (on_exception e) <> 400.
Proof.
  intros H.
  destruct (decode_base64_image_triple event_offline W v I tr)
    as (s & _ & _ & Ho).
  rewrite H in Ho. unfold on_exception. unfold not_fetch_error in Ho.
  rewrite Ho. discriminate.
Qed.

(** The status of the answer to a payload object is 400 in three
    situations, and in no other. *)
Lemma object_status_400 W kvs :
  status (respond W (JsonRequest (JObj kvs))) = 400 <->
  kvs = [] \/
  (dict_get "imageData" kvs = None /\
   match dict_get "imageUrl" kvs with
   | None => True
   | Some target => fetch_fails W target = true
   end).
Proof.
  unfold respond. rewrite remove_background_object.
  destruct kvs as [| kv kvs].
  { cbn. split; auto. }
  rewrite get_image_object.
  destruct (dict_get "imageData" (kv :: kvs)) as [v |] eqn:Hd.
  - split; [| intros [H | [H _]]; discriminate].
    intros H. exfalso. revert H.
    destruct (decode_base64_image W v []) as [[im | e] t] eqn:E.
    + pose proof (process_not_400 W (JObj (kv :: kvs)) im t) as Hp.
      destruct (process W (JObj (kv :: kvs)) im t) as [[r | e] t'];
        exact Hp.
    + cbn [fst]. apply (decode_not_400 W v []). now rewrite E.
  - destruct (dict_get "imageUrl" (kv :: kvs)) as [target |] eqn:Hu.
    + rewrite fetch_image_from_url_run. unfold fetch_fails.
      destruct (requests_get W target) as [r | msg | c msg].
      * cbv zeta.
        destruct ((400 <=? status_code r) && (status_code r <? 500)) eqn:E4.
        { cbn. split; [intros _ | reflexivity]. right. split; [reflexivity |].
          apply andb_true_iff in E4 as [E4a E4b].
          apply Z.leb_le in E4a. apply Z.ltb_lt in E4b.
          apply andb_true_iff. split; [apply Z.leb_le | apply Z.ltb_lt]; lia. }
        destruct ((500 <=? status_code r) && (status_code r <? 600)) eqn:E5.
        { cbn. split; [intros _ | reflexivity]. right. split; [reflexivity |].
          apply andb_true_iff in E5 as [E5a E5b].
          apply Z.leb_le in E5a. apply Z.ltb_lt in E5b.
          apply andb_true_iff. split; [apply Z.leb_le | apply Z.ltb_lt]; lia. }
        assert (Hnf : (400 <=? status_code r) && (status_code r <? 600) = false).
        { apply andb_false_iff. apply andb_false_iff in E4, E5.
          rewrite Z.leb_gt, Z.ltb_ge in *. lia. }
        rewrite Hnf.
        split; [| intros [H | [_ H]]; discriminate].
        intros H. exfalso. revert H.
        destruct (Image_open W (content r)) as [im | msg].
        -- pose proof (process_not_400 W (JObj (kv :: kvs)) im
                         [Call_fetch_image_from_url target; Net_get target])
             as Hp. cbn [app].
           destruct (process W (JObj (kv :: kvs)) im
                       [Call_fetch_image_from_url target; Net_get target])
             as [[r' | e] t']; exact Hp.
        -- cbn. discriminate.
      * cbn. split; auto.
      * cbn [fst]. unfold on_exception. cbn [exn_cls exn_msg].
        destruct (is_RequestException c); cbn [status].
        -- split; auto.
        -- split; [discriminate |]. intros [H | [_ H]]; discriminate.
    + cbn. split; auto.
Qed.

(** An answer that is not 200 is an error answer with status 400 or 500. *)
Lemma status_cases W req :
  status (respond W req) = 200 \/
  ((status (respond W req) = 400 \/ status (respond W req) = 500) /\
   error_answer (respond W req)).
Proof.
  unfold respond.
  cbv [run remove_background try_except remove_background_body bind ret].
  destruct req as [data | msg].
  - destruct (negb (truthy data)).
    + right. split; [now left | eexists; reflexivity].
    + destruct (get_image W data []) as [[[im |] | e] t].
      * pose proof (process_triple event_offline W data im
                      (fun _ _ _ => I) (fun _ _ _ => I) t) as (s & _ & _ & Ho).
        destruct (process W data im t) as [[r | e] t']; cbn [fst] in *.
        -- now left.
        -- right. split; [apply on_exception_status | apply on_exception_error].
      * right. split; [now left | eexists; reflexivity].
      * right. cbn [fst].
        split; [apply on_exception_status | apply on_exception_error].
  - right. cbn. split; [now right | eexists; reflexivity].
Qed.

(** ** C2: a fetched body that is not an image *)

(** C2, as amended.  For a payload without ["imageData"] whose ["imageUrl"]
    is [target]: when the fetch answers with a 2xx status and Pillow cannot
    parse the body, the response is status 500 with the parser's message as
    [error], the failure being no [RequestException]; and the response is
    status 400 exactly when the fetch itself fails with a
    [RequestException], that is when [requests.get] raises one or the status
    of the response is from 400 to 599. *)
Theorem C2_fetched_non_image (W : World) (kvs : list (string * json))
  (target : json) :
  dict_in "imageData" kvs = false ->
  dict_get "imageUrl" kvs = Some target ->
  (forall r msg,
      requests_get W target = GetResponse r ->
      200 <= status_code r < 300 ->
      Image_open W (content r) = Failed msg ->
      run (remove_background W (JsonRequest (JObj kvs))) =
        (Returns (mk_response 500 (error_body msg)),
         [Call_fetch_image_from_url target; Net_get target])) /\
  (status (respond W (JsonRequest (JObj kvs))) = 400 <->
   match requests_get W target with
   | GetResponse r => 400 <= status_code r < 600
   | GetRaises _ => True
   | GetRaisesOther c _ => is_RequestException c = true
   end).
Proof.
  intros Hd Hu.
  assert (Hd' : dict_get "imageData" kvs = None).
  { unfold dict_in in Hd. now destruct (dict_get "imageData" kvs). }
  split.
  - intros r msg Hget Hst Hopen.
    rewrite (remove_background_url W kvs target Hd' Hu).
    rewrite fetch_image_from_url_run, Hget. cbv zeta.
    replace ((400 <=? status_code r) && (status_code r <? 500)) with false
      by (symmetry; apply andb_false_iff; left; apply Z.leb_gt; lia).
    replace ((500 <=? status_code r) && (status_code r <? 600)) with false
      by (symmetry; apply andb_false_iff; left; apply Z.leb_gt; lia).
    rewrite Hopen. reflexivity.
  - rewrite object_status_400, Hd', Hu. unfold fetch_fails.
    destruct (requests_get W target) as [r | msg | c msg].
    + rewrite andb_true_iff, Z.leb_le, Z.ltb_lt. split.
      * intros [-> | [_ H]]; [discriminate | exact H].
      * intros H. right. now split.
    + split; [auto | intros _; right; now split].
    + split.
      * intros [-> | [_ H]]; [discriminate | exact H].
      * intros H. right. now split.
Qed.

Lemma C2_fetched_non_image_witness :
  run (remove_background (Demo.world Demo.photo 2048)
         (JsonRequest (JObj [("imageUrl", JStr "https://example.com/")]))) =
    (Returns (mk_response 500 (error_body "cannot identify image file")),
     [Call_fetch_image_from_url (JStr "https://example.com/");
      Net_get (JStr "https://example.com/")]).
Proof.
  apply (proj1 (C2_fetched_non_image (Demo.world Demo.photo 2048)
                  [("imageUrl", JStr "https://example.com/")]
                  (JStr "https://example.com/") eq_refl eq_refl)
           (mk_http_response 200 "OK" "https://example.com/" Demo.text_page)
           "cannot identify image file");
    try reflexivity.
  simpl. lia.
Defined.

(** C2 as stated fails: a text page served with status 200 is answered with
    500, not 400. *)
Lemma C2_text_page_counterexample :
  let W := Demo.world Demo.photo 2048 in
  let kvs := [("imageUrl", JStr "https://example.com/")] in
  dict_in "imageData" kvs = false /\
  requests_get W (JStr "https://example.com/") =
    GetResponse
      (mk_http_response 200 "OK" "https://example.com/" Demo.text_page) /\
  Image_open W Demo.text_page = Failed "cannot identify image file" /\
  status (respond W (JsonRequest (JObj kvs))) = 500 /\
  status (respond W (JsonRequest (JObj kvs))) <> 400.
Proof.
  repeat split; try reflexivity. vm_compute. discriminate.
Qed.

(** A failure of the fetch itself is what the clause of line 167 answers with
    400: here a 404 from the remote server. *)
Example fetch_404_response :
  respond (Demo.world Demo.photo 2048)
    (JsonRequest (JObj [("imageUrl", JStr "https://example.com/missing.png")]))
  = mk_response 400
      (error_body
         "Failed to fetch image: 404 Client Error: Not Found for url: https://example.com/missing.png").
Proof. reflexivity. Qed.

(** ** C6: inline data that cannot be decoded *)

(** C6, as amended.  When the ["imageData"] value cannot be decoded - it is
    not a string, it starts with "data:" and has no comma, [b64decode]
    refuses its encoded part, or Pillow cannot parse the decoded bytes - the
    response is status 500 with the message of the exception, after the one
    call of the helper and without a fetch.  Every other value is decoded:
    what [b64decode] accepts counts, whether or not the text is valid
    base64. *)
Theorem C6_inline_decode_error (W : World) (kvs : list (string * json))
  (v : json) :
  dict_get "imageData" kvs = Some v ->
  (forall msg,
      undecodable W v msg ->
      run (remove_background W (JsonRequest (JObj kvs))) =
        (Returns (mk_response 500 (error_body msg)),
         [Call_decode_base64_image v])) /\
  ((exists msg, undecodable W v msg) \/
   (exists s encoded bytes im,
       v = JStr s /\ encoded_part s = Some encoded /\
       b64decode W encoded = Done bytes /\ Image_open W bytes = Done im /\
       run (get_image W (JObj kvs)) =
         (Returns (Some im), [Call_decode_base64_image v]))).
Proof.
  intros Hd. split.
  - intros msg Hu. now apply inline_undecodable_run.
  - destruct (undecodable_or_decoded W v)
      as [Hu | (s & encoded & bytes & im & -> & He & Hb & Ho)];
      [now left | right].
    exists s, encoded, bytes, im. repeat (split; [assumption || reflexivity |]).
    now apply (inline_decoded_run W kvs s encoded bytes im).
Qed.

Lemma C6_inline_decode_error_witness :
  run (remove_background (Demo.world Demo.photo 2048)
         (JsonRequest (JObj [("imageData", JStr "data:image/png;base64,abc")])))
  = (Returns (mk_response 500 (error_body "Incorrect padding")),
     [Call_decode_base64_image (JStr "data:image/png;base64,abc")]).
Proof.
  apply (proj1 (C6_inline_decode_error (Demo.world Demo.photo 2048)
                  [("imageData", JStr "data:image/png;base64,abc")]
                  (JStr "data:image/png;base64,abc") eq_refl)).
  apply (refused_by_b64decode _ _ "abc"); reflexivity.
Defined.

(** C6 as stated fails: text that is not valid base64 - an exclamation mark
    stands in it - is decoded all the same, [b64decode] skipping the
    character, and the request is answered with 200. *)
Lemma C6_lenient_base64_counterexample :
  let W := Sample.world in
  let req := JsonRequest (JObj [("imageData", JStr Sample.junk_text)]) in
  valid_base64 Sample.junk_text = false /\
  b64decode W Sample.junk_text = Done Sample.png_file /\
  Image_open W Sample.png_file = Done Sample.picture /\
  status (respond W req) = 200 /\
  status (respond W req) <> 500.
Proof.
  repeat split; try (vm_compute; reflexivity). vm_compute. discriminate.
Qed.

(** A data URL without a comma fails in the unpacking of line 44, and a
    value that is not a string in [startswith]; both are 500 as well. *)
Example inline_without_comma :
  respond (Demo.world Demo.photo 2048)
    (JsonRequest (JObj [("imageData", JStr "data:image/png;base64")]))
  = mk_response 500
      (error_body "not enough values to unpack (expected 2, got 1)").
Proof. reflexivity. Qed.

Example inline_not_a_string :
  respond (Demo.world Demo.photo 2048)
    (JsonRequest (JObj [("imageData", JInt 7)]))
  = mk_response 500
      (error_body "'int' object has no attribute 'startswith'").
Proof. reflexivity. Qed.

(** ** C5: images within the threshold *)

(** C5.  When width and height are both within the threshold,
    [resize_if_needed] returns the image it was given; and a request whose
    decoded image is within [MAX_IMAGE_SIZE] and that is answered with the
    JSON envelope reports the size of that image both as [originalSize] and
    as [processedSize]. *)
Theorem C5_within_threshold (W : World) (im : image) (max_size : Z) :
  width im <= max_size -> height im <= max_size ->
  run (resize_if_needed W im max_size) =
    (Returns im, [Call_resize_if_needed im max_size]) /\
  forall data tr0 j,
    max_size = MAX_IMAGE_SIZE W ->
    run (get_image W data) = (Returns (Some im), tr0) ->
    respond W (JsonRequest data) = mk_response 200 (JsonBody j) ->
    exists fields,
      j = JObj fields /\
      dict_get "originalSize" fields = Some (size_json (size im)) /\
      dict_get "processedSize" fields = Some (size_json (size im)).
Proof.
  intros Hw Hh. split.
  - apply resize_if_needed_within; assumption.
  - intros data tr0 j -> Hg Hr.
    assert (Hs : status (respond W (JsonRequest data)) = 200)
      by now rewrite Hr.
    destruct (success_run _ _ _ _ Hg Hs)
      as (kvs & im1 & im2 & out & png & _ & _ & _ & Hsz & H2 & _ & _ & _
          & Hresp).
    assert (Hw1 : width im1 <= MAX_IMAGE_SIZE W)
      by (injection Hsz as -> _; exact Hw).
    assert (Hh1 : height im1 <= MAX_IMAGE_SIZE W)
      by (injection Hsz as _ ->; exact Hh).
    unfold run in H2. rewrite (resize_if_needed_within W im1 _ [] Hw1 Hh1) in H2.
    injection H2 as <-. rewrite Hresp in Hr. unfold success_response in Hr.
    destruct (str_eq "binary" (format_of kvs)); [discriminate |].
    injection Hr as <-. unfold envelope. eexists. split; [reflexivity |].
    rewrite Hsz. split; reflexivity.
Qed.

Lemma C5_within_threshold_witness :
  let W := Demo.world Demo.thumb 2048 in
  run (resize_if_needed W Demo.thumb 2048) =
    (Returns Demo.thumb, [Call_resize_if_needed Demo.thumb 2048]) /\
  exists fields,
    resp_body (respond W (Demo.inline_request [])) = JsonBody (JObj fields) /\
    dict_get "originalSize" fields = Some (JArr [JInt 640; JInt 480]) /\
    dict_get "processedSize" fields = Some (JArr [JInt 640; JInt 480]).
Proof.
  destruct (C5_within_threshold (Demo.world Demo.thumb 2048) Demo.thumb 2048)
    as [H1 H2]; [simpl; lia | simpl; lia |].
  split; [exact H1 |].
  destruct (H2 (JObj [("imageData", JStr "iVBORw0KGgo=")])
              [Call_decode_base64_image (JStr "iVBORw0KGgo=")]
              (envelope "data:image/png;base64,iVBORw0KGgo="
                 (640, 480) (640, 480) (elapsed (Demo.world Demo.thumb 2048))))
    as (fields & Hj & Ho & Hp); try reflexivity.
  exists fields. injection Hj as <-. repeat split; reflexivity.
Defined.

(** ** C7: the colour mode before sizing and inference *)




(** A greyscale image is converted before the two calls. *)
Example greyscale_is_converted :
  calls (Demo.world Demo.scan 2048) (Demo.inline_request []) =
    [Call_decode_base64_image (JStr "iVBORw0KGgo=");
     Call_resize_if_needed (mk_image 640 480 "RGBA" []) 2048;
     Call_remove (mk_image 640 480 "RGBA" []) (JBool true)].
Proof. reflexivity. Qed.

(** ** C9: both sources present *)

(** With ["imageData"] in the payload, the run is the inline decoding
    followed by [process]. *)
Lemma remove_background_inline W kvs v :
  dict_get "imageData" kvs = Some v ->
  run (remove_background W (JsonRequest (JObj kvs))) =
    match decode_base64_image W v [] with
    | (Returns im, t) =>
        match process W (JObj kvs) im t with
        | (Returns r, t') => (Returns r, t')
        | (Raises e, t') => (Returns (on_exception e), t')
        end
    | (Raises e, t) => (Returns (on_exception e), t)
    end.
Proof.
  intros Hd.
  unfold run, remove_background, try_except, remove_background_body.
  unfold bind at 1. unfold ret at 1.
  rewrite (dict_get_nonempty _ _ _ Hd). cbn [negb].
  unfold bind at 1. unfold get_image, py_contains, py_getitem.
  unfold bind at 1. unfold ret at 1. rewrite (dict_get_in _ _ _ Hd), Hd.
  unfold bind at 1. unfold ret at 1. unfold bind at 1.
  destruct (decode_base64_image W v []) as [[im | e] t]; reflexivity.
Qed.

(** C9.  When the payload has both ["imageData"] and ["imageUrl"], the
    handler decodes the inline value first, makes no fetch at all, and does
    not answer with status 400.  The image it goes on with is the inline
    one: when [b64decode] and Pillow decode the value, [get_image] returns
    the image Pillow opened from those bytes and the answer is the one of
    processing that image; when they do not, the answer is the 500 of the
    decoding failure. *)
Theorem C9_inline_precedence (W : World) (kvs : list (string * json))
  (v u : json) :
  dict_get "imageData" kvs = Some v ->
  dict_get "imageUrl" kvs = Some u ->
  (exists rest,
      calls W (JsonRequest (JObj kvs)) = Call_decode_base64_image v :: rest) /\
  Forall event_offline (calls W (JsonRequest (JObj kvs))) /\
  status (respond W (JsonRequest (JObj kvs))) <> 400 /\
  (forall s encoded bytes im,
      v = JStr s -> encoded_part s = Some encoded ->
      b64decode W encoded = Done bytes -> Image_open W bytes = Done im ->
      run (get_image W (JObj kvs)) =
        (Returns (Some im), [Call_decode_base64_image v]) /\
      respond W (JsonRequest (JObj kvs)) =
        match fst (process W (JObj kvs) im [Call_decode_base64_image v]) with
        | Returns r => r
        | Raises e => on_exception e
        end) /\
  (forall msg,
      undecodable W v msg ->
      respond W (JsonRequest (JObj kvs)) = mk_response 500 (error_body msg)).
Proof.
  intros Hd _.
  assert (H123 :
    (exists rest,
        calls W (JsonRequest (JObj kvs)) =
          Call_decode_base64_image v :: rest) /\
    Forall event_offline (calls W (JsonRequest (JObj kvs))) /\
    status (respond W (JsonRequest (JObj kvs))) <> 400).
  { unfold respond, calls. rewrite (remove_background_inline W kvs v Hd).
    pose proof (decode_base64_image_trace W v []) as Ht.
    destruct (decode_base64_image_triple event_offline W v I [])
      as (s0 & _ & _ & He).
    destruct (decode_base64_image W v []) as [[im | e] t]; simpl in Ht, He;
      subst t.
    - destruct (process_triple event_offline W (JObj kvs) im
                  (fun _ _ _ => I) (fun _ _ _ => I)
                  [Call_decode_base64_image v]) as (s & Hs & Is & Ho).
      destruct (process W (JObj kvs) im [Call_decode_base64_image v])
        as [[r | e] t]; simpl in Hs, Ho; subst t; simpl.
      + split; [eauto |]. split; [constructor; [exact I | exact Is] |].
        rewrite Ho. discriminate.
      + split; [eauto |]. split; [constructor; [exact I | exact Is] |].
        unfold on_exception. unfold not_fetch_error in Ho. rewrite Ho.
        discriminate.
    - simpl. split; [eauto |]. split; [repeat constructor |].
      unfold on_exception. unfold not_fetch_error in He. rewrite He.
      discriminate. }
  destruct H123 as (H1 & H2 & H3).
  repeat (split; [assumption |]). split.
  - intros s encoded bytes im -> He Hb Ho.
    pose proof (inline_decoded_run W kvs s encoded bytes im Hd He Hb Ho)
      as Hg.
    split; [exact Hg |].
    unfold respond. rewrite (remove_background_process _ _ _ _ Hg).
    destruct (process W (JObj kvs) im [Call_decode_base64_image (JStr s)])
      as [[r | e] t]; reflexivity.
  - intros msg Hu. unfold respond.
    now rewrite (inline_undecodable_run W kvs v msg Hd Hu).
Qed.

Lemma C9_inline_precedence_witness :
  let req :=
    Demo.inline_request [("imageUrl", JStr "https://example.com/photo.png")] in
  (exists rest,
      calls (Demo.world Demo.thumb 2048) req =
        Call_decode_base64_image (JStr "iVBORw0KGgo=") :: rest) /\
  Forall event_offline (calls (Demo.world Demo.thumb 2048) req) /\
  status (respond (Demo.world Demo.thumb 2048) req) <> 400 /\
  run (get_image (Demo.world Demo.thumb 2048)
         (JObj [("imageData", JStr "iVBORw0KGgo=");
                ("imageUrl", JStr "https://example.com/photo.png")])) =
    (Returns (Some Demo.thumb),
     [Call_decode_base64_image (JStr "iVBORw0KGgo=")]).
Proof.
  destruct (C9_inline_precedence (Demo.world Demo.thumb 2048)
              [("imageData", JStr "iVBORw0KGgo=");
               ("imageUrl", JStr "https://example.com/photo.png")]
              (JStr "iVBORw0KGgo=") (JStr "https://example.com/photo.png")
              eq_refl eq_refl) as (H1 & H2 & H3 & H4 & _).
  repeat (split; [assumption |]).
  apply (H4 "iVBORw0KGgo=" "iVBORw0KGgo=" Demo.png_bytes Demo.thumb);
    reflexivity.
Defined.

(** ** Base64 text read back, and rounding to two decimals *)

Lemma list_ind3 (P : list byte -> Prop) :
  P [] -> (forall a, P [a]) -> (forall a b, P [a; b]) ->
  (forall a b c l, P l -> P (a :: b :: c :: l)) ->
  forall l, P l.
Proof.
  intros H0 H1 H2 H3. fix IH 1.
  intros [| a [| b [| c l]]];
    [exact H0 | apply H1 | apply H2 | apply H3, IH].
Qed.

Lemma b64_digits_table :
  forallb
    (fun n =>
       match b64_value (b64_char n) with
       | Some m => (m =? n) && negb (b64_char n =? "=")%char
       | None => false
       end)
    (map Z.of_nat (seq 0 64)) = true.
Proof. vm_compute. reflexivity. Qed.

Lemma b64_digit (n : Z) :
  0 <= n < 64 ->
  b64_value (b64_char n) = Some n /\ (b64_char n =? "=")%char = false.
Proof.
  intros Hn. pose proof b64_digits_table as H.
  rewrite forallb_forall in H. specialize (H n).
  assert (Hin : In n (map Z.of_nat (seq 0 64))).
  { apply in_map_iff. exists (Z.to_nat n). split; [lia |].
    apply in_seq. lia. }
  specialize (H Hin).
  destruct (b64_value (b64_char n)) as [m |]; [| discriminate].
  apply andb_true_iff in H as [H1 H2]. apply Z.eqb_eq in H1. subst m.
  split; [reflexivity |]. now apply negb_true_iff in H2.
Qed.

Lemma byte_Z_range (b : byte) : 0 <= byte_Z b < 256.
Proof. unfold byte_Z. pose proof (Byte.to_N_bounded b). lia. Qed.

Lemma byte_of_byte_Z (b : byte) (z : Z) :
  z = byte_Z b -> byte_of_Z z = Some b.
Proof.
  intros ->. unfold byte_of_Z, byte_Z. rewrite N2Z.id. apply Byte.of_to_N.
Qed.

Ltac b64_digit_step n :=
  let H1 := fresh in let H2 := fresh in
  destruct (b64_digit n) as [H1 H2];
  [Z.div_mod_to_equations; lia | rewrite ?H1, ?H2; clear H1 H2].

Lemma b64_round_trip (bs : list byte) :
  b64decode_ref (b64encode bs) = Some bs.
Proof.
  induction bs as [| a | a b | a b c l IH] using list_ind3.
  - reflexivity.
  - pose proof (byte_Z_range a) as Ha. cbn [b64encode]. cbv zeta.
    cbn [b64decode_ref].
    b64_digit_step (byte_Z a / 4). b64_digit_step (byte_Z a mod 4 * 16).
    rewrite (byte_of_byte_Z a) by (Z.div_mod_to_equations; lia).
    reflexivity.
  - pose proof (byte_Z_range a) as Ha. pose proof (byte_Z_range b) as Hb.
    cbn [b64encode]. cbv zeta. cbn [b64decode_ref].
    b64_digit_step (byte_Z a / 4).
    b64_digit_step (byte_Z a mod 4 * 16 + byte_Z b / 16).
    b64_digit_step (byte_Z b mod 16 * 4).
    rewrite (byte_of_byte_Z a) by (Z.div_mod_to_equations; lia).
    rewrite (byte_of_byte_Z b) by (Z.div_mod_to_equations; lia).
    reflexivity.
  - pose proof (byte_Z_range a) as Ha. pose proof (byte_Z_range b) as Hb.
    pose proof (byte_Z_range c) as Hc.
    cbn [b64encode]. cbv zeta. cbn [b64decode_ref].
    b64_digit_step (byte_Z a / 4).
    b64_digit_step (byte_Z a mod 4 * 16 + byte_Z b / 16).
    b64_digit_step (byte_Z b mod 16 * 4 + byte_Z c / 64).
    b64_digit_step (byte_Z c mod 64).
    rewrite (byte_of_byte_Z a) by (Z.div_mod_to_equations; lia).
    rewrite (byte_of_byte_Z b) by (Z.div_mod_to_equations; lia).
    rewrite (byte_of_byte_Z c) by (Z.div_mod_to_equations; lia).
    rewrite IH. reflexivity.
Qed.

(** [round(x, 2)] gives [x] rounded to two decimals. *)
Lemma round2_two_decimals (x : spec_float) :
  rounded_to_two_decimals x (Float.round2 x).
Proof.
  destruct x as [s | s | | s m e]; try reflexivity.
  unfold rounded_to_two_decimals, Float.round2. cbv zeta.
  eexists. split; [| reflexivity].
  unfold nearest_hundredths. cbv zeta.
  destruct e as [| k | k].
  - change (Z.max 0 0) with 0. change (Z.max (- 0) 0) with 0.
    change (2 ^ 0) with 1. split; [lia | intros H; exfalso; lia].
  - replace (Z.max (Z.pos k) 0) with (Z.pos k) by lia.
    replace (Z.max (- Z.pos k) 0) with 0 by lia.
    change (2 ^ 0) with 1.
    split; [lia | intros H; exfalso; lia].
  - replace (Z.max (Z.neg k) 0) with 0 by lia.
    replace (Z.max (- Z.neg k) 0) with (Z.pos k) by lia.
    change (2 ^ 0) with 1.
    assert (Hden : 0 < 2 ^ Z.pos k) by (apply Z.pow_pos_nonneg; lia).
    pose proof (Z.div_mod (Z.pos m * 100) (2 ^ Z.pos k)) as Hdm.
    pose proof (Z.mod_pos_bound (Z.pos m * 100) (2 ^ Z.pos k) Hden) as Hr.
    specialize (Hdm ltac:(lia)).
    set (den := 2 ^ Z.pos k) in *.
    set (q := Z.pos m * 100 / den) in *.
    set (r := (Z.pos m * 100) mod den) in *.
    destruct (Z.compare_spec (2 * r) den) as [Heq | Hlt | Hgt].
    + destruct (Z.even q) eqn:Hev.
      * split; [lia | intros _; exact Hev].
      * split; [lia | intros _].
        replace (q + 1) with (Z.succ q) by lia.
        rewrite Z.even_succ, <- Z.negb_even, Hev. reflexivity.
    + split; [lia | intros H; exfalso; lia].
    + split; [lia | intros H; exfalso; lia].
Qed.

(** ** C8: the envelope of the inline form *)

(** C8.  A request answered with status 200 whose [return_format] is absent
    or ["base64"] gets the JSON object with exactly the five fields
    [success] (true), [dataUrl] ("data:image/png;base64," followed by a text
    that a base64 decoder reads back to the PNG bytes of rembg's result),
    [originalSize] (the size of the decoded image), [processedSize] (the size
    of the image handed to rembg, after [resize_if_needed]) and
    [processingTime] (the difference of the two clock readings, rounded to
    two decimals: the double of the nearest number of hundredths divided by
    100). *)
Theorem C8_inline_envelope (W : World) (kvs : list (string * json))
  (im : image) (tr0 : list event) :
  run (get_image W (JObj kvs)) = (Returns (Some im), tr0) ->
  format_of kvs = JStr "base64" ->
  status (respond W (JsonRequest (JObj kvs))) = 200 ->
  exists im1 im2 out png text t,
    fst (run (ensure_rgb W im)) = Returns im1 /\
    fst (run (resize_if_needed W im1 (MAX_IMAGE_SIZE W))) = Returns im2 /\
    rembg_remove W im2 (alpha_of kvs) = Done out /\
    save_PNG W out = Done png /\
    respond W (JsonRequest (JObj kvs)) =
      mk_response 200
        (JsonBody
           (JObj
              [("success", JBool true);
               ("dataUrl", JStr ("data:image/png;base64," ++ text));
               ("originalSize", JArr [JInt (width im); JInt (height im)]);
               ("processedSize", JArr [JInt (width im2); JInt (height im2)]);
               ("processingTime", JFloat t)])) /\
    text = b64encode png /\
    b64decode_ref text = Some png /\
    t = Float.round2
          (SFsub Float.prec Float.emax (time_end W) (time_start W)) /\
    rounded_to_two_decimals
      (SFsub Float.prec Float.emax (time_end W) (time_start W)) t.
Proof.
  intros Hg Hf Hs.
  destruct (success_run _ _ _ _ Hg Hs)
    as (kvs' & im1 & im2 & out & png & Hk & H1 & _ & _ & H2 & H3 & H4 & _
        & Hresp).
  injection Hk as <-.
  exists im1, im2, out, png, (b64encode png),
    (Float.round2
       (SFsub Float.prec Float.emax (time_end W) (time_start W))).
  repeat (split; [assumption |]).
  split; [rewrite Hresp, Hf; reflexivity |].
  split; [reflexivity |]. split; [apply b64_round_trip |].
  split; [reflexivity | apply round2_two_decimals].
Qed.

Lemma C8_inline_envelope_witness :
  exists im1 im2 out png text t,
    fst (run (ensure_rgb (Demo.world Demo.scan 2048) Demo.scan))
      = Returns im1 /\
    fst (run (resize_if_needed (Demo.world Demo.scan 2048) im1 2048))
      = Returns im2 /\
    rembg_remove (Demo.world Demo.scan 2048) im2 (JBool true) = Done out /\
    save_PNG (Demo.world Demo.scan 2048) out = Done png /\
    respond (Demo.world Demo.scan 2048) (Demo.inline_request []) =
      mk_response 200
        (JsonBody
           (JObj
              [("success", JBool true);
               ("dataUrl", JStr ("data:image/png;base64," ++ text));
               ("originalSize", JArr [JInt 640; JInt 480]);
               ("processedSize", JArr [JInt (width im2); JInt (height im2)]);
               ("processingTime", JFloat t)])) /\
    text = b64encode png /\
    b64decode_ref text = Some png /\
    t = Float.round2
          (SFsub Float.prec Float.emax Demo.one_and_half Demo.one) /\
    rounded_to_two_decimals
      (SFsub Float.prec Float.emax Demo.one_and_half Demo.one) t.
Proof.
  apply (C8_inline_envelope (Demo.world Demo.scan 2048)
           [("imageData", JStr "iVBORw0KGgo=")] Demo.scan
           [Call_decode_base64_image (JStr "iVBORw0KGgo=")]);
    reflexivity.
Defined.

(** The same run, evaluated: half a second elapsed is reported as 0.5. *)
Example envelope_of_scan :
  respond (Demo.world Demo.scan 2048) (Demo.inline_request []) =
    mk_response 200
      (JsonBody
         (JObj
            [("success", JBool true);
             ("dataUrl", JStr "data:image/png;base64,iVBORw0KGgo=");
             ("originalSize", JArr [JInt 640; JInt 480]);
             ("processedSize", JArr [JInt 640; JInt 480]);
             ("processingTime",
               JFloat (S754_finite false 4503599627370496 (-53)))])).
Proof. vm_compute. reflexivity. Qed.

(** ** C10: output forms other than ["binary"] *)

Lemma bind_ext {A B} (m : M A) (k k' : A -> M B) tr :
  (forall a t, k a t = k' a t) -> bind m k tr = bind m k' tr.
Proof.
  intros H. unfold bind. destruct (m tr) as [[a | e] t]; [apply H | reflexivity].
Qed.

Lemma get_image_same_but_format W kvs1 kvs2 tr :
  same_but_format kvs1 kvs2 ->
  get_image W (JObj kvs1) tr = get_image W (JObj kvs2) tr.
Proof.
  intros [_ H]. unfold get_image, py_contains, py_getitem, dict_in.
  rewrite (H "imageData"), (H "imageUrl") by discriminate. reflexivity.
Qed.

Lemma process_same_but_format W kvs1 kvs2 im tr :
  same_but_format kvs1 kvs2 ->
  str_eq "binary" (format_of kvs1) = str_eq "binary" (format_of kvs2) ->
  process W (JObj kvs1) im tr = process W (JObj kvs2) im tr.
Proof.
  intros [_ H] Hf. unfold process.
  apply bind_ext. intros im1 t1. apply bind_ext. intros im2 t2.
  rewrite !py_get_obj. fold (format_of kvs1). fold (format_of kvs2).
  rewrite (H "alpha_matting") by discriminate.
  unfold bind at 1. unfold ret at 1. unfold bind at 1. unfold ret at 1.
  symmetry.
  unfold bind at 1. unfold ret at 1. unfold bind at 1. unfold ret at 1.
  rewrite Hf. reflexivity.
Qed.

Lemma str_eq_binary_false fmt :
  fmt <> "binary" -> str_eq "binary" (JStr fmt) = false.
Proof. intros H. simpl. now apply String.eqb_neq. Qed.

(** C10.  A request whose [return_format] is a string other than
    ["binary"] runs exactly as the same request with [return_format] absent
    or ["base64"] does, so the value is never the cause of an error; and when
    it is answered with status 200 the body is the JSON envelope. *)
Theorem C10_unrecognised_format (W : World) (kvs : list (string * json))
  (fmt : string) :
  dict_get "return_format" kvs = Some (JStr fmt) ->
  fmt <> "binary" ->
  (forall kvs',
      same_but_format kvs kvs' -> format_of kvs' = JStr "base64" ->
      run (remove_background W (JsonRequest (JObj kvs))) =
      run (remove_background W (JsonRequest (JObj kvs')))) /\
  (status (respond W (JsonRequest (JObj kvs))) = 200 ->
   exists png original_size processed_size,
     respond W (JsonRequest (JObj kvs)) =
       mk_response 200
         (JsonBody
            (envelope ("data:image/png;base64," ++ b64encode png)
               original_size processed_size (elapsed W)))).
Proof.
  intros Hfmt Hne.
  assert (Hb : str_eq "binary" (format_of kvs) = false).
  { unfold format_of. rewrite Hfmt. now apply str_eq_binary_false. }
  split.
  - intros kvs' Hsame Hf'.
    assert (Ht : truthy (JObj kvs) = truthy (JObj kvs')).
    { destruct Hsame as [[H1 H2] _]. simpl.
      destruct kvs; destruct kvs'; try reflexivity.
      - discriminate (H1 eq_refl).
      - discriminate (H2 eq_refl). }
    cbv [run remove_background try_except remove_background_body bind ret].
    rewrite <- Ht. destruct (negb (truthy (JObj kvs))); [reflexivity |].
    rewrite (get_image_same_but_format W kvs kvs' [] Hsame).
    destruct (get_image W (JObj kvs') []) as [[[im |] | e] t]; try reflexivity.
    rewrite (process_same_but_format W kvs kvs' im t Hsame); [reflexivity |].
    rewrite Hb, Hf'. reflexivity.
  - intros Hs.
    destruct (get_image W (JObj kvs) []) as [[[im |] | e] t] eqn:Hg.
    + destruct (success_run W (JObj kvs) im t Hg Hs)
        as (kvs' & im1 & im2 & out & png & Hk & _ & _ & _ & _ & _ & _ & _
            & Hresp).
      injection Hk as <-. exists png, (size im), (size im2).
      rewrite Hresp. unfold success_response. rewrite Hb. reflexivity.
    + exfalso. revert Hs.
      cbv [respond run remove_background try_except remove_background_body
             bind ret].
      destruct (negb (truthy (JObj kvs))); [discriminate |].
      rewrite Hg. discriminate.
    + exfalso. revert Hs.
      cbv [respond run remove_background try_except remove_background_body
             bind ret].
      destruct (negb (truthy (JObj kvs))); [discriminate |].
      rewrite Hg. simpl. intros Hs.
      destruct (on_exception_status e) as [H | H]; rewrite H in Hs;
        discriminate.
Qed.

Lemma C10_unrecognised_format_witness :
  let W := Demo.world Demo.thumb 2048 in
  run (remove_background W (Demo.inline_request [("return_format", JStr "jpeg")]))
  = run (remove_background W (Demo.inline_request [])) /\
  exists png original_size processed_size,
    respond W (Demo.inline_request [("return_format", JStr "jpeg")]) =
      mk_response 200
        (JsonBody
           (envelope ("data:image/png;base64," ++ b64encode png)
              original_size processed_size (elapsed W))).
Proof.
  destruct (C10_unrecognised_format (Demo.world Demo.thumb 2048)
              [("imageData", JStr "iVBORw0KGgo=");
               ("return_format", JStr "jpeg")] "jpeg")
    as [H1 H2]; [reflexivity | discriminate |].
  split.
  - apply (H1 [("imageData", JStr "iVBORw0KGgo=")]); [| reflexivity].
    split; [split; discriminate |].
    intros k Hk. cbn [dict_get].
    destruct (("imageData" =? k)%string); [reflexivity |].
    destruct (("return_format" =? k)%string) eqn:E; [| reflexivity].
    apply String.eqb_eq in E. congruence.
  - apply H2. reflexivity.
Defined.

(** With ["binary"] the PNG bytes themselves are the body. *)
Example binary_response :
  respond (Demo.world Demo.thumb 2048)
    (Demo.inline_request [("return_format", JStr "binary")])
  = mk_response 200 (FileBody "image/png" Demo.png_bytes).
Proof. reflexivity. Qed.

(** ** Binary64 rounding, for the size computation *)

Module FloatFacts.

Import Float.

Lemma digits2_pos_bounds (p : positive) :
  2 ^ (Z.pos (digits2_pos p) - 1) <= Z.pos p < 2 ^ Z.pos (digits2_pos p).
Proof.
  induction p as [p IH | p IH |]; cbn [digits2_pos].
  - rewrite Pos2Z.inj_succ, (Pos2Z.inj_xI p).
    replace (Z.succ (Z.pos (digits2_pos p)) - 1)
      with (Z.succ (Z.pos (digits2_pos p) - 1)) by lia.
    rewrite !Z.pow_succ_r by lia.
    revert IH. generalize (2 ^ (Z.pos (digits2_pos p) - 1)).
    generalize (2 ^ Z.pos (digits2_pos p)). lia.
  - rewrite Pos2Z.inj_succ, (Pos2Z.inj_xO p).
    replace (Z.succ (Z.pos (digits2_pos p)) - 1)
      with (Z.succ (Z.pos (digits2_pos p) - 1)) by lia.
    rewrite !Z.pow_succ_r by lia.
    revert IH. generalize (2 ^ (Z.pos (digits2_pos p) - 1)).
    generalize (2 ^ Z.pos (digits2_pos p)). lia.
  - simpl. lia.
Qed.

(** The number of digits is determined by the bracketing powers of two. *)
Lemma digits2_pos_unique (p : positive) (d : Z) :
  2 ^ (d - 1) <= Z.pos p < 2 ^ d -> Z.pos (digits2_pos p) = d.
Proof.
  intros [Hl Hu]. pose proof (digits2_pos_bounds p) as [Bl Bu].
  assert (0 < d).
  { destruct (Z.ltb_spec 0 d); [assumption |].
    assert (2 ^ d <= 2 ^ 0) by (apply Z.pow_le_mono_r; lia). simpl in *. lia. }
  assert (d - 1 < Z.pos (digits2_pos p)).
  { apply (Z.pow_lt_mono_r_iff 2); lia. }
  assert (Z.pos (digits2_pos p) - 1 < d).
  { apply (Z.pow_lt_mono_r_iff 2); lia. }
  lia.
Qed.

Lemma digits2_pos_le (p : positive) (d : Z) :
  Z.pos p < 2 ^ d -> Z.pos (digits2_pos p) <= d.
Proof.
  intros Hu. pose proof (digits2_pos_bounds p) as [Bl _].
  assert (0 < d).
  { destruct (Z.ltb_spec 0 d); [assumption |].
    assert (2 ^ d <= 2 ^ 0) by (apply Z.pow_le_mono_r; lia). simpl in *. lia. }
  assert (Z.pos (digits2_pos p) - 1 < d); [| lia].
  apply (Z.pow_lt_mono_r_iff 2); lia.
Qed.

Lemma digits2_pos_ge (p : positive) (d : Z) :
  2 ^ d <= Z.pos p -> d < Z.pos (digits2_pos p).
Proof.
  intros Hl. pose proof (digits2_pos_bounds p) as [_ Bu].
  apply (Z.pow_lt_mono_r_iff 2); lia.
Qed.

Lemma shr_1_m (r : shr_record) :
  0 <= shr_m r -> shr_m (shr_1 r) = shr_m r / 2.
Proof.
  destruct r as [m b s]. simpl. intros Hm.
  destruct m as [| [p | p |] | p]; simpl; try lia; try reflexivity.
  - rewrite (Pos2Z.inj_xI p). apply Z.div_unique with 1; lia.
  - rewrite (Pos2Z.inj_xO p). apply Z.div_unique with 0; lia.
Qed.

Lemma iter_shr_1_m (n : positive) (r : shr_record) :
  0 <= shr_m r ->
  shr_m (iter_pos shr_1 n r) = shr_m r / 2 ^ Z.pos n.
Proof.
  revert r. induction n as [n IH | n IH |]; intros r Hr; cbn [iter_pos].
  - assert (H1 : 0 <= shr_m (shr_1 r))
      by (rewrite shr_1_m by assumption; apply Z.div_pos; lia).
    assert (H2 : 0 <= shr_m (iter_pos shr_1 n (shr_1 r)))
      by (rewrite IH by assumption; apply Z.div_pos; lia).
    rewrite IH, IH, shr_1_m by assumption.
    rewrite !Z.div_div by lia. f_equal.
    rewrite (Pos2Z.inj_xI n), <- Z.pow_add_r, <- Z.pow_succ_r by lia. f_equal. lia.
  - assert (H2 : 0 <= shr_m (iter_pos shr_1 n r))
      by (rewrite IH by assumption; apply Z.div_pos; lia).
    rewrite IH, IH by assumption.
    rewrite !Z.div_div by lia. f_equal.
    rewrite (Pos2Z.inj_xO n), <- Z.pow_add_r by lia. f_equal. lia.
  - rewrite shr_1_m by assumption. reflexivity.
Qed.

Lemma shr_record_of_loc_m m l : shr_m (shr_record_of_loc m l) = m.
Proof. destruct l as [| []]; reflexivity. Qed.

(** [shr] divides the mantissa by [2 ^ n] and adds [n] to the exponent. *)
Lemma shr_spec (r : shr_record) (e n : Z) :
  0 <= shr_m r -> 0 <= n ->
  shr_m (fst (shr r e n)) = shr_m r / 2 ^ n /\ snd (shr r e n) = e + n.
Proof.
  intros Hr Hn. destruct n as [| p | p]; simpl; try lia.
  - rewrite Z.div_1_r. split; [reflexivity | lia].
  - split; [apply iter_shr_1_m; assumption | reflexivity].
Qed.

Lemma round_nearest_even_bounds m l :
  m <= round_nearest_even m l <= m + 1.
Proof.
  destruct l as [| []]; simpl; try lia.
  destruct (Z.even m); lia.
Qed.

Lemma fexp_normal (e : Z) : -1021 <= e -> fexp prec emax e = e - 53.
Proof. unfold fexp, emin, prec, emax. lia. Qed.


Lemma shr_fexp_spec (p : positive) (ex : Z) (lx : location) :
  2 ^ 52 <= Z.pos p -> -1074 <= ex ->
  let n := Z.pos (digits2_pos p) - 53 in
  0 <= n /\
  shr_m (fst (shr_fexp prec emax (Z.pos p) ex lx)) = Z.pos p / 2 ^ n /\
  snd (shr_fexp prec emax (Z.pos p) ex lx) = ex + n.
Proof.
  intros Hp He n.
  assert (Hd : 52 < Z.pos (digits2_pos p)) by now apply digits2_pos_ge.
  assert (Hn : 0 <= n) by (unfold n; lia).
  split; [exact Hn |].
  unfold shr_fexp. cbn [Zdigits2].
  rewrite fexp_normal by lia.
  replace (Z.pos (digits2_pos p) + ex - 53 - ex) with n by (unfold n; lia).
  destruct (shr_spec (shr_record_of_loc (Z.pos p) lx) ex n) as [H1 H2];
    [rewrite shr_record_of_loc_m; lia | exact Hn |].
  rewrite shr_record_of_loc_m in H1. auto.
Qed.

(** Rounding a mantissa of at least 53 bits: the result has 53 bits and is
    within one unit of its last place of the mantissa rounded. *)
Lemma binary_round_aux_bounds (sx : bool) (p : positive) (ex : Z)
  (lx : location) :
  2 ^ 52 <= Z.pos p -> -1074 <= ex ->
  ex + Z.pos (digits2_pos p) <= 1023 ->
  exists m k,
    binary_round_aux prec emax sx (Z.pos p) ex lx = S754_finite sx m (ex + k) /\
    Z.pos (digits2_pos p) - 53 <= k <= Z.pos (digits2_pos p) - 52 /\
    2 ^ 52 <= Z.pos m < 2 ^ 53 /\
    Z.pos m * 2 ^ k <= Z.pos p + 2 ^ k /\
    Z.pos p < Z.pos m * 2 ^ k + 2 ^ k.
Proof.
  intros Hp He Hov.
  pose proof (digits2_pos_bounds p) as [Bl Bu].
  destruct (shr_fexp_spec p ex lx Hp He) as (Hn & Hm1 & He1).
  set (n := Z.pos (digits2_pos p) - 53) in *.
  unfold binary_round_aux.
  destruct (shr_fexp prec emax (Z.pos p) ex lx) as [r1 e1].
  cbn [fst snd] in Hm1, He1.
  set (m1 := shr_m r1) in *.
  assert (Hpow : 0 < 2 ^ n) by (apply Z.pow_pos_nonneg; lia).
  assert (Hm1b : 2 ^ 52 <= m1 < 2 ^ 53).
  { rewrite Hm1. split.
    - apply Z.div_le_lower_bound; [exact Hpow |].
      rewrite <- Z.pow_add_r by lia.
      replace (n + 52) with (Z.pos (digits2_pos p) - 1) by (unfold n; lia).
      exact Bl.
    - apply Z.div_lt_upper_bound; [exact Hpow |].
      rewrite <- Z.pow_add_r by lia.
      replace (n + 53) with (Z.pos (digits2_pos p)) by (unfold n; lia).
      exact Bu. }
  assert (Hdiv : m1 * 2 ^ n <= Z.pos p < (m1 + 1) * 2 ^ n).
  { rewrite Hm1. pose proof (Z.div_mod (Z.pos p) (2 ^ n)) as Hdm.
    pose proof (Z.mod_pos_bound (Z.pos p) (2 ^ n) Hpow). nia. }
  pose proof (round_nearest_even_bounds m1 (loc_of_shr_record r1)) as Hrne.
  set (m2 := round_nearest_even m1 (loc_of_shr_record r1)) in *.
  destruct m2 as [| p2 | p2] eqn:Em2; try lia.
  assert (Hp2 : 2 ^ 52 <= Z.pos p2) by lia.
  assert (He1' : -1074 <= e1) by lia.
  destruct (shr_fexp_spec p2 e1 loc_Exact Hp2 He1') as (Hn2 & Hm3 & He3).
  set (n2 := Z.pos (digits2_pos p2) - 53) in *.
  destruct (shr_fexp prec emax (Z.pos p2) e1 loc_Exact) as [r3 e3].
  cbn [fst snd] in Hm3, He3.
  assert (Hcase : (n2 = 0 /\ Z.pos p2 < 2 ^ 53) \/ (n2 = 1 /\ Z.pos p2 = 2 ^ 53)).
  { destruct (Z.ltb_spec (Z.pos p2) (2 ^ 53)) as [Hlt | Hge].
    - left. split; [| exact Hlt].
      unfold n2. rewrite (digits2_pos_unique p2 53); [reflexivity |].
      split; [exact Hp2 | exact Hlt].
    - right. assert (Heq : Z.pos p2 = 2 ^ 53) by lia. split; [| exact Heq].
      unfold n2. rewrite (digits2_pos_unique p2 54); [reflexivity |].
      rewrite Heq. split; [reflexivity |]. reflexivity. }
  assert (Hm3' : shr_m r3 * 2 ^ n2 = Z.pos p2 /\ 2 ^ 52 <= shr_m r3 < 2 ^ 53).
  { destruct Hcase as [[-> Hlt] | [-> Heq]]; rewrite Hm3.
    - rewrite Z.pow_0_r, Z.div_1_r. lia.
    - rewrite Heq. split; reflexivity || (split; [reflexivity | reflexivity]). }
  destruct Hm3' as [Hm3e Hm3b].
  destruct (shr_m r3) as [| m3 | m3] eqn:Er3; try lia.
  assert (Hle : (e3 <=? emax - prec) = true).
  { apply Z.leb_le. unfold emax, prec. unfold n, n2 in *.
    destruct Hcase as [[Hc _] | [Hc _]]; lia. }
  rewrite Hle.
  exists m3, (n + n2).
  split; [f_equal; lia |].
  split; [unfold n in *; destruct Hcase as [[Hc _] | [Hc _]]; lia |].
  split; [exact Hm3b |].
  assert (Hpow2 : 1 <= 2 ^ n2)
    by (destruct Hcase as [[-> _] | [-> _]]; simpl; lia).
  rewrite Z.pow_add_r by lia.
  split; nia.
Qed.

(** A 53-bit mantissa with an exact location is left as it is. *)
Lemma binary_round_aux_exact (sx : bool) (p : positive) (e : Z) :
  2 ^ 52 <= Z.pos p < 2 ^ 53 -> -1074 <= e <= 971 ->
  binary_round_aux prec emax sx (Z.pos p) e loc_Exact = S754_finite sx p e.
Proof.
  intros Hp He.
  assert (Hd : Z.pos (digits2_pos p) = 53) by now apply digits2_pos_unique.
  assert (Hs : shr_fexp prec emax (Z.pos p) e loc_Exact =
               (Build_shr_record (Z.pos p) false false, e)).
  { unfold shr_fexp. cbn [Zdigits2]. rewrite Hd, fexp_normal by lia.
    replace (53 + e - 53 - e) with 0 by lia. reflexivity. }
  unfold binary_round_aux. rewrite Hs. cbn [shr_m loc_of_shr_record
    round_nearest_even]. rewrite Hs. cbn [shr_m].
  replace (e <=? emax - prec) with true
    by (symmetry; apply Z.leb_le; unfold emax, prec; lia).
  reflexivity.
Qed.


(** [a / b] for 0 < a <= b: a 53-bit mantissa with a negative exponent,
    within a relative error of [2 ^ -52] of the quotient. *)
Lemma truediv_bounds (a b : positive) :
  Z.pos a <= Z.pos b < 2 ^ 50 ->
  exists mf ef,
    SFdiv prec emax (S754_finite false a 0) (S754_finite false b 0)
      = S754_finite false mf ef /\
    -110 <= ef < 0 /\
    2 ^ 52 <= Z.pos mf < 2 ^ 53 /\
    Z.pos mf * Z.pos b * (2 ^ 52 - 1) <= Z.pos a * 2 ^ (- ef) * 2 ^ 52 /\
    Z.pos a * 2 ^ (- ef) * 2 ^ 52 <= Z.pos mf * Z.pos b * (2 ^ 52 + 1).
Proof.
  intros [Hab Hb].
  pose proof (digits2_pos_bounds a) as [Al Au].
  pose proof (digits2_pos_bounds b) as [Bl Bu].
  set (d1 := Z.pos (digits2_pos a)) in *.
  set (d2 := Z.pos (digits2_pos b)) in *.
  assert (Hd2 : d2 <= 50) by (apply digits2_pos_le; exact Hb).
  assert (Hd12 : d1 <= d2) by (apply digits2_pos_le; lia).
  assert (Hd1 : 1 <= d1) by (unfold d1; lia).
  unfold SFdiv, SFdiv_core_binary. cbn [Zdigits2]. fold d1 d2.
  rewrite fexp_normal by lia.
  replace (Z.min (d1 + 0 - (d2 + 0) - 53) (0 - 0)) with (d1 - d2 - 53) by lia.
  set (en := d1 - d2 - 53).
  replace (0 - 0 - en) with (- en) by lia.
  assert (Hen : 0 < - en) by (unfold en; lia).
  destruct (- en) as [| sh | sh] eqn:Esh; try lia.
  rewrite Z.shiftl_mul_pow2 by lia. rewrite <- Esh.
  pose proof (Z.div_eucl_eq (Z.pos a * 2 ^ (- en)) (Z.pos b)) as Heq.
  pose proof (Z.mod_pos_bound (Z.pos a * 2 ^ (- en)) (Z.pos b)) as Hmod.
  unfold Z.modulo in Hmod.
  destruct (Z.div_eucl (Z.pos a * 2 ^ (- en)) (Z.pos b)) as [q r].
  specialize (Heq ltac:(lia)). specialize (Hmod ltac:(lia)).
  set (E := 2 ^ (- en)) in *.
  assert (HE : 0 < E) by (apply Z.pow_pos_nonneg; lia).
  assert (Hlo : 2 ^ 52 * 2 ^ d2 <= Z.pos a * E).
  { replace (2 ^ 52 * 2 ^ d2) with (2 ^ (d1 - 1) * E).
    - apply Z.mul_le_mono_nonneg_r; lia.
    - unfold E. rewrite <- !Z.pow_add_r by lia. f_equal. unfold en. lia. }
  assert (Hhi : Z.pos a * E < 2 ^ 54 * 2 ^ (d2 - 1)).
  { replace (2 ^ 54 * 2 ^ (d2 - 1)) with (2 ^ d1 * E).
    - apply Z.mul_lt_mono_pos_r; lia.
    - unfold E. rewrite <- !Z.pow_add_r by lia. f_equal. unfold en. lia. }
  assert (Hq : 2 ^ 52 <= q < 2 ^ 54).
  { change (2 ^ 52) with 4503599627370496 in *.
    change (2 ^ 54) with 18014398509481984 in *.
    revert Hlo Hhi Bl Bu. generalize (2 ^ d2) (2 ^ (d2 - 1)).
    intros D2 D2' Hlo Hhi Bl Bu. split; nia. }
  destruct q as [| pq | pq]; try (exfalso; change (2 ^ 52) with 4503599627370496 in Hq; lia).
  assert (Hdq : 52 < Z.pos (digits2_pos pq) <= 54).
  { split; [apply digits2_pos_ge | apply digits2_pos_le]; lia. }
  destruct (binary_round_aux_bounds false pq en (new_location (Z.pos b) r))
    as (m & k & Hr & Hk & Hm & Hu & Hl); [lia | unfold en; lia | unfold en; lia |].
  cbn [xorb]. rewrite Hr. exists m, (en + k).
  split; [reflexivity |].
  split; [unfold en; lia |].
  split; [exact Hm |].
  assert (HK : 0 < 2 ^ k) by (apply Z.pow_pos_nonneg; lia).
  assert (HA : 0 < 2 ^ (- (en + k))) by (apply Z.pow_pos_nonneg; unfold en; lia).
  assert (HEK : E = 2 ^ (- (en + k)) * 2 ^ k).
  { unfold E. rewrite <- Z.pow_add_r by (unfold en; lia). f_equal. lia. }
  revert HK HA HEK Hu Hl. generalize (2 ^ k) (2 ^ (- (en + k))).
  intros K A HK HA HEK Hu Hl.
  change (2 ^ 52) with 4503599627370496 in *.
  assert (H1 : (Z.pos m - 1) * Z.pos b * K <= Z.pos a * A * K) by nia.
  assert (H2 : Z.pos a * A * K < (Z.pos m + 1) * Z.pos b * K) by nia.
  apply Z.mul_le_mono_pos_r in H1; [| exact HK].
  apply Z.mul_lt_mono_pos_r in H2; [| exact HK].
  assert (HPb : 4503599627370496 * Z.pos b <= Z.pos m * Z.pos b)
    by (apply Z.mul_le_mono_nonneg_r; lia).
  replace ((Z.pos m - 1) * Z.pos b) with (Z.pos m * Z.pos b - Z.pos b)
    in H1 by ring.
  replace ((Z.pos m + 1) * Z.pos b) with (Z.pos m * Z.pos b + Z.pos b)
    in H2 by ring.
  revert H1 H2 HPb. generalize (Z.pos m * Z.pos b) (Z.pos a * A).
  intros Y X H1 H2 HPb. lia.
Qed.


Lemma iter_xO_pos (p d : positive) :
  Z.pos (Pos.iter xO p d) = Z.pos p * 2 ^ Z.pos d.
Proof.
  change (Pos.iter xO p d) with (shift_pos d p).
  rewrite shift_pos_correct. change (Z.pow_pos 2 d) with (2 ^ Z.pos d). lia.
Qed.

(** [float(z)] for 0 < z < 2^53 is exact. *)
Lemma of_int_exact (z : positive) :
  Z.pos z < 2 ^ 53 ->
  exists mc ec,
    of_int (Z.pos z) = Val (S754_finite false mc ec) /\
    -52 <= ec <= 0 /\
    2 ^ 52 <= Z.pos mc < 2 ^ 53 /\
    Z.pos mc = Z.pos z * 2 ^ (- ec).
Proof.
  intros Hz.
  pose proof (digits2_pos_bounds z) as [Zl Zu].
  set (d := Z.pos (digits2_pos z)) in *.
  assert (Hd : 1 <= d <= 53)
    by (split; [unfold d; lia | apply digits2_pos_le; exact Hz]).
  unfold of_int. cbn [binary_normalize]. unfold binary_round. fold d.
  rewrite fexp_normal by lia. unfold shl_align.
  assert (Hb : 2 ^ 52 <= Z.pos z * 2 ^ (53 - d) < 2 ^ 53).
  { replace (2 ^ 52) with (2 ^ (d - 1) * 2 ^ (53 - d))
      by (rewrite <- Z.pow_add_r by lia; f_equal; lia).
    replace (2 ^ 53) with (2 ^ d * 2 ^ (53 - d))
      by (rewrite <- Z.pow_add_r by lia; f_equal; lia).
    assert (0 < 2 ^ (53 - d)) by (apply Z.pow_pos_nonneg; lia).
    split; [apply Z.mul_le_mono_nonneg_r | apply Z.mul_lt_mono_pos_r]; lia. }
  destruct (d + 0 - 53 - 0) as [| sh | sh] eqn:Esh; try lia.
  - assert (d = 53) by lia.
    replace (53 - d) with 0 in Hb by lia. rewrite Z.mul_1_r in Hb.
    rewrite binary_round_aux_exact by lia.
    exists z, 0. repeat split; try lia.
  - assert (Hsh : Z.pos sh = 53 - d) by lia.
    pose proof (iter_xO_pos z sh) as Hit. rewrite Hsh in Hit.
    rewrite binary_round_aux_exact by (try rewrite Hit; lia).
    exists (Pos.iter xO z sh), (d + 0 - 53).
    split; [reflexivity |]. split; [lia |]. split; [rewrite Hit; exact Hb |].
    rewrite Hit. f_equal. f_equal. lia.
Qed.

(** The product of two 53-bit mantissas, rounded. *)
Lemma SFmul_bounds (mf mc : positive) (ef ec : Z) :
  2 ^ 52 <= Z.pos mf < 2 ^ 53 -> 2 ^ 52 <= Z.pos mc < 2 ^ 53 ->
  -110 <= ef < 0 -> -52 <= ec <= 0 ->
  exists my k,
    SFmul prec emax (S754_finite false mf ef) (S754_finite false mc ec)
      = S754_finite false my (ef + ec + k) /\
    0 <= k /\
    2 ^ 52 <= Z.pos my < 2 ^ 53 /\
    Z.pos my * 2 ^ k <= Z.pos mf * Z.pos mc + 2 ^ k /\
    Z.pos mf * Z.pos mc < Z.pos my * 2 ^ k + 2 ^ k.
Proof.
  intros Hf Hc Hef Hec.
  assert (Hprod : 2 ^ 104 <= Z.pos (mf * mc) < 2 ^ 106).
  { rewrite Pos2Z.inj_mul.
    change (2 ^ 104) with (2 ^ 52 * 2 ^ 52).
    change (2 ^ 106) with (2 ^ 53 * 2 ^ 53).
    change (2 ^ 52) with 4503599627370496 in *.
    change (2 ^ 53) with 9007199254740992 in *. nia. }
  assert (Hd : 104 < Z.pos (digits2_pos (mf * mc)) <= 106).
  { split; [apply digits2_pos_ge | apply digits2_pos_le]; lia. }
  destruct (binary_round_aux_bounds false (mf * mc) (ef + ec) loc_Exact)
    as (my & k & Hr & Hk & Hm & Hu & Hl).
  { change (2 ^ 104) with (2 ^ 52 * 2 ^ 52) in Hprod. 
    change (2 ^ 52) with 4503599627370496 in *. lia. }
  { lia. }
  { lia. }
  cbn [SFmul xorb]. rewrite Hr. exists my, k.
  rewrite Pos2Z.inj_mul in Hu, Hl.
  repeat split; try lia.
Qed.


(** The float product is within less than one unit of [a * m / b], scaled:
    with [G] the mantissa at the common scale [ab]. *)
Lemma product_error (a b m mf mc my A B K : Z) :
  0 < a -> 0 < b -> 0 < m -> 0 < A -> 0 < B -> 0 < K ->
  a * m <= 2 ^ 49 ->
  2 ^ 52 <= my ->
  mf * b * (2 ^ 52 - 1) <= a * A * 2 ^ 52 ->
  a * A * 2 ^ 52 <= mf * b * (2 ^ 52 + 1) ->
  mc = m * B ->
  my * K <= mf * mc + K ->
  mf * mc < my * K + K ->
  a * m * (A * B) - A * B < my * K * b < a * m * (A * B) + A * B.
Proof.
  intros Ha Hb Hm HA HB HK Ham Hmy D1 D2 -> M1 M2.
  change (2 ^ 52) with 4503599627370496 in *.
  change (2 ^ 49) with 562949953421312 in *.
  assert (Hab : 0 < A * B) by nia.
  assert (HmB : 0 <= m * B) by nia.
  pose proof (Z.mul_le_mono_nonneg_r _ _ (m * B) HmB D1) as S1.
  pose proof (Z.mul_le_mono_nonneg_r _ _ (m * B) HmB D2) as S2.
  assert (S3 : a * m * (A * B) <= 562949953421312 * (A * B)) by nia.
  assert (S4 : my * K * b <= mf * (m * B) * b + K * b) by nia.
  assert (S5 : mf * (m * B) * b < my * K * b + K * b) by nia.
  assert (S6 : 4503599627370496 * (K * b) <= my * K * b) by nia.
  replace (mf * b * (4503599627370496 - 1) * (m * B))
    with ((4503599627370496 - 1) * (mf * (m * B) * b)) in S1 by ring.
  replace (a * A * 4503599627370496 * (m * B))
    with (4503599627370496 * (a * m * (A * B))) in S1, S2 by ring.
  replace (mf * b * (4503599627370496 + 1) * (m * B))
    with ((4503599627370496 + 1) * (mf * (m * B) * b)) in S2 by ring.
  revert S1 S2 S3 S4 S5 S6 Hab.
  generalize (mf * (m * B) * b) (a * m * (A * B)) (my * K * b) (K * b) (A * B).
  intros U X GL KL ab. lia.
Qed.

(** A product [g] strictly within one unit of [n], both counted in units of
    [u], is [n]. *)
Lemma exact_product (n g u : Z) :
  0 < u -> (n - 1) * u < g * u -> g * u < (n + 1) * u -> g = n.
Proof.
  intros Hu H1 H2.
  apply Z.mul_lt_mono_pos_r in H1; [| exact Hu].
  apply Z.mul_lt_mono_pos_r in H2; [| exact Hu]. lia.
Qed.

(** Truncating [my / T] when [my * b] is strictly within [T] of [n * T]. *)
Lemma truncated_product (n b my p r T : Z) :
  0 < b -> 0 < T -> my = T * p + r -> 0 <= r < T ->
  n * T - T < my * b -> my * b < n * T + T ->
  p * b <= n <= (p + 1) * b.
Proof.
  intros Hb HT -> Hr H1 H2.
  assert (Hrb : 0 <= r * b) by (apply Z.mul_nonneg_nonneg; lia).
  assert (HrT : r * b < T * b) by (apply Z.mul_lt_mono_pos_r; lia).
  replace ((T * p + r) * b) with (p * b * T + r * b) in H1, H2 by ring.
  replace (T * b) with (b * T) in HrT by ring.
  assert (G1 : p * b * T < (n + 1) * T)
    by (replace ((n + 1) * T) with (n * T + T) by ring; lia).
  assert (G2 : (n - 1) * T < (p * b + b) * T)
    by (replace ((n - 1) * T) with (n * T - T) by ring;
        replace ((p * b + b) * T) with (p * b * T + b * T) by ring; lia).
  apply Z.mul_lt_mono_pos_r in G1; [| exact HT].
  apply Z.mul_lt_mono_pos_r in G2; [| exact HT].
  replace ((p + 1) * b) with (p * b + b) by ring. lia.
Qed.

(** [int((a / b) * m)] for 0 < a <= b and 0 < m: the quotient [a * m / b]
    truncated, or one less when the division is exact. *)
Lemma scale_dim_bounds (a b m : Z) :
  0 < a <= b -> b < 2 ^ 50 -> 0 < m < 2 ^ 53 -> a * m <= 2 ^ 49 ->
  exists p, scale_dim a b m = Val p /\ p * b <= a * m <= (p + 1) * b.
Proof.
  intros Ha Hb Hm Ham.
  destruct a as [| a | a]; try lia.
  destruct b as [| b | b]; try lia.
  destruct m as [| m | m]; try lia.
  destruct (truediv_bounds a b) as (mf & ef & Hdiv & Hef & Hmf & D1 & D2);
    [lia |].
  destruct (of_int_exact m) as (mc & ec & Hof & Hec & Hmc & Hc); [lia |].
  destruct (SFmul_bounds mf mc ef ec Hmf Hmc Hef Hec)
    as (my & k & Hmul & Hk & Hmy & M1 & M2).
  unfold scale_dim, truediv, mul_int. cbn [Z.eqb exact_of_Z].
  rewrite Hdiv, Hof, Hmul. cbn [to_int].
  assert (HA : 0 < 2 ^ (- ef)) by (apply Z.pow_pos_nonneg; lia).
  assert (HB : 0 < 2 ^ (- ec)) by (apply Z.pow_pos_nonneg; lia).
  assert (HK : 0 < 2 ^ k) by (apply Z.pow_pos_nonneg; lia).
  pose proof (product_error (Z.pos a) (Z.pos b) (Z.pos m) (Z.pos mf)
                (Z.pos mc) (Z.pos my) (2 ^ (- ef)) (2 ^ (- ec)) (2 ^ k)
                ltac:(lia) ltac:(lia) ltac:(lia) HA HB HK Ham ltac:(lia)
                D1 D2 Hc M1 M2) as Herr.
  destruct (ef + ec + k) as [| ey | ey] eqn:Ey.
  - (* exponent 0 *)
    eexists. split; [reflexivity |].
    assert (HKab : 2 ^ k = 2 ^ (- ef) * 2 ^ (- ec)).
    { rewrite <- Z.pow_add_r by lia. f_equal. lia. }
    rewrite HKab in Herr. rewrite Z.pow_0_r, Z.mul_1_r.
    revert Herr HA HB. generalize (2 ^ (- ef)) (2 ^ (- ec)).
    intros A B [E1 E2] HA HB.
    assert (Hg : Z.pos my * Z.pos b = Z.pos a * Z.pos m);
      [| replace ((Z.pos my + 1) * Z.pos b)
           with (Z.pos my * Z.pos b + Z.pos b) by ring; lia].
    apply (exact_product (Z.pos a * Z.pos m) (Z.pos my * Z.pos b) (A * B));
      [apply Z.mul_pos_pos; lia | |].
    + replace ((Z.pos a * Z.pos m - 1) * (A * B))
        with (Z.pos a * Z.pos m * (A * B) - A * B) by ring.
      replace (Z.pos my * Z.pos b * (A * B))
        with (Z.pos my * (A * B) * Z.pos b) by ring.
      exact E1.
    + replace ((Z.pos a * Z.pos m + 1) * (A * B))
        with (Z.pos a * Z.pos m * (A * B) + A * B) by ring.
      replace (Z.pos my * Z.pos b * (A * B))
        with (Z.pos my * (A * B) * Z.pos b) by ring.
      exact E2.
  - (* positive exponent *)
    eexists. split; [reflexivity |].
    assert (HKab : 2 ^ k = 2 ^ Z.pos ey * (2 ^ (- ef) * 2 ^ (- ec))).
    { rewrite <- !Z.pow_add_r by lia. f_equal. lia. }
    rewrite HKab in Herr.
    assert (HE : 0 < 2 ^ Z.pos ey) by (apply Z.pow_pos_nonneg; lia).
    revert Herr HA HB HE. generalize (2 ^ (- ef)) (2 ^ (- ec)) (2 ^ Z.pos ey).
    intros A B E [E1 E2] HA HB HE.
    assert (Hg : Z.pos my * E * Z.pos b = Z.pos a * Z.pos m);
      [| replace ((Z.pos my * E + 1) * Z.pos b)
           with (Z.pos my * E * Z.pos b + Z.pos b) by ring; lia].
    apply (exact_product (Z.pos a * Z.pos m) (Z.pos my * E * Z.pos b) (A * B));
      [apply Z.mul_pos_pos; lia | |].
    + replace ((Z.pos a * Z.pos m - 1) * (A * B))
        with (Z.pos a * Z.pos m * (A * B) - A * B) by ring.
      replace (Z.pos my * E * Z.pos b * (A * B))
        with (Z.pos my * (E * (A * B)) * Z.pos b) by ring.
      exact E1.
    + replace ((Z.pos a * Z.pos m + 1) * (A * B))
        with (Z.pos a * Z.pos m * (A * B) + A * B) by ring.
      replace (Z.pos my * E * Z.pos b * (A * B))
        with (Z.pos my * (E * (A * B)) * Z.pos b) by ring.
      exact E2.
  - (* negative exponent: the mantissa is shifted right *)
    eexists. split; [reflexivity |].
    assert (HT : 0 < 2 ^ Z.pos ey) by (apply Z.pow_pos_nonneg; lia).
    assert (HKab : 2 ^ (- ef) * 2 ^ (- ec) = 2 ^ Z.pos ey * 2 ^ k).
    { rewrite <- !Z.pow_add_r by lia. f_equal. lia. }
    rewrite HKab in Herr.
    pose proof (Z.div_mod (Z.pos my) (2 ^ Z.pos ey) ltac:(lia)) as Hdm.
    pose proof (Z.mod_pos_bound (Z.pos my) (2 ^ Z.pos ey) HT) as Hmod.
    revert Herr HT HK Hdm Hmod.
    generalize (2 ^ Z.pos ey) (2 ^ k).
    intros T K [E1 E2] HT HK Hdm Hmod.
    apply (truncated_product (Z.pos a * Z.pos m) (Z.pos b) (Z.pos my)
             (Z.pos my / T) (Z.pos my mod T) T);
      try lia.
    + apply (Z.mul_lt_mono_pos_r K); [exact HK |].
      replace ((Z.pos a * Z.pos m * T - T) * K)
        with (Z.pos a * Z.pos m * (T * K) - T * K) by ring.
      replace (Z.pos my * Z.pos b * K) with (Z.pos my * K * Z.pos b) by ring.
      exact E1.
    + apply (Z.mul_lt_mono_pos_r K); [exact HK |].
      replace ((Z.pos a * Z.pos m * T + T) * K)
        with (Z.pos a * Z.pos m * (T * K) + T * K) by ring.
      replace (Z.pos my * Z.pos b * K) with (Z.pos my * K * Z.pos b) by ring.
      exact E2.
Qed.

End FloatFacts.

(** ** C3: the size requested when a side exceeds the threshold *)

(** The arithmetic agrees with CPython on familiar values: [29 / 100] is
    the double 0.29, [0.29 * 100] is 28.999999999999996, [1 / 3] is
    0x1.5555555555555p-2, and [round(0.125, 2)] is 0.12. *)
Example binary64_samples :
  Float.truediv 29 100 = Float.Val (S754_finite false 5224175567749775 (-54)) /\
  Float.mul_int (S754_finite false 5224175567749775 (-54)) 100
    = Float.Val (S754_finite false 8162774324609023 (-48)) /\
  Float.truediv 1 3 = Float.Val (S754_finite false 6004799503160661 (-54)) /\
  Float.of_int 2048 = Float.Val (S754_finite false 4503599627370496 (-41)) /\
  Float.to_int (S754_finite true 7 (-1)) = Float.Val (-3) /\
  Float.round2 (S754_finite false 1 (-3))
    = S754_finite false 8646911284551352 (-56).
Proof. repeat split; vm_compute; reflexivity. Qed.

Example scale_dim_samples :
  scale_dim 1000 3000 2048 = Float.Val 682 /\
  scale_dim 290 1000 100 = Float.Val 28 /\
  scale_dim 4000 4000 2048 = Float.Val 2048.
Proof. repeat split; vm_compute; reflexivity. Qed.

(** The outcome of [Image.resize] on a size that is given. *)
Lemma Image_resize_run W im w h :
  fst (run (Image_resize W im (w, h))) =
    if (w <? 1) || (h <? 1) then
      Raises (mk_exn ValueError "height and width must be > 0")
    else
      match resample_raster W im (w, h) with
      | Done px => Returns (mk_image w h (mode im) px)
      | Failed msg => Raises (mk_exn LibraryError msg)
      end.
Proof.
  unfold run, Image_resize. unfold_monad.
  destruct ((w <? 1) || (h <? 1)); [reflexivity |].
  destruct (resample_raster W im (w, h)); reflexivity.
Qed.

(** C3, as amended.  For an image whose larger side exceeds a positive
    threshold, the size requested from [Image.resize] has the threshold as
    its larger side and [int((smaller / larger) * threshold)] as its smaller
    side: the product truncated, not rounded.  The truncated value is the
    integer quotient [threshold * smaller / larger], or one less than it when
    the division is exact and the double-precision product falls just below;
    the resize then succeeds whenever that side is at least 1 and Pillow
    resamples. *)
Theorem C3_resize_truncates (W : World) (im : image) (max_size : Z) :
  pillow_size im ->
  0 < max_size < Z.max (width im) (height im) ->
  let large := Z.max (width im) (height im) in
  let small := Z.min (width im) (height im) in
  exists new_small,
    scale_dim small large max_size = Float.Val new_small /\
    max_size * small / large - 1 <= new_small <= max_size * small / large /\
    ((max_size * small) mod large <> 0 ->
     new_small = max_size * small / large) /\
    let sz := if width im >? height im then (max_size, new_small)
              else (new_small, max_size) in
    new_size (width im) (height im) max_size = Float.Val sz /\
    fst (run (resize_if_needed W im max_size)) =
      if new_small <? 1 then
        Raises (mk_exn ValueError "height and width must be > 0")
      else
        match resample_raster W im sz with
        | Done px => Returns (mk_image (fst sz) (snd sz) (mode im) px)
        | Failed msg => Raises (mk_exn LibraryError msg)
        end.
Proof.
  intros (Hw & Hh & Hpix) Hmax large small.
  assert (Hsl : 0 < small <= large) by (unfold small, large; lia).
  assert (Hprod : small * large = width im * height im)
    by (unfold small, large; destruct (Z.max_spec (width im) (height im))
          as [[? ->] | [? ->]];
        destruct (Z.min_spec (width im) (height im)) as [[? ->] | [? ->]];
        lia).
  assert (Hlarge : large < 2 ^ 50).
  { change (2 ^ 50) with 1125899906842624.
    change (2 ^ 49) with 562949953421312 in Hpix. nia. }
  assert (Hm53 : 0 < max_size < 2 ^ 53).
  { change (2 ^ 53) with 9007199254740992.
    change (2 ^ 50) with 1125899906842624 in Hlarge. fold large in Hmax. lia. }
  assert (Hsm : small * max_size <= 2 ^ 49).
  { fold large in Hmax. change (2 ^ 49) with 562949953421312 in *. nia. }
  destruct (FloatFacts.scale_dim_bounds small large max_size Hsl Hlarge Hm53 Hsm)
    as (p & Hp & Hlo & Hhi).
  exists p. split; [exact Hp |].
  assert (Hq : max_size * small / large - 1 <= p <= max_size * small / large).
  { split.
    - assert (max_size * small / large <= p + 1); [| lia].
      apply Z.div_le_upper_bound; lia.
    - apply Z.div_le_lower_bound; lia. }
  split; [exact Hq |].
  split.
  { intros Hmod.
    assert (p + 1 <= max_size * small / large \/
            p = max_size * small / large) as [H | H] by lia; [| exact H].
    exfalso.
    pose proof (Z.div_mod (max_size * small) large ltac:(lia)) as Hdm.
    pose proof (Z.mod_pos_bound (max_size * small) large ltac:(lia)) as Hmb.
    revert Hlo Hhi H Hsl Hdm Hmb Hmod.
    generalize (max_size * small / large) ((max_size * small) mod large).
    clear. intros q r **. nia. }
  assert (Hns : new_size (width im) (height im) max_size =
                Float.Val (if width im >? height im then (max_size, p)
                           else (p, max_size))).
  { unfold new_size. rewrite Z.gtb_ltb.
    destruct (Z.ltb_spec (height im) (width im)) as [Hlt | Hge].
    - replace small with (height im) in Hp by (unfold small; lia).
      replace large with (width im) in Hp by (unfold large; lia).
      rewrite Hp. reflexivity.
    - replace small with (width im) in Hp by (unfold small; lia).
      replace large with (height im) in Hp by (unfold large; lia).
      rewrite Hp. reflexivity. }
  split; [exact Hns |].
  unfold run. rewrite resize_if_needed_above by (fold large; lia).
  rewrite Hns.
  assert (Hm1 : (max_size <? 1) = false) by (apply Z.ltb_ge; lia).
  destruct (width im >? height im); rewrite Image_resize_run; cbn [fst snd];
    rewrite Hm1; [| rewrite orb_false_r]; reflexivity.
Qed.

Lemma C3_resize_truncates_witness :
  exists new_small,
    scale_dim 1000 3000 2048 = Float.Val new_small /\
    2048 * 1000 / 3000 - 1 <= new_small <= 2048 * 1000 / 3000 /\
    ((2048 * 1000) mod 3000 <> 0 -> new_small = 2048 * 1000 / 3000) /\
    new_size 3000 1000 2048 = Float.Val (2048, new_small) /\
    fst (run (resize_if_needed (Demo.world Demo.photo 2048) Demo.photo 2048)) =
      if new_small <? 1 then
        Raises (mk_exn ValueError "height and width must be > 0")
      else Returns (mk_image 2048 new_small "RGB" []).
Proof.
  apply (C3_resize_truncates (Demo.world Demo.photo 2048) Demo.photo 2048).
  - unfold pillow_size. simpl. lia.
  - simpl. lia.
Defined.

(** C3 as stated fails: a 3000 x 1000 image under the threshold 2048 is
    resized to 2048 x 682, where rounding 682.67 to the nearest integer gives
    683. *)
Lemma C3_rounding_counterexample :
  2048 < Z.max (width Demo.photo) (height Demo.photo) /\
  fst (run (resize_if_needed (Demo.world Demo.photo 2048) Demo.photo 2048)) =
    Returns (mk_image 2048 682 "RGB" []) /\
  claimed_dim (height Demo.photo) (width Demo.photo) 2048 = Float.Val 683 /\
  2 * Z.abs (683 * 3000 - 2048 * 1000) < 3000 /\
  (682, 2048) <> (683, 2048).
Proof.
  split; [simpl; lia |].
  split; [vm_compute; reflexivity |].
  split; [vm_compute; reflexivity |].
  split; [simpl; lia | discriminate].
Qed.

(** ** C4: the processed size of a capped image *)

(** C4.  For a request whose decoded image has a side above
    [MAX_IMAGE_SIZE] and that is answered with the JSON envelope, the larger
    side of [processedSize] is [MAX_IMAGE_SIZE], and the two sides keep the
    proportion of the decoded image to within one pixel: with
    [processedSize = (pw, ph)] and the original [(w, h)],
    [|pw * h - ph * w| <= max w h]. *)
Theorem C4_capped_size (W : World) (data : json) (im : image)
  (tr0 : list event) (j : json) :
  run (get_image W data) = (Returns (Some im), tr0) ->
  pillow_size im ->
  MAX_IMAGE_SIZE W < Z.max (width im) (height im) ->
  respond W (JsonRequest data) = mk_response 200 (JsonBody j) ->
  exists fields pw ph,
    j = JObj fields /\
    dict_get "processedSize" fields = Some (JArr [JInt pw; JInt ph]) /\
    Z.max pw ph = MAX_IMAGE_SIZE W /\
    Z.abs (pw * height im - ph * width im) <= Z.max (width im) (height im).
Proof.
  intros Hg (Hw & Hh & Hpix) Hmax Hr.
  assert (Hs : status (respond W (JsonRequest data)) = 200) by now rewrite Hr.
  destruct (success_run _ _ _ _ Hg Hs)
    as (kvs & im1 & im2 & out & png & _ & _ & _ & Hsz & H2 & _ & _ & _
        & Hresp).
  injection Hsz as Hw1 Hh1.
  unfold run in H2. rewrite resize_if_needed_above in H2
    by (rewrite Hw1, Hh1; exact Hmax).
  rewrite Hw1, Hh1 in H2.
  destruct (new_size (width im) (height im) (MAX_IMAGE_SIZE W))
    as [[nw nh] | c msg] eqn:Hns; [| discriminate].
  destruct (Image_resize_returns W im1 (nw, nh) [] im2 H2)
    as (Hsz2 & _ & Hnw & Hnh).
  cbn [fst snd] in Hnw, Hnh.
  rewrite Hresp in Hr. unfold success_response in Hr.
  destruct (str_eq "binary" (format_of kvs)); [discriminate |].
  injection Hr as <-. unfold envelope.
  eexists. exists nw, nh. split; [reflexivity |].
  split; [cbn; rewrite Hsz2; reflexivity |].
  assert (Hlarge : Z.max (width im) (height im) < 2 ^ 50).
  { change (2 ^ 50) with 1125899906842624.
    change (2 ^ 49) with 562949953421312 in Hpix. nia. }
  change (2 ^ 50) with 1125899906842624 in Hlarge.
  unfold new_size in Hns. rewrite Z.gtb_ltb in Hns.
  destruct (Z.ltb_spec (height im) (width im)) as [Hlt | Hge].
  - destruct (scale_dim (height im) (width im) (MAX_IMAGE_SIZE W))
      as [v | c msg] eqn:Hv; [| discriminate].
    injection Hns as <- <-.
    destruct (FloatFacts.scale_dim_bounds (height im) (width im)
                (MAX_IMAGE_SIZE W)) as (p & Hp & Hlo & Hhi).
    + lia.
    + change (2 ^ 50) with 1125899906842624. lia.
    + change (2 ^ 53) with 9007199254740992. lia.
    + change (2 ^ 49) with 562949953421312 in *. nia.
    + rewrite Hp in Hv. injection Hv as <-.
      assert (p <= MAX_IMAGE_SIZE W) by nia.
      split; [lia |]. rewrite Z.max_l by lia. apply Z.abs_le. nia.
  - destruct (scale_dim (width im) (height im) (MAX_IMAGE_SIZE W))
      as [v | c msg] eqn:Hv; [| discriminate].
    injection Hns as <- <-.
    destruct (FloatFacts.scale_dim_bounds (width im) (height im)
                (MAX_IMAGE_SIZE W)) as (p & Hp & Hlo & Hhi).
    + lia.
    + change (2 ^ 50) with 1125899906842624. lia.
    + change (2 ^ 53) with 9007199254740992. lia.
    + change (2 ^ 49) with 562949953421312 in *. nia.
    + rewrite Hp in Hv. injection Hv as <-.
      assert (p <= MAX_IMAGE_SIZE W) by nia.
      split; [lia |]. rewrite Z.max_r by lia. apply Z.abs_le. nia.
Qed.

Lemma C4_capped_size_witness :
  exists fields pw ph,
    envelope "data:image/png;base64,iVBORw0KGgo=" (3000, 1000) (2048, 682)
      (elapsed (Demo.world Demo.photo 2048)) = JObj fields /\
    dict_get "processedSize" fields = Some (JArr [JInt pw; JInt ph]) /\
    Z.max pw ph = 2048 /\
    Z.abs (pw * 1000 - ph * 3000) <= Z.max 3000 1000.
Proof.
  apply (C4_capped_size (Demo.world Demo.photo 2048)
           (JObj [("imageData", JStr "iVBORw0KGgo=")]) Demo.photo
           [Call_decode_base64_image (JStr "iVBORw0KGgo=")]).
  - reflexivity.
  - unfold pillow_size. simpl. lia.
  - simpl. lia.
  - vm_compute. reflexivity.
Defined.

(** The same run, evaluated. *)
Example capped_photo_sizes :
  respond (Demo.world Demo.photo 2048) (Demo.inline_request []) =
    mk_response 200
      (JsonBody
         (envelope "data:image/png;base64,iVBORw0KGgo=" (3000, 1000)
            (2048, 682) (elapsed (Demo.world Demo.photo 2048)))).
Proof. vm_compute. reflexivity. Qed.

(** A strip too thin for the threshold is refused by Pillow: 5000 x 1 would
    become 2048 x 0. *)
Example thin_strip_is_refused :
  respond (Demo.world (mk_image 5000 1 "RGB" []) 2048) (Demo.inline_request [])
  = mk_response 500 (error_body "height and width must be > 0").
Proof. vm_compute. reflexivity. Qed.

(** * Further properties of the handler *)

(** ** The run of [process], in full *)

(** The outcome of lines 123-165 as a function of the libraries' answers. *)
Lemma process_outcome W kvs im tr :
  fst (process W (JObj kvs) im tr) =
    match fst (run (ensure_rgb W im)) with
    | Raises e => Raises e
    | Returns im1 =>
        match fst (run (resize_if_needed W im1 (MAX_IMAGE_SIZE W))) with
        | Raises e => Raises e
        | Returns im2 =>
            match rembg_remove W im2 (alpha_of kvs) with
            | Failed msg => Raises (mk_exn LibraryError msg)
            | Done out =>
                match save_PNG W out with
                | Failed msg => Raises (mk_exn LibraryError msg)
                | Done png =>
                    Returns (success_response W (format_of kvs) png
                               (size im1) (size im2))
                end
            end
        end
    end.
Proof.
  unfold process. unfold bind at 1.
  rewrite (ensure_rgb_uniform W im tr). unfold run.
  destruct (fst (ensure_rgb W im [])) as [im1 | e]; [| reflexivity].
  cbn [fst snd]. unfold bind at 1.
  rewrite (resize_if_needed_uniform W im1 (MAX_IMAGE_SIZE W)). unfold run.
  destruct (fst (resize_if_needed W im1 (MAX_IMAGE_SIZE W) [])) as [im2 | e];
    [| reflexivity].
  cbn [fst snd]. rewrite !py_get_obj.
  fold (alpha_of kvs). fold (format_of kvs).
  unfold bind at 1. unfold ret at 1.
  unfold bind at 1. unfold ret at 1.
  unfold bind at 1. unfold emit at 1.
  unfold bind at 1. unfold lift_lib at 1.
  destruct (rembg_remove W im2 (alpha_of kvs)) as [out | msg];
    [| reflexivity].
  unfold ret at 1. unfold success_response, image_to_base64, elapsed.
  destruct (str_eq "binary" (format_of kvs)); unfold bind, lift_lib;
    destruct (save_PNG W out) as [png | msg]; reflexivity.
Qed.

(** The calls of lines 123-165: the sizing, then the inference when the
    sizing returned. *)
Lemma process_trace W kvs im tr :
  snd (process W (JObj kvs) im tr) =
    (tr ++
     match fst (run (ensure_rgb W im)) with
     | Raises _ => []
     | Returns im1 =>
         Call_resize_if_needed im1 (MAX_IMAGE_SIZE W) ::
         match fst (run (resize_if_needed W im1 (MAX_IMAGE_SIZE W))) with
         | Raises _ => []
         | Returns im2 => [Call_remove im2 (alpha_of kvs)]
         end
     end)%list.
Proof.
  unfold process. unfold bind at 1.
  rewrite (ensure_rgb_uniform W im tr). unfold run.
  pose proof (ensure_rgb_silent W im []) as Hs. rewrite Hs, app_nil_r.
  destruct (fst (ensure_rgb W im [])) as [im1 | e];
    [| now rewrite app_nil_r].
  cbn [fst snd]. unfold bind at 1.
  rewrite (resize_if_needed_uniform W im1 (MAX_IMAGE_SIZE W)). unfold run.
  rewrite (resize_if_needed_trace W im1 (MAX_IMAGE_SIZE W) []).
  destruct (fst (resize_if_needed W im1 (MAX_IMAGE_SIZE W) [])) as [im2 | e];
    [| reflexivity].
  cbn [fst snd app]. rewrite !py_get_obj.
  fold (alpha_of kvs). fold (format_of kvs).
  unfold bind at 1. unfold ret at 1.
  unfold bind at 1. unfold ret at 1.
  unfold bind at 1. unfold emit at 1.
  unfold bind at 1. unfold lift_lib at 1.
  destruct (rembg_remove W im2 (alpha_of kvs)) as [out | msg];
    [| unfold raise; cbn [snd]; now rewrite <- app_assoc].
  unfold ret at 1. unfold image_to_base64.
  destruct (str_eq "binary" (format_of kvs)); unfold bind, lift_lib;
    destruct (save_PNG W out) as [png | msg]; unfold ret, raise; cbn [snd];
    now rewrite <- app_assoc.
Qed.

(** ** The shape of every answer *)

Lemma process_status W data im tr r :
  fst (process W data im tr) = Returns r ->
  status r = 200 /\
  ((exists png, resp_body r = FileBody "image/png" png) \/
   (exists u os ps, resp_body r = JsonBody (envelope u os ps (elapsed W)))).
Proof.
  intros H. destruct (process W data im tr) as [o t] eqn:E.
  cbn [fst] in H. subst o.
  destruct (process_returns _ _ _ _ _ _ E)
    as (kvs & im1 & im2 & out & png & _ & _ & _ & _ & _ & _ & ->).
  unfold success_response. destruct (str_eq "binary" (format_of kvs)).
  - split; [reflexivity |]. left. eexists. reflexivity.
  - split; [reflexivity |]. right. do 3 eexists. reflexivity.
Qed.

(** Every request is answered with status 200, 400 or 500.  A 200 answer is
    the PNG file or the JSON envelope; a 400 or 500 answer is a JSON object
    with the single field [error]. *)
Theorem response_shape (W : World) (req : request) :
  (status (respond W req) = 200 /\
   ((exists png, resp_body (respond W req) = FileBody "image/png" png) \/
    (exists u os ps,
        resp_body (respond W req) = JsonBody (envelope u os ps (elapsed W)))))
  \/
  ((status (respond W req) = 400 \/ status (respond W req) = 500) /\
   error_answer (respond W req)).
Proof.
  unfold respond.
  cbv [run remove_background try_except remove_background_body bind ret].
  destruct req as [data | msg].
  - destruct (negb (truthy data)).
    + right. split; [now left | eexists; reflexivity].
    + destruct (get_image W data []) as [[[im |] | e] t].
      * destruct (process W data im t) as [[r | e] t'] eqn:E; cbn [fst].
        -- left. apply (process_status W data im t). now rewrite E.
        -- right. split; [apply on_exception_status | apply on_exception_error].
      * right. split; [now left | eexists; reflexivity].
      * right. cbn [fst].
        split; [apply on_exception_status | apply on_exception_error].
  - right. cbn. split; [now right | eexists; reflexivity].
Qed.

(** ** Bodies that are not a payload object *)

(** A body that Python counts as false - [null], [false], [0], [0.0], the
    empty string, list or object - is answered with 400 "No JSON data
    provided", and nothing is called. *)
Theorem falsy_body (W : World) (data : json) :
  truthy data = false ->
  run (remove_background W (JsonRequest data)) =
    (Returns (mk_response 400 (error_body "No JSON data provided")), []).
Proof.
  intros H.
  cbv [run remove_background try_except remove_background_body bind ret].
  rewrite H. reflexivity.
Qed.

Lemma falsy_body_witness :
  map (fun data =>
         run (remove_background (Demo.world Demo.photo 2048) (JsonRequest data)))
      [JNull; JBool false; JInt 0; JFloat (S754_zero true); JStr "";
       JArr []; JObj []]
  = repeat
      (Returns (mk_response 400 (error_body "No JSON data provided")), [])
      7.
Proof.
  cbn [map repeat].
  repeat (rewrite (falsy_body (Demo.world Demo.photo 2048)) by reflexivity).
  reflexivity.
Defined.

(** A body that is not an object never reaches a helper or a library: the
    answer is an error answer with status 400 or 500, and a true boolean or a
    non-zero number is answered with 500, the [in] test of line 116 failing
    on it. *)
Theorem non_object_body (W : World) (data : json) :
  (forall kvs, data <> JObj kvs) ->
  calls W (JsonRequest data) = [] /\
  error_answer (respond W (JsonRequest data)) /\
  (status (respond W (JsonRequest data)) = 400 \/
   status (respond W (JsonRequest data)) = 500) /\
  (truthy data = true ->
   match data with
   | JBool _ | JInt _ | JFloat _ =>
       respond W (JsonRequest data) =
         mk_response 500
           (error_body
              ("argument of type '" ++ type_name data ++ "' is not iterable"))
   | _ => True
   end).
Proof.
  intros Hobj. unfold respond, calls.
  cbv [run remove_background try_except remove_background_body bind ret].
  destruct (truthy data) eqn:Ht; cbn [negb].
  2:{ repeat split; try (now left); try discriminate.
      eexists; reflexivity. }
  destruct data as [| b | z | f | s | l | kvs];
    try discriminate; try (exfalso; now apply (Hobj kvs)).
  - cbn. repeat split; auto. eexists; reflexivity.
  - cbn. repeat split; auto. eexists; reflexivity.
  - cbn. repeat split; auto. eexists; reflexivity.
  - unfold get_image, py_contains, py_getitem. unfold_monad.
    destruct (str_contains "imageData" s);
      [cbn; repeat split; auto; eexists; reflexivity |].
    destruct (str_contains "imageUrl" s);
      cbn; repeat split; auto; eexists; reflexivity.
  - unfold get_image, py_contains, py_getitem. unfold_monad.
    destruct (existsb (str_eq "imageData") l);
      [cbn; repeat split; auto; eexists; reflexivity |].
    destruct (existsb (str_eq "imageUrl") l);
      cbn; repeat split; auto; eexists; reflexivity.
Qed.

Lemma non_object_body_witness :
  calls (Demo.world Demo.photo 2048) (JsonRequest (JInt 7)) = [] /\
  respond (Demo.world Demo.photo 2048) (JsonRequest (JInt 7)) =
    mk_response 500 (error_body "argument of type 'int' is not iterable").
Proof.
  destruct (non_object_body (Demo.world Demo.photo 2048) (JInt 7))
    as (H1 & _ & _ & H4); [discriminate |].
  split; [exact H1 | apply H4; reflexivity].
Defined.

(** ** The remote source *)

(** When the fetch itself fails the answer depends on the class of the
    exception.  A [RequestException] of [requests.get] is answered with 400
    and the message prefixed by "Failed to fetch image: "; an exception of
    another class that [requests.get] lets through, such as urllib3's
    [LocationParseError], is answered with 500 and the bare message.  Either
    way there is a single attempt. *)
Theorem fetch_network_failure (W : World) (kvs : list (string * json))
  (target : json) :
  dict_get "imageData" kvs = None ->
  dict_get "imageUrl" kvs = Some target ->
  (forall msg,
      requests_get W target = GetRaises msg ->
      run (remove_background W (JsonRequest (JObj kvs))) =
        (Returns
           (mk_response 400 (error_body ("Failed to fetch image: " ++ msg))),
         [Call_fetch_image_from_url target; Net_get target])) /\
  (forall c msg,
      requests_get W target = GetRaisesOther c msg ->
      is_RequestException c = false ->
      run (remove_background W (JsonRequest (JObj kvs))) =
        (Returns (mk_response 500 (error_body msg)),
         [Call_fetch_image_from_url target; Net_get target])).
Proof.
  intros Hd Hu. split.
  - intros msg Hg.
    rewrite (remove_background_url W kvs target Hd Hu).
    rewrite fetch_image_from_url_run, Hg. reflexivity.
  - intros c msg Hg Hc.
    rewrite (remove_background_url W kvs target Hd Hu).
    rewrite fetch_image_from_url_run, Hg.
    unfold on_exception. cbn [exn_cls exn_msg]. rewrite Hc. reflexivity.
Qed.

Lemma fetch_network_failure_witness :
  run (remove_background Sample.world
         (JsonRequest (JObj [("imageUrl", JStr "not a url")]))) =
    (Returns (mk_response 400
                (error_body "Failed to fetch image: Invalid URL")),
     [Call_fetch_image_from_url (JStr "not a url");
      Net_get (JStr "not a url")]) /\
  run (remove_background Sample.world
         (JsonRequest
            (JObj [("imageUrl", JStr "http://example..com/a.png")]))) =
    (Returns
       (mk_response 500
          (error_body
             "Failed to parse: 'example..com', label empty or too long")),
     [Call_fetch_image_from_url (JStr "http://example..com/a.png");
      Net_get (JStr "http://example..com/a.png")]).
Proof.
  split.
  - apply (proj1 (fetch_network_failure Sample.world
                    [("imageUrl", JStr "not a url")] (JStr "not a url")
                    eq_refl eq_refl) "Invalid URL").
    reflexivity.
  - apply (proj2 (fetch_network_failure Sample.world
                    [("imageUrl", JStr "http://example..com/a.png")]
                    (JStr "http://example..com/a.png") eq_refl eq_refl)
             LocationParseError
             "Failed to parse: 'example..com', label empty or too long");
      reflexivity.
Defined.

(** A response with a status from 400 to 599 is a fetch failure as well: 400
    with the text of [raise_for_status], "Client Error" below 500 and
    "Server Error" from 500 on; the body is not looked at. *)
Theorem fetch_http_error (W : World) (kvs : list (string * json))
  (target : json) (r : http_response) :
  dict_get "imageData" kvs = None ->
  dict_get "imageUrl" kvs = Some target ->
  requests_get W target = GetResponse r ->
  400 <= status_code r < 600 ->
  respond W (JsonRequest (JObj kvs)) =
    mk_response 400
      (error_body
         ("Failed to fetch image: " ++ str_of_Z (status_code r) ++
          (if status_code r <? 500 then " Client Error: "
           else " Server Error: ") ++
          reason r ++ " for url: " ++ url r)).
Proof.
  intros Hd Hu Hg Hsc. unfold respond.
  rewrite (remove_background_url W kvs target Hd Hu).
  rewrite fetch_image_from_url_run, Hg. cbv zeta.
  destruct (Z.ltb_spec (status_code r) 500) as [Hlt | Hge].
  - replace (400 <=? status_code r) with true
      by (symmetry; apply Z.leb_le; lia).
    reflexivity.
  - replace (status_code r <? 500) with false
      by (symmetry; apply Z.ltb_ge; lia).
    rewrite andb_false_r.
    replace (500 <=? status_code r) with true
      by (symmetry; apply Z.leb_le; lia).
    replace (status_code r <? 600) with true
      by (symmetry; apply Z.ltb_lt; lia).
    reflexivity.
Qed.

Lemma fetch_http_error_witness :
  respond (Demo.world Demo.photo 2048)
    (JsonRequest (JObj [("imageUrl", JStr "https://example.com/missing.png")]))
  = mk_response 400
      (error_body
         ("Failed to fetch image: " ++ str_of_Z 404 ++ " Client Error: " ++
          "Not Found" ++ " for url: " ++ "https://example.com/missing.png")).
Proof.
  apply (fetch_http_error (Demo.world Demo.photo 2048)
           [("imageUrl", JStr "https://example.com/missing.png")]
           (JStr "https://example.com/missing.png")
           (mk_http_response 404 "Not Found"
              "https://example.com/missing.png" Demo.text_page));
    try reflexivity.
  simpl. lia.
Defined.

(** Any other status - not only 2xx, also 1xx, 3xx or a code from 600 on -
    passes [raise_for_status]: the body is handed to Pillow and the fetch
    returns what Pillow makes of it. *)
Theorem fetch_other_status (W : World) (target : json) (r : http_response) :
  requests_get W target = GetResponse r ->
  status_code r < 400 \/ 600 <= status_code r ->
  run (fetch_image_from_url W target) =
    (match Image_open W (content r) with
     | Done im => Returns im
     | Failed msg => Raises (mk_exn UnidentifiedImageError msg)
     end,
     [Call_fetch_image_from_url target; Net_get target]).
Proof.
  intros Hg Hsc. unfold run. rewrite fetch_image_from_url_run, Hg. cbv zeta.
  replace ((400 <=? status_code r) && (status_code r <? 500)) with false.
  2:{ symmetry. apply andb_false_iff.
      destruct Hsc; [left; apply Z.leb_gt | right; apply Z.ltb_ge]; lia. }
  replace ((500 <=? status_code r) && (status_code r <? 600)) with false.
  2:{ symmetry. apply andb_false_iff.
      destruct Hsc; [left; apply Z.leb_gt | right; apply Z.ltb_ge]; lia. }
  reflexivity.
Qed.

Lemma fetch_other_status_witness :
  run (fetch_image_from_url (Demo.world Demo.photo 2048)
         (JStr "https://example.com/photo.png")) =
    (Returns Demo.photo,
     [Call_fetch_image_from_url (JStr "https://example.com/photo.png");
      Net_get (JStr "https://example.com/photo.png")]).
Proof.
  apply (fetch_other_status (Demo.world Demo.photo 2048)
           (JStr "https://example.com/photo.png")
           (mk_http_response 200 "OK" "https://example.com/photo.png"
              Demo.png_bytes)); [reflexivity | left; simpl; lia].
Defined.

(** ** When the answer is 400, and when 500 *)

(** A payload object is answered with 400 in exactly three situations: it is
    empty; it names no image source; or it has no inline data and the fetch
    of its URL fails with a [RequestException] ([requests.get] raises one,
    or the status is from 400 to 599).  Every other answer is the 200 of a
    success or an error answer with status 500. *)
Theorem bad_request_iff (W : World) (kvs : list (string * json)) :
  (status (respond W (JsonRequest (JObj kvs))) = 400 <->
   kvs = [] \/
   (dict_get "imageData" kvs = None /\
    match dict_get "imageUrl" kvs with
    | None => True
    | Some target =>
        match requests_get W target with
        | GetResponse r => 400 <= status_code r < 600
        | GetRaises _ => True
        | GetRaisesOther c _ => is_RequestException c = true
        end
    end)) /\
  (status (respond W (JsonRequest (JObj kvs))) <> 400 ->
   status (respond W (JsonRequest (JObj kvs))) = 200 \/
   (status (respond W (JsonRequest (JObj kvs))) = 500 /\
    error_answer (respond W (JsonRequest (JObj kvs))))).
Proof.
  split.
  - rewrite object_status_400.
    destruct (dict_get "imageUrl" kvs) as [target |]; [| reflexivity].
    unfold fetch_fails.
    destruct (requests_get W target) as [r | msg | c msg];
      [| intuition | reflexivity].
    rewrite andb_true_iff, Z.leb_le, Z.ltb_lt. reflexivity.
  - intros Hn.
    destruct (status_cases W (JsonRequest (JObj kvs))) as [H | [[H | H] He]];
      [now left | contradiction | right; now split].
Qed.

(** ** The binary form and the failures of the processing *)

(** A request answered with status 200 whose [return_format] is ["binary"]
    gets the PNG bytes of rembg's result as an [image/png] body, with none of
    the envelope's fields. *)
Theorem binary_form (W : World) (kvs : list (string * json)) (im : image)
  (tr0 : list event) :
  run (get_image W (JObj kvs)) = (Returns (Some im), tr0) ->
  format_of kvs = JStr "binary" ->
  status (respond W (JsonRequest (JObj kvs))) = 200 ->
  exists im1 im2 out png,
    fst (run (ensure_rgb W im)) = Returns im1 /\
    fst (run (resize_if_needed W im1 (MAX_IMAGE_SIZE W))) = Returns im2 /\
    rembg_remove W im2 (alpha_of kvs) = Done out /\
    save_PNG W out = Done png /\
    respond W (JsonRequest (JObj kvs)) =
      mk_response 200 (FileBody "image/png" png).
Proof.
  intros Hg Hf Hs.
  destruct (success_run _ _ _ _ Hg Hs)
    as (kvs' & im1 & im2 & out & png & Hk & H1 & _ & _ & H2 & H3 & H4 & _
        & Hresp).
  injection Hk as <-.
  exists im1, im2, out, png. repeat (split; [assumption |]).
  rewrite Hresp. unfold success_response. rewrite Hf. reflexivity.
Qed.

Lemma binary_form_witness :
  exists im1 im2 out png,
    fst (run (ensure_rgb (Demo.world Demo.scan 2048) Demo.scan))
      = Returns im1 /\
    fst (run (resize_if_needed (Demo.world Demo.scan 2048) im1 2048))
      = Returns im2 /\
    rembg_remove (Demo.world Demo.scan 2048) im2 (JBool true) = Done out /\
    save_PNG (Demo.world Demo.scan 2048) out = Done png /\
    respond (Demo.world Demo.scan 2048)
      (Demo.inline_request [("return_format", JStr "binary")]) =
      mk_response 200 (FileBody "image/png" png).
Proof.
  apply (binary_form (Demo.world Demo.scan 2048)
           [("imageData", JStr "iVBORw0KGgo=");
            ("return_format", JStr "binary")] Demo.scan
           [Call_decode_base64_image (JStr "iVBORw0KGgo=")]);
    reflexivity.
Defined.

(** A failure of rembg, or of the PNG serialisation of its result, is
    answered with 500 and the library's message, whatever the output form. *)
Theorem processing_failure (W : World) (kvs : list (string * json))
  (im im1 im2 : image) (tr0 : list event) (msg : string) :
  run (get_image W (JObj kvs)) = (Returns (Some im), tr0) ->
  fst (run (ensure_rgb W im)) = Returns im1 ->
  fst (run (resize_if_needed W im1 (MAX_IMAGE_SIZE W))) = Returns im2 ->
  (rembg_remove W im2 (alpha_of kvs) = Failed msg \/
   exists out, rembg_remove W im2 (alpha_of kvs) = Done out /\
               save_PNG W out = Failed msg) ->
  respond W (JsonRequest (JObj kvs)) = mk_response 500 (error_body msg).
Proof.
  intros Hg H1 H2 Hfail. unfold respond.
  rewrite (remove_background_process _ _ _ _ Hg).
  pose proof (process_outcome W kvs im tr0) as Ho.
  rewrite H1, H2 in Ho.
  destruct (process W (JObj kvs) im tr0) as [o t]. cbn [fst] in Ho. subst o.
  destruct Hfail as [Hr | (out & Hr & Hsv)]; rewrite Hr; [| rewrite Hsv];
    reflexivity.
Qed.

Lemma processing_failure_witness :
  respond Faulty.world (Demo.inline_request []) =
    mk_response 500 (error_body "onnxruntime: out of memory").
Proof.
  apply (processing_failure Faulty.world [("imageData", JStr "iVBORw0KGgo=")]
           Demo.thumb Demo.thumb Demo.thumb
           [Call_decode_base64_image (JStr "iVBORw0KGgo=")]
           "onnxruntime: out of memory");
    try reflexivity.
  left. reflexivity.
Defined.

(** ** What the size normaliser guarantees *)

Lemma resize_result_bounds (W : World) (im im' : image) (max_size : Z) :
  pillow_size im ->
  fst (run (resize_if_needed W im max_size)) = Returns im' ->
  1 <= width im' <= Z.min (width im) max_size /\
  1 <= height im' <= Z.min (height im) max_size /\
  mode im' = mode im.
Proof.
  intros (Hw & Hh & Hpix) H.
  assert (Hmode : mode im' = mode im)
    by (eapply resize_if_needed_mode; exact H).
  destruct (Z.ltb_spec max_size (Z.max (width im) (height im))) as [Hlt | Hge].
  - unfold run in H. rewrite resize_if_needed_above in H by exact Hlt.
    destruct (new_size (width im) (height im) max_size)
      as [[nw nh] | c msg] eqn:Hns; [| discriminate].
    destruct (Image_resize_returns W im (nw, nh) [] im' H)
      as (Hsz & _ & Hnw & Hnh).
    cbn [fst snd] in Hnw, Hnh. injection Hsz as -> ->.
    assert (Hlarge : Z.max (width im) (height im) < 1125899906842624).
    { change (2 ^ 49) with 562949953421312 in Hpix. nia. }
    unfold new_size in Hns. rewrite Z.gtb_ltb in Hns.
    destruct (Z.ltb_spec (height im) (width im)) as [Hwh | Hwh].
    + destruct (scale_dim (height im) (width im) max_size)
        as [v | c msg] eqn:Hv; [| discriminate].
      injection Hns as <- <-.
      destruct (FloatFacts.scale_dim_bounds (height im) (width im) max_size)
        as (p & Hp & Hlo & Hhi).
      * lia.
      * change (2 ^ 50) with 1125899906842624. lia.
      * change (2 ^ 53) with 9007199254740992. lia.
      * change (2 ^ 49) with 562949953421312 in *. nia.
      * rewrite Hp in Hv. injection Hv as <-.
        assert (p <= max_size) by nia.
        assert (p <= height im) by nia.
        repeat split; try assumption; lia.
    + destruct (scale_dim (width im) (height im) max_size)
        as [v | c msg] eqn:Hv; [| discriminate].
      injection Hns as <- <-.
      destruct (FloatFacts.scale_dim_bounds (width im) (height im) max_size)
        as (p & Hp & Hlo & Hhi).
      * lia.
      * change (2 ^ 50) with 1125899906842624. lia.
      * change (2 ^ 53) with 9007199254740992. lia.
      * change (2 ^ 49) with 562949953421312 in *. nia.
      * rewrite Hp in Hv. injection Hv as <-.
        assert (p <= max_size) by nia.
        assert (p <= width im) by nia.
        repeat split; try assumption; lia.
  - unfold run in H.
    rewrite (resize_if_needed_within W im max_size []) in H by lia.
    injection H as <-. repeat split; lia.
Qed.

(** [int((0 / b) * max_size)] is 0, when it is a number at all. *)
Lemma scale_dim_zero (b m : Z) :
  scale_dim 0 b m = Float.Val 0 \/
  exists c msg, scale_dim 0 b m = Float.Err c msg.
Proof.
  unfold scale_dim, Float.truediv.
  destruct (Z.eqb_spec b 0) as [-> | Hb]; [right; eauto |].
  assert (Hq : exists s,
             SFdiv Float.prec Float.emax (Float.exact_of_Z 0)
               (Float.exact_of_Z b) = S754_zero s).
  { destruct b; [contradiction | cbn; eauto | cbn; eauto]. }
  destruct Hq as (s & ->).
  unfold Float.mul_int.
  destruct (Float.of_int m) as [fz | c msg]; [| right; eauto].
  destruct fz as [s' | s' | | s' m' e']; cbn;
    try (left; reflexivity); right; eauto.
Qed.

(** An image with an empty side is never resized: above the threshold the
    call raises. *)
Lemma resize_empty_raises (W : World) (im : image) (max_size : Z) :
  0 <= width im -> 0 <= height im ->
  width im = 0 \/ height im = 0 ->
  max_size < Z.max (width im) (height im) ->
  exists e, fst (run (resize_if_needed W im max_size)) = Raises e.
Proof.
  intros Hw Hh Hz Hm. unfold run.
  rewrite resize_if_needed_above by exact Hm.
  unfold new_size. rewrite Z.gtb_ltb.
  destruct (Z.ltb_spec (height im) (width im)) as [Hlt | Hge].
  - assert (Hh0 : height im = 0) by lia. rewrite Hh0.
    destruct (scale_dim_zero (width im) max_size) as [-> | (c & msg & ->)];
      [| eauto].
    rewrite Image_resize_run. rewrite orb_true_r. eauto.
  - assert (Hw0 : width im = 0) by lia. rewrite Hw0.
    destruct (scale_dim_zero (height im) max_size) as [-> | (c & msg & ->)];
      [| eauto].
    rewrite Image_resize_run. cbn [orb Z.ltb Z.compare]. eauto.
Qed.

(** For an image with sides that are not negative and at most 2^49 pixels,
    the empty image included, whenever [resize_if_needed] returns, no side
    of the result is larger than the threshold or than it was, and the mode
    is the one of the input.  Within the threshold the result is the image
    that was given; above it both sides of the result are at least 1: an
    image is never enlarged, and a resize never gives an empty image. *)
Theorem resize_bounds (W : World) (im im' : image) (max_size : Z) :
  0 <= width im -> 0 <= height im ->
  width im * height im <= 2 ^ 49 ->
  fst (run (resize_if_needed W im max_size)) = Returns im' ->
  width im' <= Z.min (width im) max_size /\
  height im' <= Z.min (height im) max_size /\
  mode im' = mode im /\
  (Z.max (width im) (height im) <= max_size -> im' = im) /\
  (max_size < Z.max (width im) (height im) ->
   1 <= width im' /\ 1 <= height im').
Proof.
  intros Hw Hh Hpix H.
  destruct (Z.ltb_spec max_size (Z.max (width im) (height im))) as [Hlt | Hge].
  - destruct (Z.eq_dec (width im) 0) as [Hw0 | Hw0];
      [| destruct (Z.eq_dec (height im) 0) as [Hh0 | Hh0]].
    + destruct (resize_empty_raises W im max_size Hw Hh (or_introl Hw0) Hlt)
        as (e & He). rewrite He in H. discriminate.
    + destruct (resize_empty_raises W im max_size Hw Hh (or_intror Hh0) Hlt)
        as (e & He). rewrite He in H. discriminate.
    + assert (Hp : pillow_size im) by (unfold pillow_size; lia).
      destruct (resize_result_bounds W im im' max_size Hp H)
        as (Hbw & Hbh & Hmode).
      split; [lia | split; [lia | split; [assumption |]]].
      split; [intros Hle; exfalso; lia | intros _; lia].
  - unfold run in H.
    rewrite (resize_if_needed_within W im max_size []) in H by lia.
    injection H as <-.
    split; [lia | split; [lia | split; [reflexivity |]]].
    split; [reflexivity | intros Hlt; exfalso; lia].
Qed.

Lemma resize_bounds_witness :
  fst (run (resize_if_needed (Demo.world Demo.photo 2048) Demo.photo 2048)) =
    Returns (mk_image 2048 682 "RGB" []) /\
  2048 <= Z.min 3000 2048 /\ 682 <= Z.min 1000 2048 /\
  "RGB" = "RGB" /\
  (Z.max 3000 1000 <= 2048 -> mk_image 2048 682 "RGB" [] = Demo.photo) /\
  (2048 < Z.max 3000 1000 -> 1 <= 2048 /\ 1 <= 682).
Proof.
  split; [vm_compute; reflexivity |].
  apply (resize_bounds (Demo.world Demo.photo 2048) Demo.photo
           (mk_image 2048 682 "RGB" []) 2048).
  - simpl. lia.
  - simpl. lia.
  - simpl. lia.
  - vm_compute. reflexivity.
Defined.

(** Normalising twice is normalising once: the image [resize_if_needed]
    returns is left as it is by a second call with the same threshold. *)
Theorem resize_idempotent (W : World) (im im' : image) (max_size : Z) :
  pillow_size im ->
  fst (run (resize_if_needed W im max_size)) = Returns im' ->
  run (resize_if_needed W im' max_size) =
    (Returns im', [Call_resize_if_needed im' max_size]).
Proof.
  intros Hp H.
  destruct (resize_result_bounds W im im' max_size Hp H) as (Hw & Hh & _).
  apply resize_if_needed_within; lia.
Qed.

Lemma resize_idempotent_witness :
  run (resize_if_needed (Demo.world Demo.photo 2048)
         (mk_image 2048 682 "RGB" []) 2048) =
    (Returns (mk_image 2048 682 "RGB" []),
     [Call_resize_if_needed (mk_image 2048 682 "RGB" []) 2048]).
Proof.
  apply (resize_idempotent (Demo.world Demo.photo 2048) Demo.photo).
  - unfold pillow_size. simpl. lia.
  - vm_compute. reflexivity.
Defined.

(** In every JSON answer with status 200, [originalSize] is the size of the
    decoded image, [processedSize] is nowhere larger than [originalSize] and
    has no side below 1, and both its sides are within the [max_image_size]
    that [/health] reports. *)
Theorem processed_size_within (W : World) (data : json) (im : image)
  (tr0 : list event) (j : json) :
  run (get_image W data) = (Returns (Some im), tr0) ->
  pillow_size im ->
  respond W (JsonRequest data) = mk_response 200 (JsonBody j) ->
  exists fields hf pw ph cap,
    j = JObj fields /\
    dict_get "originalSize" fields =
      Some (JArr [JInt (width im); JInt (height im)]) /\
    dict_get "processedSize" fields = Some (JArr [JInt pw; JInt ph]) /\
    1 <= pw <= width im /\ 1 <= ph <= height im /\
    resp_body (health W) = JsonBody (JObj hf) /\
    dict_get "max_image_size" hf = Some (JInt cap) /\
    pw <= cap /\ ph <= cap.
Proof.
  intros Hg Hp Hr.
  assert (Hs : status (respond W (JsonRequest data)) = 200) by now rewrite Hr.
  destruct (success_run _ _ _ _ Hg Hs)
    as (kvs & im1 & im2 & out & png & _ & _ & _ & Hsz & H2 & _ & _ & _
        & Hresp).
  assert (Hp1 : pillow_size im1).
  { unfold pillow_size in *. injection Hsz as -> ->. exact Hp. }
  destruct (resize_result_bounds W im1 im2 _ Hp1 H2) as (Hw & Hh & _).
  injection Hsz as Hw1 Hh1. rewrite Hw1 in Hw. rewrite Hh1 in Hh.
  rewrite Hresp in Hr. unfold success_response in Hr.
  destruct (str_eq "binary" (format_of kvs)); [discriminate |].
  injection Hr as <-. unfold envelope, health.
  do 2 eexists. exists (width im2), (height im2), (MAX_IMAGE_SIZE W).
  split; [reflexivity |]. cbn.
  repeat split; try reflexivity; lia.
Qed.

Lemma processed_size_within_witness :
  exists fields hf pw ph cap,
    envelope "data:image/png;base64,iVBORw0KGgo=" (3000, 1000) (2048, 682)
      (elapsed (Demo.world Demo.photo 2048)) = JObj fields /\
    dict_get "originalSize" fields = Some (JArr [JInt 3000; JInt 1000]) /\
    dict_get "processedSize" fields = Some (JArr [JInt pw; JInt ph]) /\
    1 <= pw <= 3000 /\ 1 <= ph <= 1000 /\
    resp_body (health (Demo.world Demo.photo 2048)) = JsonBody (JObj hf) /\
    dict_get "max_image_size" hf = Some (JInt cap) /\
    pw <= cap /\ ph <= cap.
Proof.
  apply (processed_size_within (Demo.world Demo.photo 2048)
           (JObj [("imageData", JStr "iVBORw0KGgo=")]) Demo.photo
           [Call_decode_base64_image (JStr "iVBORw0KGgo=")]).
  - reflexivity.
  - unfold pillow_size. simpl. lia.
  - vm_compute. reflexivity.
Defined.

(** ** The calls of one request *)

Lemma get_image_trace W data tr :
  exists pre,
    snd (get_image W data tr) = (tr ++ pre)%list /\ source_calls pre /\
    forall im, fst (get_image W data tr) = Returns (Some im) ->
               exists kvs, data = JObj kvs.
Proof.
  destruct data as [| b | z | f | s | l | kvs].
  1-4: exists []; rewrite app_nil_r;
       (split; [reflexivity |]); (split; [now left |]); discriminate.
  - exists []. rewrite app_nil_r.
    unfold get_image, py_contains, py_getitem. unfold_monad.
    destruct (str_contains "imageData" s);
      [split; [reflexivity |]; split; [now left | discriminate] |].
    destruct (str_contains "imageUrl" s);
      split; try reflexivity; split; try (now left); discriminate.
  - exists []. rewrite app_nil_r.
    unfold get_image, py_contains, py_getitem. unfold_monad.
    destruct (existsb (str_eq "imageData") l);
      [split; [reflexivity |]; split; [now left | discriminate] |].
    destruct (existsb (str_eq "imageUrl") l);
      split; try reflexivity; split; try (now left); discriminate.
  - rewrite get_image_object.
    destruct (dict_get "imageData" kvs) as [v |].
    + exists [Call_decode_base64_image v].
      pose proof (decode_base64_image_trace W v tr) as Ht.
      destruct (decode_base64_image W v tr) as [[im | e] t];
        cbn [snd] in *; subst t;
        (split; [reflexivity |]); (split; [right; left; eauto | eauto]).
    + destruct (dict_get "imageUrl" kvs) as [v |].
      * exists [Call_fetch_image_from_url v; Net_get v].
        rewrite fetch_image_from_url_run.
        destruct (match requests_get W v with
                  | GetResponse _ => _ | GetRaises _ => _
                  | GetRaisesOther _ _ => _ end) as [im | e];
          (split; [reflexivity |]); (split; [right; right; eauto | eauto]).
      * exists []. rewrite app_nil_r.
        split; [reflexivity |]. split; [now left | eauto].
Qed.

Lemma process_trace_shape W kvs im tr :
  exists post,
    snd (process W (JObj kvs) im tr) = (tr ++ post)%list /\
    processing_calls W post /\
    forall im' a, In (Call_remove im' a) post -> a = alpha_of kvs.
Proof.
  rewrite process_trace. eexists. split; [reflexivity |].
  destruct (fst (run (ensure_rgb W im))) as [im1 | e].
  - destruct (fst (run (resize_if_needed W im1 (MAX_IMAGE_SIZE W))))
      as [im2 | e].
    + split; [right; right; eauto |].
      intros im' a [H | [H | []]]; [discriminate |]. now injection H.
    + split; [right; left; eauto |].
      intros im' a [H | []]. discriminate.
  - split; [now left |]. intros im' a [].
Qed.

(** The calls of a request, in order: those of the image source, then those
    of the processing. *)
Lemma calls_decompose W req :
  exists pre post,
    calls W req = (pre ++ post)%list /\ source_calls pre /\
    processing_calls W post /\
    forall kvs im' a,
      req = JsonRequest (JObj kvs) -> In (Call_remove im' a) post ->
      a = alpha_of kvs.
Proof.
  unfold calls.
  cbv [run remove_background try_except remove_background_body bind ret].
  destruct req as [data | msg].
  2:{ exists [], []. cbn. repeat split; try (now left). intros ? ? ? ? []. }
  destruct (negb (truthy data)).
  { exists [], []. cbn. repeat split; try (now left). intros ? ? ? ? []. }
  destruct (get_image_trace W data []) as (pre & Hpre & Hsrc & Hobj).
  destruct (get_image W data []) as [[[im |] | e] t]; cbn [fst snd] in *;
    subst t; cbn [app].
  - destruct (Hobj im eq_refl) as (kvs & ->).
    destruct (process_trace_shape W kvs im pre) as (post & Hpost & Hsh & Ha).
    exists pre, post.
    destruct (process W (JObj kvs) im pre) as [[r | e] t]; cbn [snd] in *;
      subst t; (split; [reflexivity |]); (split; [exact Hsrc |]);
      (split; [exact Hsh |]); intros kvs' im' a [= <-]; apply Ha.
  - exists pre, []. rewrite app_nil_r. cbn.
    repeat split; try assumption; try (now left). intros ? ? ? ? [].
  - exists pre, []. rewrite app_nil_r. cbn.
    repeat split; try assumption; try (now left). intros ? ? ? ? [].
Qed.

Lemma source_calls_no_remove pre im a :
  source_calls pre -> ~ In (Call_remove im a) pre.
Proof.
  intros [-> | [(v & ->) | (v & ->)]] H; cbn in H;
    repeat (destruct H as [H | H]; try discriminate); exact H.
Qed.

(** One request makes at most one call of a source helper, with its single
    fetch and no second attempt, then at most one sizing and, after it, at
    most one inference: the trace is a source part followed by a processing
    part. *)
Theorem calls_in_order (W : World) (req : request) :
  exists pre post,
    calls W req = (pre ++ post)%list /\
    source_calls pre /\ processing_calls W post.
Proof.
  destruct (calls_decompose W req) as (pre & post & H1 & H2 & H3 & _).
  exists pre, post. auto.
Qed.

(** The [alpha_matting] argument of every call of rembg is the payload's
    value as it came, of whatever JSON type, and [true] when the key is
    absent: the handler never validates or converts it. *)
Theorem alpha_matting_passed_through (W : World) (kvs : list (string * json))
  (im : image) (a : json) :
  In (Call_remove im a) (calls W (JsonRequest (JObj kvs))) ->
  a = option_default (JBool true) (dict_get "alpha_matting" kvs).
Proof.
  destruct (calls_decompose W (JsonRequest (JObj kvs)))
    as (pre & post & H1 & H2 & _ & H4).
  rewrite H1. intros Hin. apply in_app_or in Hin as [Hin | Hin].
  - exfalso. eapply source_calls_no_remove; eassumption.
  - apply (H4 kvs im a eq_refl Hin).
Qed.

Lemma alpha_matting_passed_through_witness :
  JStr "yes" =
    option_default (JBool true)
      (dict_get "alpha_matting"
         [("imageData", JStr "iVBORw0KGgo="); ("alpha_matting", JStr "yes")]).
Proof.
  apply (alpha_matting_passed_through (Demo.world Demo.thumb 2048)
           [("imageData", JStr "iVBORw0KGgo="); ("alpha_matting", JStr "yes")]
           Demo.thumb (JStr "yes")).
  vm_compute. right. right. left. reflexivity.
Defined.

(** ** The two input forms *)

(** The inline and the remote form are interchangeable: two payloads whose
    sources give the same image, with the same [alpha_matting] and
    [return_format], get the same response, the libraries and the clock
    answering alike. *)
Theorem same_image_same_response (W : World) (kvs1 kvs2 : list (string * json))
  (im : image) (t1 t2 : list event) :
  run (get_image W (JObj kvs1)) = (Returns (Some im), t1) ->
  run (get_image W (JObj kvs2)) = (Returns (Some im), t2) ->
  dict_get "alpha_matting" kvs1 = dict_get "alpha_matting" kvs2 ->
  dict_get "return_format" kvs1 = dict_get "return_format" kvs2 ->
  respond W (JsonRequest (JObj kvs1)) = respond W (JsonRequest (JObj kvs2)).
Proof.
  intros H1 H2 Ha Hf. unfold respond.
  rewrite (remove_background_process _ _ _ _ H1).
  rewrite (remove_background_process _ _ _ _ H2).
  pose proof (process_outcome W kvs1 im t1) as O1.
  pose proof (process_outcome W kvs2 im t2) as O2.
  unfold alpha_of, format_of in O1, O2. rewrite Ha, Hf in O1.
  rewrite <- O2 in O1.
  destruct (process W (JObj kvs1) im t1) as [o1 t1'].
  destruct (process W (JObj kvs2) im t2) as [o2 t2'].
  cbn [fst] in O1. subst o1. destruct o2; reflexivity.
Qed.

Lemma same_image_same_response_witness :
  respond (Demo.world Demo.photo 2048)
    (JsonRequest (JObj [("imageData", JStr "iVBORw0KGgo=")])) =
  respond (Demo.world Demo.photo 2048)
    (JsonRequest (JObj [("imageUrl", JStr "https://example.com/photo.png")])).
Proof.
  apply (same_image_same_response (Demo.world Demo.photo 2048)
           [("imageData", JStr "iVBORw0KGgo=")]
           [("imageUrl", JStr "https://example.com/photo.png")]
           Demo.photo
           [Call_decode_base64_image (JStr "iVBORw0KGgo=")]
           [Call_fetch_image_from_url (JStr "https://example.com/photo.png");
            Net_get (JStr "https://example.com/photo.png")]);
    reflexivity.
Defined.

(** ** Data URLs *)

Lemma split_comma_Some s a b :
  split_comma s = Some (a, b) <->
  s = (a ++ String "," b)%string /\ no_comma a.
Proof.
  revert a. induction s as [| c s IH]; intros a; cbn [split_comma].
  - split; [discriminate |]. intros [H _]. destruct a; discriminate.
  - destruct (Ascii.eqb_spec c ","%char) as [-> | Hc].
    + split.
      * intros [= <- <-]. split; [reflexivity | exact I].
      * intros [H Hn]. destruct a as [| c' a'].
        -- cbn in H. now injection H as <-.
        -- cbn in H, Hn. injection H as <- _. now destruct Hn.
    + split.
      * destruct (split_comma s) as [[a' b'] |] eqn:E; [| discriminate].
        intros [= <- <-]. destruct (proj1 (IH a') eq_refl) as [-> Hn].
        split; [reflexivity | split; assumption].
      * intros [H Hn]. destruct a as [| c' a''].
        -- cbn in H. injection H as -> _. now destruct Hc.
        -- cbn in H, Hn. injection H as <- Hs.
           rewrite (proj2 (IH a'') (conj Hs (proj2 Hn))). reflexivity.
Qed.

Lemma split_comma_None s : split_comma s = None <-> no_comma s.
Proof.
  induction s as [| c s IH]; cbn [split_comma no_comma].
  - split; auto.
  - destruct (Ascii.eqb_spec c ","%char) as [-> | Hc].
    + split; [discriminate | intros [H _]; now destruct H].
    + destruct (split_comma s) as [[a b] |].
      * split; [discriminate |]. intros [_ H]. now apply IH in H.
      * split; [intros _; split; [exact Hc | now apply IH] | reflexivity].
Qed.

(** What lines 42-46 hand to the base64 decoder: a string that does not
    start with "data:" goes as it is; one that does is cut after its first
    comma, whatever stands before it; and one that starts with "data:" but
    has no comma has no encoded part at all (the unpacking fails). *)
Theorem encoded_part_spec (s : string) :
  if prefix "data:" s then
    (forall e, encoded_part s = Some e <->
               exists header, s = (header ++ String "," e)%string /\
                              no_comma header) /\
    (encoded_part s = None <-> no_comma s)
  else encoded_part s = Some s.
Proof.
  unfold encoded_part. destruct (prefix "data:" s); [| reflexivity].
  split.
  - intros e. destruct (split_comma s) as [[a b] |] eqn:E.
    + apply split_comma_Some in E as [-> Hn]. split.
      * intros [= <-]. eauto.
      * intros (header & H & Hh).
        assert (E2 : split_comma (a ++ String "," b) = Some (header, e))
          by (apply split_comma_Some; auto).
        assert (E1 : split_comma (a ++ String "," b) = Some (a, b))
          by (apply split_comma_Some; auto).
        rewrite E1 in E2. now injection E2 as _ ->.
    + split; [discriminate |]. intros (header & H & Hh).
      assert (E2 : split_comma s = Some (header, e))
        by (apply split_comma_Some; auto).
      rewrite E in E2. discriminate.
  - destruct (split_comma s) as [[a b] |] eqn:E.
    + split; [discriminate |]. intros Hn. apply split_comma_None in Hn.
      rewrite E in Hn. discriminate.
    + split; [intros _; now apply split_comma_None | reflexivity].
Qed.

Lemma encoded_part_data_url (t : string) :
  encoded_part ("data:image/png;base64," ++ t) = Some t.
Proof. reflexivity. Qed.

(** The [dataUrl] the service sends can be sent back as [imageData]: the
    decoder strips exactly the header [image_to_base64] wrote, and when
    base64 decoding inverts the encoding it opens the very PNG bytes that
    were serialised. *)
Theorem data_url_feeds_back (W : World) (out im : image) (png : list byte) :
  save_PNG W out = Done png ->
  b64decode W (b64encode png) = Done png ->
  Image_open W png = Done im ->
  exists u,
    fst (run (image_to_base64 W out)) = Returns u /\
    encoded_part u = Some (b64encode png) /\
    run (decode_base64_image W (JStr u)) =
      (Returns im, [Call_decode_base64_image (JStr u)]).
Proof.
  intros Hs Hb Ho. exists ("data:image/png;base64," ++ b64encode png).
  split.
  { unfold run, image_to_base64. unfold_monad. rewrite Hs. reflexivity. }
  split; [apply encoded_part_data_url |].
  unfold run, decode_base64_image. unfold_monad.
  rewrite encoded_part_data_url, Hb, Ho. reflexivity.
Qed.

Lemma data_url_feeds_back_witness :
  exists u,
    fst (run (image_to_base64 (Demo.world Demo.thumb 2048) Demo.thumb))
      = Returns u /\
    encoded_part u = Some (b64encode Demo.png_bytes) /\
    run (decode_base64_image (Demo.world Demo.thumb 2048) (JStr u)) =
      (Returns Demo.thumb, [Call_decode_base64_image (JStr u)]).
Proof.
  apply (data_url_feeds_back (Demo.world Demo.thumb 2048) Demo.thumb
           Demo.thumb Demo.png_bytes); reflexivity.
Defined.

(** ** The start-up configuration *)

Lemma split_commas_nonempty s : Config.split_commas s <> [].
Proof.
  destruct s as [| c s]; cbn [Config.split_commas]; [discriminate |].
  destruct (c =? ",")%char; [discriminate |].
  destruct (Config.split_commas s); discriminate.
Qed.

Lemma split_commas_join s :
  String.concat "," (Config.split_commas s) = s /\
  Forall no_comma (Config.split_commas s).
Proof.
  induction s as [| c s [IHj IHn]]; cbn [Config.split_commas].
  - split; [reflexivity | repeat constructor].
  - pose proof (split_commas_nonempty s) as Hne.
    destruct (Ascii.eqb_spec c ","%char) as [-> | Hc].
    + destruct (Config.split_commas s) as [| x xs]; [congruence |].
      split; [| constructor; [exact I | exact IHn]].
      change (String.concat "," ("" :: x :: xs))
        with (String "," (String.concat "," (x :: xs))).
      now rewrite IHj.
    + destruct (Config.split_commas s) as [| x xs]; [congruence |].
      split.
      * destruct xs as [| y ys].
        -- cbn in IHj |- *. now rewrite IHj.
        -- change (String.concat "," (String c x :: y :: ys))
             with (String c (String.concat "," (x :: y :: ys))).
           now rewrite IHj.
      * inversion IHn; subst. constructor; [split; assumption | assumption].
Qed.

(** [ALLOWED_ORIGINS] loses nothing of the variable: joining its entries
    with commas gives the configured text back, no entry contains a comma,
    there is always at least one entry, and an unset variable gives the one
    entry "*". *)
Theorem allowed_origins_round_trip (env : list (string * string)) :
  String.concat "," (Config.ALLOWED_ORIGINS env) =
    Config.environ_get env "ALLOWED_ORIGINS" "*" /\
  Forall no_comma (Config.ALLOWED_ORIGINS env) /\
  Config.ALLOWED_ORIGINS env <> [] /\
  Config.ALLOWED_ORIGINS [] = ["*"].
Proof.
  unfold Config.ALLOWED_ORIGINS.
  destruct (split_commas_join (Config.environ_get env "ALLOWED_ORIGINS" "*"))
    as [H1 H2].
  repeat split; try assumption. apply split_commas_nonempty.
Qed.

Lemma lower_char_cases (c : ascii) :
  (Config.lower_char c = "t"%char <-> c = "t"%char \/ c = "T"%char) /\
  (Config.lower_char c = "r"%char <-> c = "r"%char \/ c = "R"%char) /\
  (Config.lower_char c = "u"%char <-> c = "u"%char \/ c = "U"%char) /\
  (Config.lower_char c = "e"%char <-> c = "e"%char \/ c = "E"%char).
Proof.
  destruct c as [[] [] [] [] [] [] [] []]; vm_compute;
    repeat split; intros H; try discriminate; auto;
    destruct H as [H | H]; discriminate.
Qed.

(** The debug mode is on exactly when [DEBUG] is set to "true" in any mix of
    upper and lower case; any other value, and no value at all, leaves it
    off. *)
Theorem debug_iff (env : list (string * string)) :
  Config.debug env = true <->
  exists c1 c2 c3 c4,
    Config.environ_get env "DEBUG" "false" =
      String c1 (String c2 (String c3 (String c4 EmptyString))) /\
    (c1 = "t" \/ c1 = "T")%char /\ (c2 = "r" \/ c2 = "R")%char /\
    (c3 = "u" \/ c3 = "U")%char /\ (c4 = "e" \/ c4 = "E")%char.
Proof.
  unfold Config.debug. rewrite String.eqb_eq.
  generalize (Config.environ_get env "DEBUG" "false"). intros s. split.
  - destruct s as [| c1 [| c2 [| c3 [| c4 [| c5 s]]]]]; cbn [Config.lower];
      try discriminate.
    intros [= H1 H2 H3 H4]. exists c1, c2, c3, c4.
    split; [reflexivity |].
    repeat split.
    + now apply (proj1 (lower_char_cases c1)).
    + now apply (proj1 (proj2 (lower_char_cases c2))).
    + now apply (proj1 (proj2 (proj2 (lower_char_cases c3)))).
    + now apply (proj2 (proj2 (proj2 (lower_char_cases c4)))).
  - intros (c1 & c2 & c3 & c4 & -> & H1 & H2 & H3 & H4). cbn [Config.lower].
    apply (proj1 (lower_char_cases c1)) in H1.
    apply (proj1 (proj2 (lower_char_cases c2))) in H2.
    apply (proj1 (proj2 (proj2 (lower_char_cases c3)))) in H3.
    apply (proj2 (proj2 (proj2 (lower_char_cases c4)))) in H4.
    now rewrite H1, H2, H3, H4.
Qed.

Example debug_samples :
  map Config.debug
    [[("DEBUG", "true")]; [("DEBUG", "True")]; [("DEBUG", "TRUE")];
     [("DEBUG", "1")]; [("DEBUG", "yes")]; [("DEBUG", " true")]; []]
  = [true; true; true; false; false; false; false].
Proof. reflexivity. Qed.

(** ** The base64 text of the data URL *)

(** The data URL determines the PNG bytes: two results whose serialisations
    differ never get the same data URL, the base64 text being read back to
    the bytes it encodes. *)
Theorem data_url_determines_bytes (W : World) (im1 im2 : image)
  (png1 png2 : list byte) :
  save_PNG W im1 = Done png1 -> save_PNG W im2 = Done png2 ->
  fst (run (image_to_base64 W im1)) = fst (run (image_to_base64 W im2)) ->
  png1 = png2.
Proof.
  intros H1 H2.
  unfold run, image_to_base64. unfold_monad. rewrite H1, H2. cbn [fst].
  intros [= H]. apply (f_equal b64decode_ref) in H.
  rewrite !b64_round_trip in H. now injection H.
Qed.

Lemma data_url_determines_bytes_witness :
  fst (run (image_to_base64 (Demo.world Demo.thumb 2048) Demo.thumb)) =
  fst (run (image_to_base64 (Demo.world Demo.thumb 2048) Demo.scan)) /\
  Demo.png_bytes = Demo.png_bytes.
Proof.
  split; [reflexivity |].
  apply (data_url_determines_bytes (Demo.world Demo.thumb 2048)
           Demo.thumb Demo.scan); reflexivity.
Defined.

(** The length of the base64 text: four characters for every started group
    of three bytes. *)
Lemma b64encode_length (bs : list byte) :
  Z.of_nat (String.length (b64encode bs)) =
    4 * ((Z.of_nat (List.length bs) + 2) / 3).
Proof.
  induction bs as [| a | a b | a b c l IH] using list_ind3;
    try reflexivity.
  cbn [b64encode]. cbv zeta. cbn [String.length List.length].
  rewrite !Nat2Z.inj_succ, IH. Z.div_mod_to_equations. lia.
Qed.

(** ** Exact quotients in binary64 *)

Module ExactFacts.
Import Float FloatFacts.

Lemma shr_1_exact (m : Z) :
  0 <= m ->
  shr_1 (Build_shr_record (2 * m) false false) = Build_shr_record m false false.
Proof. intros Hm. destruct m as [| p | p]; try lia; reflexivity. Qed.

Lemma iter_shr_1_exact (n : positive) (m : Z) :
  0 <= m ->
  iter_pos shr_1 n (Build_shr_record (m * 2 ^ Z.pos n) false false)
  = Build_shr_record m false false.
Proof.
  revert m. induction n as [n IH | n IH |]; intros m Hm; cbn [iter_pos].
  - replace (m * 2 ^ Z.pos n~1) with (2 * (m * 2 ^ Z.pos n * 2 ^ Z.pos n)).
    + rewrite shr_1_exact by nia. rewrite IH by nia. apply IH. exact Hm.
    + rewrite (Pos2Z.inj_xI n).
      replace (2 * Z.pos n + 1) with (1 + Z.pos n + Z.pos n) by lia.
      rewrite !Z.pow_add_r by lia. change (2 ^ 1) with 2. ring.
  - replace (m * 2 ^ Z.pos n~0) with (m * 2 ^ Z.pos n * 2 ^ Z.pos n).
    + rewrite IH by nia. apply IH. exact Hm.
    + rewrite (Pos2Z.inj_xO n).
      replace (2 * Z.pos n) with (Z.pos n + Z.pos n) by lia.
      rewrite !Z.pow_add_r by lia. ring.
  - change (2 ^ 1) with 2. rewrite Z.mul_comm. now apply shr_1_exact.
Qed.

Lemma shr_fexp_53 (m : positive) (e : Z) :
  2 ^ 52 <= Z.pos m < 2 ^ 53 -> -1074 <= e ->
  shr_fexp prec emax (Z.pos m) e loc_Exact =
    (Build_shr_record (Z.pos m) false false, e).
Proof.
  intros Hm He.
  assert (Hd : Z.pos (digits2_pos m) = 53) by now apply digits2_pos_unique.
  unfold shr_fexp. cbn [Zdigits2]. rewrite Hd, fexp_normal by lia.
  replace (53 + e - 53 - e) with 0 by lia. reflexivity.
Qed.

(** A 53-bit mantissa shifted left by [n] bits is rounded back to itself. *)
Lemma binary_round_aux_shifted (sx : bool) (m p : positive) (n : positive)
  (e : Z) :
  2 ^ 52 <= Z.pos m < 2 ^ 53 ->
  Z.pos p = Z.pos m * 2 ^ Z.pos n ->
  -1074 <= e -> e + Z.pos n <= 971 ->
  binary_round_aux prec emax sx (Z.pos p) e loc_Exact
  = S754_finite sx m (e + Z.pos n).
Proof.
  intros Hm Hp He Hov.
  assert (Hpow : 0 < 2 ^ Z.pos n) by (apply Z.pow_pos_nonneg; lia).
  assert (Hd : Z.pos (digits2_pos p) = 53 + Z.pos n).
  { apply digits2_pos_unique. rewrite Hp.
    replace (53 + Z.pos n - 1) with (52 + Z.pos n) by lia.
    rewrite !Z.pow_add_r by lia. split; nia. }
  assert (Hs : shr_fexp prec emax (Z.pos p) e loc_Exact =
               (Build_shr_record (Z.pos m) false false, e + Z.pos n)).
  { unfold shr_fexp. cbn [Zdigits2]. rewrite Hd, fexp_normal by lia.
    replace (53 + Z.pos n + e - 53 - e) with (Z.pos n) by lia.
    cbn [shr shr_record_of_loc]. rewrite Hp.
    rewrite iter_shr_1_exact by lia. reflexivity. }
  unfold binary_round_aux. rewrite Hs.
  cbn [shr_m loc_of_shr_record round_nearest_even].
  rewrite shr_fexp_53 by lia. cbn [shr_m].
  replace (e + Z.pos n <=? emax - prec) with true
    by (symmetry; apply Z.leb_le; unfold emax, prec; lia).
  reflexivity.
Qed.

(** [a / a] is exactly 1.0. *)
Lemma truediv_self (a : positive) :
  Z.pos a < 2 ^ 50 ->
  SFdiv prec emax (S754_finite false a 0) (S754_finite false a 0)
  = S754_finite false 4503599627370496 (-52).
Proof.
  intros Ha.
  pose proof (digits2_pos_bounds a) as [Al Au].
  assert (Hd : Z.pos (digits2_pos a) <= 50) by (apply digits2_pos_le; exact Ha).
  unfold SFdiv, SFdiv_core_binary. cbn [Zdigits2].
  replace (Z.pos (digits2_pos a) + 0 - (Z.pos (digits2_pos a) + 0)) with 0
    by lia.
  change (Z.min (fexp prec emax 0) (0 - 0)) with (-53).
  change (0 - 0 - -53) with 53.
  rewrite Z.shiftl_mul_pow2 by lia.
  assert (Hq : Z.div_eucl (Z.pos a * 2 ^ 53) (Z.pos a) = (2 ^ 53, 0)).
  { assert (H : Z.div_eucl (Z.pos a * 2 ^ 53) (Z.pos a) =
                 (Z.pos a * 2 ^ 53 / Z.pos a, (Z.pos a * 2 ^ 53) mod Z.pos a))
      by (unfold Z.div, Z.modulo;
          now destruct (Z.div_eucl (Z.pos a * 2 ^ 53) (Z.pos a))).
    rewrite H, (Z.mul_comm (Z.pos a)), Z.div_mul, Z.mod_mul by lia.
    reflexivity. }
  rewrite Hq. cbn [xorb].
  replace (new_location (Z.pos a) 0) with loc_Exact
    by (unfold new_location; destruct (Z.even (Z.pos a)); reflexivity).
  reflexivity.
Qed.

(** [int((a / a) * m)] is [m]: a square keeps its proportion exactly. *)
Lemma scale_dim_self (a m : Z) :
  0 < a < 2 ^ 50 -> 0 < m < 2 ^ 53 -> scale_dim a a m = Val m.
Proof.
  intros Ha Hm.
  destruct a as [| a | a]; try lia. destruct m as [| m | m]; try lia.
  destruct (of_int_exact m) as (mc & ec & Hof & Hec & Hmc & Hc); [lia |].
  unfold scale_dim, truediv, mul_int. cbn [Z.eqb exact_of_Z].
  rewrite truediv_self by lia. rewrite Hof. cbn [SFmul xorb].
  rewrite (binary_round_aux_shifted false mc (4503599627370496 * mc) 52);
    [| exact Hmc
     | rewrite Pos2Z.inj_mul; change (2 ^ 52) with 4503599627370496; lia
     | lia | lia].
  replace (-52 + ec + 52) with ec by lia.
  unfold to_int. f_equal.
  destruct ec as [| pe | pe]; try lia.
  rewrite Hc. change (- Z.neg pe) with (Z.pos pe).
  apply Z.div_mul. apply Z.pow_nonzero; lia.
Qed.

(** The quotient and the exponent [SFdiv] rounds for two integers
    0 < a <= b. *)
Lemma SFdiv_integers (a b : positive) :
  Z.pos a <= Z.pos b < 2 ^ 50 ->
  exists t,
    53 <= t <= 102 /\
    2 ^ 52 * Z.pos b <= Z.pos a * 2 ^ t < 2 ^ 54 * Z.pos b /\
    SFdiv prec emax (S754_finite false a 0) (S754_finite false b 0) =
      binary_round_aux prec emax false (Z.pos a * 2 ^ t / Z.pos b) (- t)
        (new_location (Z.pos b) ((Z.pos a * 2 ^ t) mod Z.pos b)).
Proof.
  intros [Hab Hb].
  pose proof (digits2_pos_bounds a) as [Al Au].
  pose proof (digits2_pos_bounds b) as [Bl Bu].
  set (d1 := Z.pos (digits2_pos a)) in *.
  set (d2 := Z.pos (digits2_pos b)) in *.
  assert (Hd2 : d2 <= 50) by (apply digits2_pos_le; exact Hb).
  assert (Hd12 : d1 <= d2) by (apply digits2_pos_le; lia).
  assert (Hd1 : 1 <= d1) by (unfold d1; lia).
  exists (53 + d2 - d1). split; [lia |].
  set (t := 53 + d2 - d1).
  assert (HE : 0 < 2 ^ t) by (apply Z.pow_pos_nonneg; unfold t; lia).
  split.
  - split.
    + apply Z.le_trans with (2 ^ 52 * 2 ^ d2);
        [apply Z.mul_le_mono_nonneg_l; lia |].
      replace (2 ^ 52 * 2 ^ d2) with (2 ^ (d1 - 1) * 2 ^ t).
      * apply Z.mul_le_mono_nonneg_r; lia.
      * rewrite <- !Z.pow_add_r by (unfold t; lia). f_equal. unfold t. lia.
    + apply Z.lt_le_trans with (2 ^ 54 * 2 ^ (d2 - 1));
        [| apply Z.mul_le_mono_nonneg_l; lia].
      replace (2 ^ 54 * 2 ^ (d2 - 1)) with (2 ^ d1 * 2 ^ t).
      * apply Z.mul_lt_mono_pos_r; lia.
      * rewrite <- !Z.pow_add_r by (unfold t; lia). f_equal. unfold t. lia.
  - unfold SFdiv, SFdiv_core_binary. cbn [Zdigits2]. fold d1 d2.
    rewrite fexp_normal by lia.
    replace (Z.min (d1 + 0 - (d2 + 0) - 53) (0 - 0)) with (- t)
      by (unfold t; lia).
    replace (0 - 0 - - t) with t by lia.
    destruct t as [| sh | sh] eqn:Et; try lia.
    rewrite Z.shiftl_mul_pow2 by lia.
    unfold Z.div, Z.modulo.
    destruct (Z.div_eucl (Z.pos a * 2 ^ Z.pos sh) (Z.pos b)) as [q r].
    reflexivity.
Qed.

(** An exact location for a quotient with a zero remainder. *)
Lemma new_location_zero (b : Z) : new_location b 0 = loc_Exact.
Proof. unfold new_location. destruct (Z.even b); reflexivity. Qed.

(** With a power of two for threshold, an exact quotient is computed
    exactly: [int((a / b) * 2^j)] is [k] when [a * 2^j = k * b]. *)
Lemma scale_dim_pow2_exact (a b j k : Z) :
  0 < a <= b -> b < 2 ^ 50 -> 0 <= j <= 49 -> a * 2 ^ j = k * b ->
  scale_dim a b (2 ^ j) = Val k.
Proof.
  intros Ha Hb Hj Hk.
  destruct a as [| a | a]; try lia. destruct b as [| b | b]; try lia.
  assert (Hpj : 0 < 2 ^ j) by (apply Z.pow_pos_nonneg; lia).
  assert (Hkpos : 0 < k) by nia.
  destruct (SFdiv_integers a b) as (t & Ht & [Hlo Hhi] & Hdiv); [lia |].
  (* the quotient *)
  assert (Hsplit : 2 ^ t = 2 ^ j * 2 ^ (t - j))
    by (rewrite <- Z.pow_add_r by lia; f_equal; lia).
  assert (Hpt : 0 < 2 ^ (t - j)) by (apply Z.pow_pos_nonneg; lia).
  assert (Hnum : Z.pos a * 2 ^ t = k * 2 ^ (t - j) * Z.pos b)
    by (rewrite Hsplit; nia).
  rewrite Hnum, Z.div_mul, Z.mod_mul, new_location_zero in Hdiv by lia.
  rewrite Hnum in Hlo, Hhi.
  assert (Hq : 2 ^ 52 <= k * 2 ^ (t - j) < 2 ^ 54).
  { split.
    - apply (Z.mul_le_mono_pos_r _ _ (Z.pos b)); lia.
    - apply (Z.mul_lt_mono_pos_r (Z.pos b)); lia. }
  (* the rounded quotient: its value is the quotient itself *)
  assert (Hf : exists mf ef,
             SFdiv prec emax (S754_finite false a 0) (S754_finite false b 0)
               = S754_finite false mf ef /\
             2 ^ 52 <= Z.pos mf < 2 ^ 53 /\ - t <= ef <= 1 - t /\
             Z.pos mf * 2 ^ (ef + t) = k * 2 ^ (t - j)).
  { rewrite Hdiv.
    destruct (k * 2 ^ (t - j)) as [| q | q] eqn:Eq; try lia.
    destruct (Z.ltb_spec (Z.pos q) (2 ^ 53)) as [Hlt | Hge].
    - exists q, (- t). rewrite binary_round_aux_exact by lia.
      replace (- t + t) with 0 by lia. rewrite Z.pow_0_r.
      repeat split; lia.
    - assert (Heven : Z.pos q = 2 * (k * 2 ^ (t - j - 1))).
      { rewrite <- Eq.
        replace (2 ^ (t - j)) with (2 * 2 ^ (t - j - 1)); [ring |].
        rewrite <- Z.pow_succ_r by lia. f_equal. lia. }
      destruct (k * 2 ^ (t - j - 1)) as [| h | h] eqn:Eh; try lia.
      exists h, (- t + 1).
      rewrite (binary_round_aux_shifted false h q 1);
        [| change (2 ^ 54) with (2 * 2 ^ 53) in Hq;
           change (2 ^ 53) with (2 * 2 ^ 52) in Hq, Hge |- *; lia
         | change (2 ^ 1) with 2; lia | lia | lia].
      replace (- t + 1 + t) with 1 by lia. change (2 ^ 1) with 2.
      repeat split; lia. }
  destruct Hf as (mf & ef & Hdivf & Hmf & Hef & Hval).
  (* the threshold as a float: 2^52 * 2^(j-52) *)
  destruct (2 ^ j) as [| pj | pj] eqn:Epj; try lia.
  destruct (of_int_exact pj) as (mc & ec & Hof & Hec & Hmc & Hc).
  { rewrite <- Epj. apply Z.pow_lt_mono_r; lia. }
  assert (Hmc52 : Z.pos mc = 2 ^ 52 /\ ec = j - 52).
  { rewrite <- Epj, <- Z.pow_add_r in Hc by lia. rewrite Hc in Hmc.
    assert (j + - ec = 52).
    { destruct Hmc as [H1 H2].
      apply Z.pow_le_mono_r_iff in H1; [| lia | lia].
      apply Z.pow_lt_mono_r_iff in H2; lia. }
    split; [rewrite Hc; f_equal |]; lia. }
  destruct Hmc52 as [Hmc52 ->].
  unfold scale_dim, truediv, mul_int. cbn [Z.eqb exact_of_Z].
  rewrite Hdivf, Hof. cbn [SFmul xorb].
  rewrite (binary_round_aux_shifted false mf (mf * mc) 52);
    [| exact Hmf | rewrite Pos2Z.inj_mul, Hmc52; reflexivity | lia | lia].
  replace (ef + (j - 52) + 52) with (ef + j) by lia.
  unfold to_int. f_equal.
  destruct (ef + j) as [| pe | pe] eqn:Ee.
  - replace (ef + t) with (t - j) in Hval by lia.
    rewrite Z.pow_0_r, Z.mul_1_r.
    apply (Z.mul_reg_r _ _ (2 ^ (t - j))); lia.
  - replace (ef + t) with (Z.pos pe + (t - j)) in Hval by lia.
    rewrite (Z.pow_add_r 2 (Z.pos pe) (t - j)) in Hval by lia.
    apply (Z.mul_reg_r _ _ (2 ^ (t - j))); [lia |].
    rewrite <- Hval. ring.
  - assert (Hmfk : Z.pos mf = k * 2 ^ Z.pos pe).
    { replace (t - j) with (Z.pos pe + (ef + t)) in Hval by lia.
      rewrite (Z.pow_add_r 2 (Z.pos pe) (ef + t)) in Hval by lia.
      assert (0 < 2 ^ (ef + t)) by (apply Z.pow_pos_nonneg; lia).
      apply (Z.mul_reg_r _ _ (2 ^ (ef + t))); [lia |].
      rewrite Hval. ring. }
    rewrite Hmfk. apply Z.div_mul. apply Z.pow_nonzero; lia.
Qed.

(** With a power of two for threshold the truncation is that of the exact
    quotient. *)
Lemma scale_dim_pow2 (a b j : Z) :
  0 < a <= b -> b < 2 ^ 50 -> 0 <= j <= 49 -> a * 2 ^ j <= 2 ^ 49 ->
  scale_dim a b (2 ^ j) = Val (2 ^ j * a / b).
Proof.
  intros Ha Hb Hj Ham.
  pose proof (Z.div_mod (2 ^ j * a) b ltac:(lia)) as Hdm.
  pose proof (Z.mod_pos_bound (2 ^ j * a) b ltac:(lia)) as Hmb.
  destruct (Z.eq_dec ((2 ^ j * a) mod b) 0) as [H0 | Hn0].
  - apply scale_dim_pow2_exact; try assumption. lia.
  - assert (Hpj : 0 < 2 ^ j < 2 ^ 53).
    { split; [apply Z.pow_pos_nonneg; lia | apply Z.pow_lt_mono_r; lia]. }
    destruct (scale_dim_bounds a b (2 ^ j) Ha Hb Hpj Ham)
      as (p & Hp & Hlo & Hhi).
    rewrite Hp. f_equal.
    revert Hdm Hmb Hn0 Hlo Hhi.
    generalize (2 ^ j * a / b) ((2 ^ j * a) mod b). intros q r **.
    assert (a * 2 ^ j = b * q + r) by lia.
    assert (p < q + 1) by nia. assert (q < p + 1) by nia. lia.
Qed.

End ExactFacts.

(** ** Exact sizes *)

Example new_size_samples :
  new_size 3000 1000 2048 = Float.Val (2048, 682) /\
  new_size 1000 290 128 = Float.Val (128, 37) /\
  new_size 1000 290 100 = Float.Val (100, 28) /\
  new_size 4000 2000 2048 = Float.Val (2048, 1024) /\
  new_size 2500 2500 1000 = Float.Val (1000, 1000).
Proof. repeat split; vm_compute; reflexivity. Qed.

(** With a power of two for threshold - the default 2048 is one - the
    smaller side requested is exactly the integer quotient
    [threshold * smaller / larger]: the case "one less" of the general
    statement does not occur. *)
Theorem power_of_two_threshold (W : World) (im : image) (j : Z) :
  pillow_size im ->
  0 <= j -> 2 ^ j < Z.max (width im) (height im) ->
  let sz := if width im >? height im
            then (2 ^ j, 2 ^ j * height im / width im)
            else (2 ^ j * width im / height im, 2 ^ j) in
  new_size (width im) (height im) (2 ^ j) = Float.Val sz /\
  fst (run (resize_if_needed W im (2 ^ j))) = fst (run (Image_resize W im sz)).
Proof.
  intros (Hw & Hh & Hpix) Hj Hmax sz.
  assert (Hlarge : Z.max (width im) (height im) < 2 ^ 50).
  { change (2 ^ 50) with 1125899906842624.
    change (2 ^ 49) with 562949953421312 in Hpix. nia. }
  assert (Hpj : 0 < 2 ^ j) by (apply Z.pow_pos_nonneg; lia).
  assert (Hj49 : j <= 49).
  { assert (j < 50); [| lia]. apply (Z.pow_lt_mono_r_iff 2); lia. }
  assert (Hns : new_size (width im) (height im) (2 ^ j) = Float.Val sz).
  { unfold new_size, sz. rewrite Z.gtb_ltb.
    destruct (Z.ltb_spec (height im) (width im)) as [Hlt | Hge].
    - rewrite ExactFacts.scale_dim_pow2; [reflexivity | lia | lia | lia |].
      change (2 ^ 49) with 562949953421312 in *. nia.
    - rewrite ExactFacts.scale_dim_pow2; [reflexivity | lia | lia | lia |].
      change (2 ^ 49) with 562949953421312 in *. nia. }
  split; [exact Hns |].
  unfold run at 1. rewrite resize_if_needed_above by exact Hmax.
  now rewrite Hns.
Qed.

Lemma power_of_two_threshold_witness :
  new_size 3000 1000 (2 ^ 11) = Float.Val (2 ^ 11, 2 ^ 11 * 1000 / 3000) /\
  fst (run (resize_if_needed (Demo.world Demo.photo 2048) Demo.photo (2 ^ 11)))
  = fst (run (Image_resize (Demo.world Demo.photo 2048) Demo.photo
                (2 ^ 11, 2 ^ 11 * 1000 / 3000))).
Proof.
  apply (power_of_two_threshold (Demo.world Demo.photo 2048) Demo.photo 11).
  - unfold pillow_size. simpl. lia.
  - lia.
  - simpl. lia.
Defined.

(** A square image above the threshold becomes a square of the threshold:
    [w / w] is exactly 1.0 and the product is the threshold itself. *)
Theorem square_stays_square (W : World) (im : image) (max_size : Z) :
  pillow_size im ->
  width im = height im ->
  0 < max_size < width im ->
  new_size (width im) (height im) max_size = Float.Val (max_size, max_size) /\
  fst (run (resize_if_needed W im max_size)) =
    match resample_raster W im (max_size, max_size) with
    | Done px => Returns (mk_image max_size max_size (mode im) px)
    | Failed msg => Raises (mk_exn LibraryError msg)
    end.
Proof.
  intros (Hw & Hh & Hpix) Heq Hmax.
  assert (Hlarge : width im < 2 ^ 50).
  { change (2 ^ 50) with 1125899906842624.
    change (2 ^ 49) with 562949953421312 in Hpix. nia. }
  assert (Hns : new_size (width im) (height im) max_size =
                Float.Val (max_size, max_size)).
  { unfold new_size. rewrite <- Heq.
    replace (width im >? width im) with false
      by (symmetry; rewrite Z.gtb_ltb; apply Z.ltb_irrefl).
    rewrite ExactFacts.scale_dim_self; [reflexivity | lia |].
    change (2 ^ 53) with 9007199254740992.
    change (2 ^ 50) with 1125899906842624 in Hlarge. lia. }
  split; [exact Hns |].
  unfold run. rewrite resize_if_needed_above by lia.
  rewrite Hns, Image_resize_run.
  replace (max_size <? 1) with false by (symmetry; apply Z.ltb_ge; lia).
  reflexivity.
Qed.

Lemma square_stays_square_witness :
  new_size 2500 2500 1000 = Float.Val (1000, 1000) /\
  fst (run (resize_if_needed (Demo.world Demo.photo 1000)
              (mk_image 2500 2500 "RGB" []) 1000)) =
    Returns (mk_image 1000 1000 "RGB" []).
Proof.
  apply (square_stays_square (Demo.world Demo.photo 1000)
           (mk_image 2500 2500 "RGB" []) 1000).
  - unfold pillow_size. simpl. lia.
  - reflexivity.
  - simpl. lia.
Defined.

(** ** The data URL and the other endpoints *)

Lemma prefix_append (s t : string) : prefix s (s ++ t) = true.
Proof.
  induction s as [| c s IH]; [now destruct t |].
  cbn [append prefix]. now destruct (ascii_dec c c).
Qed.

(** The data URL of a result is the 22 characters of its header followed by
    four characters for every started group of three PNG bytes. *)
Theorem data_url_length (W : World) (im : image) (png : list byte) :
  save_PNG W im = Done png ->
  exists u,
    fst (run (image_to_base64 W im)) = Returns u /\
    prefix "data:image/png;base64," u = true /\
    Z.of_nat (String.length u) =
      22 + 4 * ((Z.of_nat (List.length png) + 2) / 3).
Proof.
  intros Hs. exists ("data:image/png;base64," ++ b64encode png).
  split; [unfold run, image_to_base64; unfold_monad; now rewrite Hs |].
  split; [apply prefix_append |].
  cbn [append String.length]. rewrite !Nat2Z.inj_succ, b64encode_length. lia.
Qed.

Lemma data_url_length_witness :
  exists u,
    fst (run (image_to_base64 (Demo.world Demo.thumb 2048) Demo.thumb))
      = Returns u /\
    prefix "data:image/png;base64," u = true /\
    Z.of_nat (String.length u) =
      22 + 4 * ((Z.of_nat (List.length Demo.png_bytes) + 2) / 3).
Proof.
  apply (data_url_length (Demo.world Demo.thumb 2048) Demo.thumb).
  reflexivity.
Defined.

(** ** The other endpoints *)

Example endpoints_name_the_model (W : World) :
  exists hf mf,
    health W = mk_response 200 (JsonBody (JObj hf)) /\
    list_models W = mk_response 200 (JsonBody (JObj mf)) /\
    dict_get "model" hf = Some (JStr (MODEL_NAME W)) /\
    dict_get "current" mf = Some (JStr (MODEL_NAME W)).
Proof. do 2 eexists. repeat split. Qed.
